(** * RentedFleet: the hire-to-settlement workflow of [fleet_app.py]

    A shallow embedding of the console application [src/fleet_app.py]
    (Python over SQLite) and the properties of its hire, invoice and
    supplier-payment modules, of their menus and of the master data that
    they refer to.

    Conventions of the embedding.
    - A Python [str] is a [string] whose characters are code points below
      256. Text outside Latin-1 is not represented, and what is said of
      every text is said of every text of Latin-1.
    - A Python [int] is a [Z]; a Python [float] and an SQLite REAL are
      IEEE-754 binary64 values, [spec_float] with [prec = 53] and
      [emax = 1024].
    - The console is a list of pending input lines and a log of what was
      written; the database is one list of rows per table, in insertion
      order.
    - A function of the program is a function from the world before the call
      to its outcome: a value and the world after it, or the exception that
      escaped together with the world at that point.
    - Limits of the interpreter and of the storage are left out: the
      length limit of [int] and [str] conversions, memory, and the largest
      row id. SQLite refuses a LIKE pattern of more than 50000 bytes; the
      searches are described for the patterns that fit
      ([Sql.like_pattern_fits]). Rows hold values of the declared column
      types. *)

From Stdlib Require Import ZArith NArith PArith List String Ascii Bool Lia.
From Stdlib Require Import DecimalString DecimalPos DecimalN DecimalFacts.
From Stdlib Require Import SpecFloat QArith.
From Stdlib Require Import RelationClasses.
From Stdlib Require Import Permutation Sorted.
Import ListNotations.
Open Scope string_scope.
Open Scope Z_scope.
Open Scope list_scope.

(** ** Python text primitives *)

Module Py.

(** [str.isspace] on one character, for code points below 256: TAB..CR,
    FS..US, SPACE, NEL (0x85) and NBSP (0xA0). *)
Definition isspace (c : ascii) : bool :=
  let n := N_of_ascii c in
  ((9 <=? n) && (n <=? 13) || (28 <=? n) && (n <=? 32)
   || (n =? 133) || (n =? 160))%N.

Definition isdigit (c : ascii) : bool :=
  let n := N_of_ascii c in ((48 <=? n) && (n <=? 57))%N.

Fixpoint lstrip_chars (l : list ascii) : list ascii :=
  match l with
  | c :: l' => if isspace c then lstrip_chars l' else l
  | [] => []
  end.

Definition strip_chars (l : list ascii) : list ascii :=
  rev (lstrip_chars (rev (lstrip_chars l))).

(** [s.strip()] *)
Definition strip (s : string) : string :=
  string_of_list_ascii (strip_chars (list_ascii_of_string s)).

(** The white space that [int] and [float] skip around a literal: below
    127 the six characters of C's [isspace], TAB..CR and SPACE, and above
    it what [str.isspace] holds, NEL and NBSP. FS..US are white space for
    [strip] but not here. *)
Definition isspace_literal (c : ascii) : bool :=
  let n := N_of_ascii c in
  ((9 <=? n) && (n <=? 13) || (n =? 32) || (n =? 133) || (n =? 160))%N.

Fixpoint lskip_chars (l : list ascii) : list ascii :=
  match l with
  | c :: l' => if isspace_literal c then lskip_chars l' else l
  | [] => []
  end.

Definition skip_chars (l : list ascii) : list ascii :=
  rev (lskip_chars (rev (lskip_chars l))).

(** [s.split(sep)] for a one-character separator: the pieces between the
    occurrences of [sep], never an empty list. *)
Fixpoint split_chars (sep : ascii) (l : list ascii) : list (list ascii) :=
  match l with
  | [] => [[]]
  | c :: l' =>
      if Ascii.eqb c sep then [] :: split_chars sep l'
      else match split_chars sep l' with
           | piece :: pieces => (c :: piece) :: pieces
           | [] => [[c]]
           end
  end.

Definition split (sep : ascii) (s : string) : list string :=
  map string_of_list_ascii (split_chars sep (list_ascii_of_string s)).

(** [pieces[-1]] on the result of [split]. *)
Definition last_piece (pieces : list string) : string := last pieces "".

(** Underscores in a numeric literal are accepted only between two digits;
    [drop_underscores prev l] removes them, or fails. [prev] tells whether
    the character before [l] is a digit. *)
Fixpoint drop_underscores (prev_digit : bool) (l : list ascii)
  : option (list ascii) :=
  match l with
  | [] => Some []
  | c :: l' =>
      if Ascii.eqb c "_" then
        match l' with
        | d :: _ =>
            if prev_digit && isdigit d then drop_underscores false l'
            else None
        | [] => None
        end
      else option_map (cons c) (drop_underscores (isdigit c) l')
  end.

Definition digit_value (c : ascii) : N := (N_of_ascii c - 48)%N.

Definition digits_value (l : list ascii) : N :=
  fold_left (fun acc c => (digit_value c + 10 * acc)%N) l 0%N.

(** The digits of a literal: not empty, digits only. *)
Definition all_digits (l : list ascii) : bool :=
  match l with [] => false | _ => forallb isdigit l end.

(** An optional sign in front of the rest. *)
Definition take_sign (l : list ascii) : bool * list ascii :=
  match l with
  | c :: l' =>
      if Ascii.eqb c "-" then (true, l')
      else if Ascii.eqb c "+" then (false, l')
      else (false, l)
  | [] => (false, [])
  end.

(** [int(s)] for a [str] in base 10: the white space of a literal around
    it, an optional sign, digits with single underscores between them.
    [None] is [ValueError]. *)
Definition int (s : string) : option Z :=
  let (neg, body) := take_sign (skip_chars (list_ascii_of_string s)) in
  match drop_underscores false body with
  | Some ds =>
      if all_digits ds
      then let n := Z.of_N (digits_value ds) in
           Some (if neg then - n else n)
      else None
  | None => None
  end.

(** [str(n)] for an [int]. *)
Definition str_of_N (n : N) : string := NilZero.string_of_uint (N.to_uint n).

Definition str_of_int (n : Z) : string :=
  match n with
  | Zneg p => ("-" ++ str_of_N (Npos p))%string
  | _ => str_of_N (Z.to_N n)
  end.

Fixpoint zeros (k : nat) : string :=
  match k with O => "" | S k' => String "0" (zeros k') end.

(** [format(n, "04d")]: the sign, then the digits filled with zeros on the
    left up to a total width of 4; a longer number is printed in full. *)
Definition format_04d (n : Z) : string :=
  match n with
  | Zneg p =>
      let ds := str_of_N (Npos p) in
      ("-" ++ zeros (3 - String.length ds) ++ ds)%string
  | _ =>
      let ds := str_of_N (Z.to_N n) in
      (zeros (4 - String.length ds) ++ ds)%string
  end.


(** *** Floats *)

Definition float := spec_float.

Definition prec : Z := 53.
Definition emax : Z := 1024.

Definition fmul : float -> float -> float := SFmul prec emax.

Definition is_nan (x : float) : bool :=
  match x with S754_nan => true | _ => false end.

(** The binary64 nearest to [m * 10 ^ e10], ties to even. A negative power
    of ten is a quotient: it is cut after at least 64 significant bits and
    the remainder decides the rounding. *)
Definition round_decimal (neg : bool) (m : positive) (e10 : Z) : float :=
  if 0 <=? e10 then
    binary_round prec emax neg (Z.to_pos (Zpos m * 10 ^ e10)) 0
  else
    let d := 10 ^ (- e10) in
    let s := Z.max 0 (Z.log2 d + 66 - Z.log2 (Zpos m)) in
    let (q, r) := Z.div_eucl (Z.shiftl (Zpos m) s) d in
    binary_round_aux prec emax neg q (- s) (new_location d r).

(** [float(n)] for an [int]; [None] is [OverflowError]. *)
Definition float_of_int (n : Z) : option float :=
  match binary_normalize prec emax n 0 false with
  | S754_infinity _ => None
  | x => Some x
  end.

Definition lower (c : ascii) : ascii :=
  let n := N_of_ascii c in
  if ((65 <=? n) && (n <=? 90))%N then ascii_of_N (n + 32) else c.

Definition lower_chars (l : list ascii) : list ascii := map lower l.

Fixpoint span_digits (l : list ascii) : list ascii * list ascii :=
  match l with
  | c :: l' =>
      if isdigit c
      then let (ds, rest) := span_digits l' in (c :: ds, rest)
      else ([], l)
  | [] => ([], [])
  end.

(** The exponent part of a decimal literal: nothing, or [e], an optional
    sign and at least one digit, up to the end of the text. *)
Definition exponent (l : list ascii) : option Z :=
  match l with
  | [] => Some 0
  | c :: l' =>
      if Ascii.eqb (lower c) "e" then
        let (neg, body) := take_sign l' in
        if all_digits body
        then let n := Z.of_N (digits_value body) in
             Some (if neg then - n else n)
        else None
      else None
  end.

(** A decimal literal without its sign: digits, an optional point and
    digits, at least one digit in all, an optional exponent. The result is
    the integer written by the digits and the power of ten to apply. *)
Definition decimal (l : list ascii) : option (N * Z) :=
  let (ip, rest) := span_digits l in
  let (fp, rest') :=
    match rest with
    | c :: r => if Ascii.eqb c "." then span_digits r else ([], rest)
    | [] => ([], [])
    end in
  match ip ++ fp with
  | [] => None
  | ds =>
      match exponent rest' with
      | Some e => Some (digits_value ds, e - Z.of_nat (List.length fp))
      | None => None
      end
  end.

Definition chars (s : string) : list ascii := list_ascii_of_string s.

(** The rational number that a finite float stands for. *)
Definition exact (x : float) : option Q :=
  match x with
  | S754_zero _ => Some 0%Q
  | S754_finite s m e =>
      Some (inject_Z (if s then Zneg m else Zpos m) * Qpower 2 e)%Q
  | _ => None
  end.

(** [float(s)] for a [str]: the white space of a literal around it,
    underscores between digits, a sign, then [inf], [infinity] or [nan] in
    any case, or a decimal literal. A literal too large is an infinity.
    [None] is [ValueError]. *)
Definition float_of_str (s : string) : option float :=
  match drop_underscores false (skip_chars (chars s)) with
  | None => None
  | Some l =>
      let (neg, body) := take_sign l in
      let name := string_of_list_ascii (lower_chars body) in
      if String.eqb name "inf" || String.eqb name "infinity"
      then Some (S754_infinity neg)
      else if String.eqb name "nan" then Some S754_nan
      else match decimal body with
           | Some (N0, _) => Some (S754_zero neg)
           | Some (Npos m, e10) => Some (round_decimal neg m e10)
           | None => None
           end
  end.

(** *** Text of several lines and upper case *)

(** The line feed that a literal writes as a backslash and an n. *)
Definition nl : string := String (ascii_of_N 10) "".

(** A literal of several lines, each line feed written between two lines. *)
Fixpoint text_lines (ls : list string) : string :=
  match ls with
  | [] => ""
  | [l] => l
  | l :: ls' => (l ++ nl ++ text_lines ls')%string
  end.

(** [c.upper()] as code points, for a code point below 256: a-z and the
    accented small letters move down by 32, the sharp s becomes two
    capitals S, and the micro sign and the y with diaeresis leave
    Latin-1. Code points from 256 on are not represented; among them the
    long s, U+017F, also becomes a capital S. *)
Definition upper_char (c : ascii) : list N :=
  let n := N_of_ascii c in
  (if (97 <=? n) && (n <=? 122) then [n - 32]
   else if n =? 181 then [924]
   else if n =? 223 then [83; 83]
   else if (224 <=? n) && (n <=? 254) && negb (n =? 247) then [n - 32]
   else if n =? 255 then [376]
   else [n])%N.

(** [s.upper()] *)
Definition upper (s : string) : list N :=
  flat_map upper_char (list_ascii_of_string s).

(** The code points of a literal. *)
Definition codes (s : string) : list N :=
  map N_of_ascii (list_ascii_of_string s).

Fixpoint codes_eqb (a b : list N) : bool :=
  match a, b with
  | [], [] => true
  | x :: a', y :: b' => (x =? y)%N && codes_eqb a' b'
  | _, _ => false
  end.

End Py.

Example int_padded : Py.int "0007" = Some 7.
Proof. reflexivity. Qed.

Example int_spaces_sign : Py.int "  -1_000 " = Some (-1000).
Proof. reflexivity. Qed.

Example int_rejects_double_underscore : Py.int "1__0" = None.
Proof. reflexivity. Qed.

Example int_rejects_empty : Py.int "" = None.
Proof. reflexivity. Qed.

Example int_rejects_inner_space : Py.int "- 5" = None.
Proof. reflexivity. Qed.

Example int_rejects_separator :
  Py.strip (String (ascii_of_N 28) "5") = "5"
  /\ Py.int (String (ascii_of_N 28) "5") = None
  /\ Py.int (String (ascii_of_N 160) "5") = Some 5.
Proof. repeat split. Qed.

Example format_small : Py.format_04d 7 = "0007".
Proof. reflexivity. Qed.

Example format_wide : Py.format_04d 12345 = "12345".
Proof. reflexivity. Qed.

Example format_negative : Py.format_04d (-5) = "-005".
Proof. reflexivity. Qed.

Example split_last : Py.last_piece (Py.split "-" "INV-A-0042") = "0042".
Proof. reflexivity. Qed.

Example split_no_separator : Py.split "-" "abc" = ["abc"].
Proof. reflexivity. Qed.

Example split_trailing : Py.split "-" "INV-" = ["INV"; ""].
Proof. reflexivity. Qed.

Example float_tenth :
  Py.float_of_str "0.1" = Some (S754_finite false 7205759403792794 (-56)).
Proof. vm_compute. reflexivity. Qed.

Example float_150 :
  Py.float_of_str "150.00" = Some (S754_finite false 5277655813324800 (-45)).
Proof. vm_compute. reflexivity. Qed.

Example float_nan : Py.float_of_str " NaN " = Some S754_nan.
Proof. reflexivity. Qed.

Example float_overflow : Py.float_of_str "1e400" = Some (S754_infinity false).
Proof. vm_compute. reflexivity. Qed.

Example float_rejects_bare_point : Py.float_of_str "." = None.
Proof. reflexivity. Qed.

Example float_rejects_bare_exponent : Py.float_of_str "1e" = None.
Proof. reflexivity. Qed.

(** ** SQLite values and operators *)

Module Sql.

(** The storage classes the program uses: NULL, INTEGER, REAL and TEXT.
    The same type stands for the Python values that [sqlite3] returns and
    accepts: [None], [int], [float] and [str]. *)
Inductive value :=
| Null
| Int (z : Z)
| Real (x : Py.float)
| Text (s : string).

Definition opt_int (o : option Z) : value :=
  match o with Some z => Int z | None => Null end.

Definition opt_real (o : option Py.float) : value :=
  match o with Some x => Real x | None => Null end.

Definition opt_text (o : option string) : value :=
  match o with Some s => Text s | None => Null end.

(** [a = b] in a WHERE clause, on two values of the same storage class (the
    program always compares a column with a parameter of the column's
    declared type). NULL equals nothing; TEXT is compared byte for byte. *)
Definition eqb (a b : value) : bool :=
  match a, b with
  | Int x, Int y => x =? y
  | Text s, Text t => String.eqb s t
  | Real x, Real y => SFeqb x y
  | _, _ => false
  end.

(** An [int] parameter must fit SQLite's signed 64-bit INTEGER. *)
Definition fits_int64 (z : Z) : bool :=
  (- 2 ^ 63 <=? z) && (z <? 2 ^ 63).

(** What a REAL column gives back for a [float] stored in it. A value
    without fraction is kept as an integer and turned into a float again
    when it is read, which only a negative zero does not survive: it comes
    back as 0.0. *)
Definition real_column (x : Py.float) : Py.float :=
  match x with
  | S754_zero _ => S754_zero false
  | _ => x
  end.

(** A [float] parameter for a REAL column: NaN is stored as NULL, any
    other value as [real_column] has it. *)
Definition bind_real (x : Py.float) : option Py.float :=
  if Py.is_nan x then None else Some (real_column x).

(** The text as LIKE reads it: up to its first NUL character. *)
Fixpoint until_nul (l : list ascii) : list ascii :=
  match l with
  | c :: l' => if Ascii.eqb c zero then [] else c :: until_nul l'
  | [] => []
  end.

(** [s LIKE pat] without ESCAPE: [%] stands for any run of characters, [_]
    for any one character, and letters A-Z and a-z match in either case.
    The pattern and the text both end at their first NUL. *)
Definition char_like (p c : ascii) : bool :=
  Ascii.eqb (Py.lower p) (Py.lower c).

Fixpoint like_chars (pat : list ascii) : list ascii -> bool :=
  match pat with
  | [] => fun s => match s with [] => true | _ :: _ => false end
  | p :: pat' =>
      if Ascii.eqb p "%" then
        fix any (s : list ascii) : bool :=
          like_chars pat' s
          || match s with [] => false | _ :: s' => any s' end
      else if Ascii.eqb p "_" then
        fun s => match s with [] => false | _ :: s' => like_chars pat' s' end
      else
        fun s => match s with
                 | [] => false
                 | c :: s' => char_like p c && like_chars pat' s'
                 end
  end.

Definition like (s pat : string) : bool :=
  like_chars (until_nul (list_ascii_of_string pat))
    (until_nul (list_ascii_of_string s)).

(** The bytes that a text takes in the database, in UTF-8: one for a code
    point below 128, two for one from 128 to 255. *)
Definition utf8_length (s : string) : Z :=
  fold_right (fun c n => (if (N_of_ascii c <? 128)%N then 1 else 2) + n) 0
    (list_ascii_of_string s).

(** SQLITE_MAX_LIKE_PATTERN_LENGTH: a longer pattern makes LIKE fail with
    LIKE or GLOB pattern too complex. [like] is the operator for the
    patterns that fit. *)
Definition like_pattern_fits (pat : string) : bool :=
  utf8_length pat <=? 50000.

(** [col LIKE ?] on a nullable TEXT column: NULL matches nothing. *)
Definition like_opt (col : option string) (pat : string) : bool :=
  match col with Some s => like s pat | None => false end.

(** The row id given by AUTOINCREMENT to a new row of a table from which
    nothing was ever deleted: one more than the largest id in use. *)
Definition next_id (ids : list Z) : Z := fold_right Z.max 0 ids + 1.

(** [ORDER BY key]: the rows by ascending key; rows of equal key keep
    their order. [ltb] is the strict order of the key's storage class. *)
Fixpoint insert_by {K A : Type} (ltb : K -> K -> bool) (key : A -> K)
  (x : A) (l : list A) : list A :=
  match l with
  | [] => [x]
  | y :: l' =>
      if ltb (key y) (key x) then y :: insert_by ltb key x l' else x :: l
  end.

Fixpoint order_by {K A : Type} (ltb : K -> K -> bool) (key : A -> K)
  (l : list A) : list A :=
  match l with
  | [] => []
  | x :: l' => insert_by ltb key x (order_by ltb key l')
  end.

End Sql.

Import Sql.

Example like_ignores_case : Sql.like "Open" "%open%" = true.
Proof. reflexivity. Qed.

Example like_underscore : Sql.like "Open" "%O_en%" = true.
Proof. reflexivity. Qed.

Example like_inner : Sql.like "Completed" "%plet%" = true.
Proof. reflexivity. Qed.

Example like_miss : Sql.like "Open" "%Closed%" = false.
Proof. reflexivity. Qed.

Example like_stops_at_nul :
  Sql.like "Open" ("%pen" ++ String zero "zzz%") = true
  /\ Sql.like ("A" ++ String zero "B") "%B%" = false.
Proof. split; reflexivity. Qed.

Example real_column_zero :
  Sql.bind_real (S754_zero true) = Some (S754_zero false).
Proof. reflexivity. Qed.

(** ** The schema ([DatabaseManager.create_tables])

    One record per table, one field per column; a column without NOT NULL
    is an [option]. [cols] is the row as [sqlite3.Row] shows it: the column
    names with their values. *)

Module Fleet.
Record row := mk {
  FleetID : string;
  SerialNo : option string;
  FleetType : option string;
  Ownership : option string;
  Capacity : option Py.float;
  Status : option string }.
Definition cols (r : row) : list (string * value) :=
  [("FleetID", Text (FleetID r)); ("SerialNo", opt_text (SerialNo r));
   ("FleetType", opt_text (FleetType r));
   ("Ownership", opt_text (Ownership r));
   ("Capacity", opt_real (Capacity r)); ("Status", opt_text (Status r))].
End Fleet.

Module Driver.
Record row := mk {
  DriverID : Z;
  Name : string;
  PhoneNo : option string;
  Status : option string;
  Notes : option string }.
Definition cols (r : row) : list (string * value) :=
  [("DriverID", Int (DriverID r)); ("Name", Text (Name r));
   ("PhoneNo", opt_text (PhoneNo r)); ("Status", opt_text (Status r));
   ("Notes", opt_text (Notes r))].
End Driver.

Module Supplier.
Record row := mk {
  SupplierID : Z;
  CompanyName : string;
  ContactPerson : option string;
  PhoneNo : option string;
  Email : option string }.
Definition cols (r : row) : list (string * value) :=
  [("SupplierID", Int (SupplierID r)); ("CompanyName", Text (CompanyName r));
   ("ContactPerson", opt_text (ContactPerson r));
   ("PhoneNo", opt_text (PhoneNo r)); ("Email", opt_text (Email r))].
End Supplier.

Module Customer.
Record row := mk {
  CustomerID : Z;
  Name : string;
  PhoneNo : option string;
  Email : option string;
  Address : option string }.
Definition cols (r : row) : list (string * value) :=
  [("CustomerID", Int (CustomerID r)); ("Name", Text (Name r));
   ("PhoneNo", opt_text (PhoneNo r)); ("Email", opt_text (Email r));
   ("Address", opt_text (Address r))].
End Customer.

Module Hire.
Record row := mk {
  HireID : Z;
  FleetID : string;
  DriverID : Z;
  CustomerID : Z;
  SupplierID : option Z;
  HireType : option string;
  StartDate : string;
  EndDate : option string;
  Rate : Py.float;
  Quantity : Z;
  TotalAmount : Py.float;
  Status : option string }.
Definition cols (r : row) : list (string * value) :=
  [("HireID", Int (HireID r)); ("FleetID", Text (FleetID r));
   ("DriverID", Int (DriverID r)); ("CustomerID", Int (CustomerID r));
   ("SupplierID", opt_int (SupplierID r));
   ("HireType", opt_text (HireType r)); ("StartDate", Text (StartDate r));
   ("EndDate", opt_text (EndDate r)); ("Rate", Real (Rate r));
   ("Quantity", Int (Quantity r)); ("TotalAmount", Real (TotalAmount r));
   ("Status", opt_text (Status r))].
Definition set_Status (s : option string) (r : row) : row :=
  mk (HireID r) (FleetID r) (DriverID r) (CustomerID r) (SupplierID r)
     (HireType r) (StartDate r) (EndDate r) (Rate r) (Quantity r)
     (TotalAmount r) s.
End Hire.

Module CustomerInvoice.
Record row := mk {
  InvoiceID : Z;
  InvoiceNo : string;
  HireID : Z;
  CustomerID : Z;
  InvoiceDate : string;
  Amount : Py.float;
  PaymentStatus : option string }.
Definition cols (r : row) : list (string * value) :=
  [("InvoiceID", Int (InvoiceID r)); ("InvoiceNo", Text (InvoiceNo r));
   ("HireID", Int (HireID r)); ("CustomerID", Int (CustomerID r));
   ("InvoiceDate", Text (InvoiceDate r)); ("Amount", Real (Amount r));
   ("PaymentStatus", opt_text (PaymentStatus r))].
Definition set_PaymentStatus (s : option string) (r : row) : row :=
  mk (InvoiceID r) (InvoiceNo r) (HireID r) (CustomerID r) (InvoiceDate r)
     (Amount r) s.
End CustomerInvoice.

Module SupplierPayment.
Record row := mk {
  PaymentID : Z;
  SupplierID : Z;
  HireID : Z;
  PaymentDate : string;
  Amount : Py.float;
  PaymentStatus : option string }.
Definition cols (r : row) : list (string * value) :=
  [("PaymentID", Int (PaymentID r)); ("SupplierID", Int (SupplierID r));
   ("HireID", Int (HireID r)); ("PaymentDate", Text (PaymentDate r));
   ("Amount", Real (Amount r));
   ("PaymentStatus", opt_text (PaymentStatus r))].
End SupplierPayment.

Record database := mkdb {
  tblFleet : list Fleet.row;
  tblDriver : list Driver.row;
  tblSupplier : list Supplier.row;
  tblCustomer : list Customer.row;
  tblHire : list Hire.row;
  tblCustomerInvoice : list CustomerInvoice.row;
  tblSupplierPayment : list SupplierPayment.row }.

Definition set_tblHire (hs : list Hire.row) (d : database) : database :=
  mkdb (tblFleet d) (tblDriver d) (tblSupplier d) (tblCustomer d) hs
       (tblCustomerInvoice d) (tblSupplierPayment d).

Definition set_tblCustomerInvoice (l : list CustomerInvoice.row)
  (d : database) : database :=
  mkdb (tblFleet d) (tblDriver d) (tblSupplier d) (tblCustomer d) (tblHire d)
       l (tblSupplierPayment d).

Definition set_tblSupplierPayment (l : list SupplierPayment.row)
  (d : database) : database :=
  mkdb (tblFleet d) (tblDriver d) (tblSupplier d) (tblCustomer d) (tblHire d)
       (tblCustomerInvoice d) l.

Definition set_tblFleet (l : list Fleet.row) (d : database) : database :=
  mkdb l (tblDriver d) (tblSupplier d) (tblCustomer d) (tblHire d)
       (tblCustomerInvoice d) (tblSupplierPayment d).

Definition set_tblDriver (l : list Driver.row) (d : database) : database :=
  mkdb (tblFleet d) l (tblSupplier d) (tblCustomer d) (tblHire d)
       (tblCustomerInvoice d) (tblSupplierPayment d).

Definition set_tblSupplier (l : list Supplier.row) (d : database)
  : database :=
  mkdb (tblFleet d) (tblDriver d) l (tblCustomer d) (tblHire d)
       (tblCustomerInvoice d) (tblSupplierPayment d).

Definition set_tblCustomer (l : list Customer.row) (d : database)
  : database :=
  mkdb (tblFleet d) (tblDriver d) (tblSupplier d) l (tblHire d)
       (tblCustomerInvoice d) (tblSupplierPayment d).

(** A row as the driver hands it to Python: column names and values. *)
Definition sqlite_row := list (string * value).

(** The rows of a table given by its name, for the statements that the
    program builds from a table name. *)
Definition table_rows (d : database) (table : string)
  : option (list sqlite_row) :=
  if String.eqb table "tblFleet" then Some (map Fleet.cols (tblFleet d))
  else if String.eqb table "tblDriver"
       then Some (map Driver.cols (tblDriver d))
  else if String.eqb table "tblSupplier"
       then Some (map Supplier.cols (tblSupplier d))
  else if String.eqb table "tblCustomer"
       then Some (map Customer.cols (tblCustomer d))
  else if String.eqb table "tblHire" then Some (map Hire.cols (tblHire d))
  else if String.eqb table "tblCustomerInvoice"
       then Some (map CustomerInvoice.cols (tblCustomerInvoice d))
  else if String.eqb table "tblSupplierPayment"
       then Some (map SupplierPayment.cols (tblSupplierPayment d))
  else None.

Fixpoint column (name : string) (r : sqlite_row) : option value :=
  match r with
  | (n, v) :: r' => if String.eqb n name then Some v else column name r'
  | [] => None
  end.

(** ** Exceptions, the world and the monad of the program *)

Inductive exn :=
| EOFError
| OverflowError
| IntegrityError (reason : string)
| OperationalError (reason : string).

(** What the program writes on the console. Text that interpolates values
    is kept as the list of its parts; a printed row is kept as the row. *)
Inductive output :=
| Asked (message : string)
| Printed (parts : list value)
| PrintedRow (r : sqlite_row).

Record world := mkworld {
  db : database;
  stdin : list string;
  stdout : list output }.

Inductive outcome (A : Type) :=
| Returned (a : A) (w : world)
| Raised (e : exn) (w : world).
Arguments Returned {A} a w.
Arguments Raised {A} e w.

Definition world_of {A} (o : outcome A) : world :=
  match o with Returned _ w => w | Raised _ w => w end.

Definition M (A : Type) : Type := world -> outcome A.

Definition ret {A} (a : A) : M A := fun w => Returned a w.

Definition bind {A B} (m : M A) (k : A -> M B) : M B :=
  fun w => match m w with
           | Returned a w' => k a w'
           | Raised e w' => Raised e w'
           end.

Definition raise {A} (e : exn) : M A := fun w => Raised e w.

Declare Scope prog_scope.
Delimit Scope prog_scope with prog.
Notation "x <- m ;; k" := (bind m (fun x => k))
  (at level 100, m at next level, right associativity) : prog_scope.
Notation "m ;; k" := (bind m (fun _ => k))
  (at level 100, right associativity) : prog_scope.
Open Scope prog_scope.

(** [print(...)] *)
Definition print (parts : list value) : M unit :=
  fun w => Returned tt (mkworld (db w) (stdin w) (stdout w ++ [Printed parts])).

(** [print(dict(row))] *)
Definition print_row (r : sqlite_row) : M unit :=
  fun w => Returned tt (mkworld (db w) (stdin w) (stdout w ++ [PrintedRow r])).

(** [input(message)]: the message is written, then one line is read; at the
    end of the input [EOFError] is raised. *)
Definition input (message : string) : M string :=
  fun w =>
    let out := stdout w ++ [Asked message] in
    match stdin w with
    | line :: rest => Returned line (mkworld (db w) rest out)
    | [] => Raised EOFError (mkworld (db w) [] out)
    end.

(** [for x in l: body(x)] *)
Fixpoint for_each {A} (l : list A) (body : A -> M unit) : M unit :=
  match l with
  | [] => ret tt
  | x :: l' => body x ;; for_each l' body
  end.

(** A statement either fails or yields its result; a failed statement
    changes nothing. *)
Definition sqlresult (A : Type) : Type := (exn + A)%type.

(** [db.query(sql, params)] *)
Definition db_query {A} (q : database -> sqlresult A) : M A :=
  fun w => match q (db w) with
           | inr rows => Returned rows w
           | inl e => Raised e w
           end.

(** [db.execute(sql, params)]: the statement is run and committed. *)
Definition db_execute (stmt : database -> sqlresult database) : M unit :=
  fun w => match stmt (db w) with
           | inr d' => Returned tt (mkworld d' (stdin w) (stdout w))
           | inl e => Raised e w
           end.

(** ** Helper utilities *)

(** [prompt(message, default)] *)
Definition prompt (message : string) (default : option string) : M string :=
  value <- input (message ++ ": ")%string ;;
  match default with
  | Some d => if String.eqb value "" then ret d else ret (Py.strip value)
  | None => ret (Py.strip value)
  end.

(** [prompt_float(message)]. Both calls in the modules below pass no
    default, and the branch that renders a default with [str] is left out.
    The loop reads one line per turn, so [fuel] above the number of pending
    lines is never used up (see [prompt_float_fuel]). *)
Fixpoint prompt_float_loop (fuel : nat) (message : string) : M Py.float :=
  match fuel with
  | O => raise EOFError
  | S fuel' =>
      value <- prompt message None ;;
      match Py.float_of_str value with
      | Some x => ret x
      | None =>
          print [Text "Please enter a valid number."] ;;
          prompt_float_loop fuel' message
      end
  end.

Definition prompt_float (message : string) : M Py.float :=
  fun w => prompt_float_loop (S (List.length (stdin w))) message w.

(** [prompt_int(message, default)] *)
Fixpoint prompt_int_loop (fuel : nat) (message : string) (default : option Z)
  : M Z :=
  match fuel with
  | O => raise EOFError
  | S fuel' =>
      value <- prompt message (option_map Py.str_of_int default) ;;
      match Py.int value with
      | Some n => ret n
      | None =>
          print [Text "Please enter a valid integer."] ;;
          prompt_int_loop fuel' message default
      end
  end.

Definition prompt_int (message : string) (default : option Z) : M Z :=
  fun w => prompt_int_loop (S (List.length (stdin w))) message default w.

(** The columns of each table, as declared. *)
Definition table_columns (table : string) : option (list string) :=
  if String.eqb table "tblFleet" then
    Some ["FleetID"; "SerialNo"; "FleetType"; "Ownership"; "Capacity";
          "Status"]
  else if String.eqb table "tblDriver" then
    Some ["DriverID"; "Name"; "PhoneNo"; "Status"; "Notes"]
  else if String.eqb table "tblSupplier" then
    Some ["SupplierID"; "CompanyName"; "ContactPerson"; "PhoneNo"; "Email"]
  else if String.eqb table "tblCustomer" then
    Some ["CustomerID"; "Name"; "PhoneNo"; "Email"; "Address"]
  else if String.eqb table "tblHire" then
    Some ["HireID"; "FleetID"; "DriverID"; "CustomerID"; "SupplierID";
          "HireType"; "StartDate"; "EndDate"; "Rate"; "Quantity";
          "TotalAmount"; "Status"]
  else if String.eqb table "tblCustomerInvoice" then
    Some ["InvoiceID"; "InvoiceNo"; "HireID"; "CustomerID"; "InvoiceDate";
          "Amount"; "PaymentStatus"]
  else if String.eqb table "tblSupplierPayment" then
    Some ["PaymentID"; "SupplierID"; "HireID"; "PaymentDate"; "Amount";
          "PaymentStatus"]
  else None.

Definition has_column (table name : string) : bool :=
  match table_columns table with
  | Some cs => existsb (String.eqb name) cs
  | None => false
  end.

(** A parameter as SQLite receives it. *)
Definition bind_param (v : value) : sqlresult value :=
  match v with
  | Int z => if fits_int64 z then inr v else inl OverflowError
  | Real x => inr (opt_real (bind_real x))
  | _ => inr v
  end.

Definition field (name : string) (r : sqlite_row) : value :=
  match column name r with Some v => v | None => Null end.

(** [SELECT 1 FROM {table} WHERE {key_field} = ?]: the statement is
    compiled, then the parameter is bound, then the rows are filtered. The
    matching rows are returned in place of the constant 1. *)
Definition select_1_where (table key_field : string) (param : value)
  (d : database) : sqlresult (list sqlite_row) :=
  match table_rows d table with
  | None => inl (OperationalError "no such table")
  | Some rows =>
      if has_column table key_field then
        match bind_param param with
        | inl e => inl e
        | inr v => inr (filter (fun r => Sql.eqb (field key_field r) v) rows)
        end
      else inl (OperationalError "no such column")
  end.

(** [record_exists(table, key_field, value)] *)
Definition record_exists (table key_field : string) (value : value)
  : M bool :=
  rows <- db_query (select_1_where table key_field value) ;;
  ret (match rows with [] => false | _ :: _ => true end).

(** [SELECT {id_field}, {label_field} FROM {table}] *)
Definition select_id_label (table id_field label_field : string)
  (d : database) : sqlresult (list sqlite_row) :=
  match table_rows d table with
  | None => inl (OperationalError "no such table")
  | Some rows =>
      if has_column table id_field && has_column table label_field then
        inr (map (fun r => [(id_field, field id_field r);
                            (label_field, field label_field r)]) rows)
      else inl (OperationalError "no such column")
  end.

(** [choose_from_table(table, id_field, label_field)] *)
Definition choose_from_table (table id_field label_field : string)
  : M (option Z) :=
  rows <- db_query (select_id_label table id_field label_field) ;;
  match rows with
  | [] => print [Text "No records found."] ;; ret None
  | _ :: _ =>
      for_each rows (fun row =>
        print [field id_field row; Text " - "; field label_field row]) ;;
      line <- input ("Enter " ++ id_field ++ ": ")%string ;;
      match Py.int line with
      | None => print [Text "Invalid choice."] ;; ret None
      | Some choice =>
          found <- record_exists table id_field (Int choice) ;;
          if found then ret (Some choice)
          else print [Text "ID does not exist."] ;; ret None
      end
  end.

(** [options.get(choice)] *)
Fixpoint lookup_option (choice : string) (options : list (string * M unit))
  : option (M unit) :=
  match options with
  | (key, func) :: options' =>
      if String.eqb key choice then Some func
      else lookup_option choice options'
  | [] => None
  end.

(** The loop that every menu function runs, for its text and its [options]:
    the menu is printed, a choice is read as it is typed, the choice 0
    leaves, the key of an option runs its function and any other text is
    turned down. Each turn reads a line, so [fuel] above the number of
    pending lines is never used up (see [menu_loop_fuel]). *)
Fixpoint menu_loop (fuel : nat) (text : string)
  (options : list (string * M unit)) : M unit :=
  match fuel with
  | O => raise EOFError
  | S fuel' =>
      print [Text text] ;;
      choice <- input "Choose: " ;;
      if String.eqb choice "0" then ret tt
      else
        match lookup_option choice options with
        | Some func => func ;; menu_loop fuel' text options
        | None =>
            print [Text "Invalid choice."] ;; menu_loop fuel' text options
        end
  end.

Definition menu (text : string) (options : list (string * M unit))
  : M unit :=
  fun w => menu_loop (S (List.length (stdin w))) text options w.

(** [confirm.upper() != "YES"] is the negation of this, for an answer
    written in Latin-1. *)
Definition confirmed (confirm : string) : bool :=
  Py.codes_eqb (Py.upper confirm) (Py.codes "YES").

(** [col LIKE ?] for the parameter [f"%{value}%"] *)
Definition like_value (col : option string) (value : string) : bool :=
  like_opt col ("%" ++ value ++ "%")%string.

(** ** Fleet module

    [update_fleet] shows a stored capacity through [str] of a float and
    [search_fleet] writes the text typed for the field into its statement;
    neither is part of this development. *)

(** [CHECK(Ownership IN ('Owned','Rented-in'))] *)
Definition ownership_ok (ownership : string) : bool :=
  existsb (String.eqb ownership) ["Owned"; "Rented-in"].

Definition has_fleet (fleet_id : string) (d : database) : bool :=
  existsb (fun r => String.eqb (Fleet.FleetID r) fleet_id) (tblFleet d).

(** [INSERT INTO tblFleet (FleetID, SerialNo, FleetType, Ownership,
    Capacity, Status) VALUES (?, ?, ?, ?, ?, ?)]: CHECK, then the primary
    key. The table has no row id of its own to choose: a new row goes
    after the others. *)
Definition insert_fleet (fleet_id serial fleet_type ownership : string)
  (capacity : Py.float) (status : string) (d : database)
  : sqlresult database :=
  if ownership_ok ownership then
    if has_fleet fleet_id d
    then inl (IntegrityError "UNIQUE constraint failed: tblFleet.FleetID")
    else
      inr (set_tblFleet
             (tblFleet d ++
              [Fleet.mk fleet_id (Some serial) (Some fleet_type)
                 (Some ownership) (bind_real capacity) (Some status)]) d)
  else inl (IntegrityError
              "CHECK constraint failed: Ownership IN ('Owned','Rented-in')").

(** [add_fleet()] *)
Definition add_fleet : M unit :=
  print [Text (Py.nl ++ "Add Fleet")%string] ;;
  fleet_id <- prompt "Fleet ID" None ;;
  found <- record_exists "tblFleet" "FleetID" (Text fleet_id) ;;
  if found then print [Text "Fleet ID already exists."]
  else
    serial <- prompt "Serial No" None ;;
    fleet_type <- prompt "Fleet Type" None ;;
    ownership <- prompt "Ownership (Owned/Rented-in)" None ;;
    capacity <- prompt_float "Capacity" ;;
    status <- prompt "Status" None ;;
    db_execute
      (insert_fleet fleet_id serial fleet_type ownership capacity status) ;;
    print [Text "Fleet added successfully."].

(** [DELETE FROM tblFleet WHERE FleetID = ?] *)
Definition delete_fleet_where (fleet_id : string) (d : database)
  : sqlresult database :=
  inr (set_tblFleet
         (filter (fun r => negb (String.eqb (Fleet.FleetID r) fleet_id))
            (tblFleet d)) d).

(** [delete_fleet()] *)
Definition delete_fleet : M unit :=
  fleet_id <- prompt "Enter Fleet ID to delete" None ;;
  confirm <- prompt "Type YES to confirm" None ;;
  if negb (confirmed confirm) then print [Text "Deletion cancelled."]
  else
    db_execute (delete_fleet_where fleet_id) ;;
    print [Text "Fleet deleted (if existed)."].

(** [SELECT * FROM tblFleet ORDER BY FleetID] *)
Definition select_fleet (d : database) : sqlresult (list Fleet.row) :=
  inr (order_by String.ltb Fleet.FleetID (tblFleet d)).

(** [list_fleet()] *)
Definition list_fleet : M unit :=
  rows <- db_query select_fleet ;;
  for_each rows (fun row => print_row (Fleet.cols row)) ;;
  match rows with
  | [] => print [Text "No fleet records."]
  | _ :: _ => ret tt
  end.

(** ** Driver module

    [add_driver], like [add_supplier] and [add_customer], takes its id from
    AUTOINCREMENT, which remembers the ids of deleted rows; the store of
    this development keeps the rows only, and the three functions are not
    part of it. *)

(** [SELECT * FROM tblDriver WHERE DriverID = ?] *)
Definition select_driver (driver_id : Z) (d : database)
  : sqlresult (list Driver.row) :=
  if fits_int64 driver_id then
    inr (filter (fun r => Driver.DriverID r =? driver_id) (tblDriver d))
  else inl OverflowError.

(** [UPDATE tblDriver SET Name=?, PhoneNo=?, Status=?, Notes=? WHERE
    DriverID=?] *)
Definition update_driver_where (name phone status notes : string)
  (driver_id : Z) (d : database) : sqlresult database :=
  if fits_int64 driver_id then
    inr (set_tblDriver
           (map (fun r => if Driver.DriverID r =? driver_id
                          then Driver.mk (Driver.DriverID r) name (Some phone)
                                 (Some status) (Some notes)
                          else r)
              (tblDriver d)) d)
  else inl OverflowError.

(** [update_driver()] *)
Definition update_driver : M unit :=
  driver_id <- prompt_int "Driver ID" None ;;
  rows <- db_query (select_driver driver_id) ;;
  match rows with
  | [] => print [Text "Driver not found."]
  | row :: _ =>
      name <- prompt "Name" (Some (Driver.Name row)) ;;
      phone <- prompt "Phone" (Driver.PhoneNo row) ;;
      status <- prompt "Status" (Driver.Status row) ;;
      notes <- prompt "Notes" (Driver.Notes row) ;;
      db_execute (update_driver_where name phone status notes driver_id) ;;
      print [Text "Driver updated."]
  end.

(** [DELETE FROM tblDriver WHERE DriverID=?] *)
Definition delete_driver_where (driver_id : Z) (d : database)
  : sqlresult database :=
  if fits_int64 driver_id then
    inr (set_tblDriver
           (filter (fun r => negb (Driver.DriverID r =? driver_id))
              (tblDriver d)) d)
  else inl OverflowError.

(** [delete_driver()] *)
Definition delete_driver : M unit :=
  driver_id <- prompt_int "Driver ID" None ;;
  confirm <- prompt "Type YES to confirm" None ;;
  if negb (confirmed confirm) then print [Text "Cancelled."]
  else
    db_execute (delete_driver_where driver_id) ;;
    print [Text "Driver deleted (if existed)."].

(** [SELECT * FROM tblDriver ORDER BY DriverID] *)
Definition select_drivers (d : database) : sqlresult (list Driver.row) :=
  inr (order_by Z.ltb Driver.DriverID (tblDriver d)).

(** [list_drivers()] *)
Definition list_drivers : M unit :=
  rows <- db_query select_drivers ;;
  for_each rows (fun row => print_row (Driver.cols row)) ;;
  match rows with
  | [] => print [Text "No driver records."]
  | _ :: _ => ret tt
  end.

(** [SELECT * FROM tblDriver WHERE Status LIKE ?] *)
Definition select_drivers_like (status : string) (d : database)
  : sqlresult (list Driver.row) :=
  inr (filter (fun r => like_value (Driver.Status r) status) (tblDriver d)).

(** [search_drivers()] *)
Definition search_drivers : M unit :=
  status <- prompt "Filter by Status" None ;;
  rows <- db_query (select_drivers_like status) ;;
  for_each rows (fun row => print_row (Driver.cols row)) ;;
  match rows with
  | [] => print [Text "No matches."]
  | _ :: _ => ret tt
  end.

(** ** Supplier module *)

(** [SELECT * FROM tblSupplier WHERE SupplierID=?] *)
Definition select_supplier (supplier_id : Z) (d : database)
  : sqlresult (list Supplier.row) :=
  if fits_int64 supplier_id then
    inr (filter (fun r => Supplier.SupplierID r =? supplier_id)
           (tblSupplier d))
  else inl OverflowError.

(** [UPDATE tblSupplier SET CompanyName=?, ContactPerson=?, PhoneNo=?,
    Email=? WHERE SupplierID=?] *)
Definition update_supplier_where (company contact phone email : string)
  (supplier_id : Z) (d : database) : sqlresult database :=
  if fits_int64 supplier_id then
    inr (set_tblSupplier
           (map (fun r => if Supplier.SupplierID r =? supplier_id
                          then Supplier.mk (Supplier.SupplierID r) company
                                 (Some contact) (Some phone) (Some email)
                          else r)
              (tblSupplier d)) d)
  else inl OverflowError.

(** [update_supplier()] *)
Definition update_supplier : M unit :=
  supplier_id <- prompt_int "Supplier ID" None ;;
  rows <- db_query (select_supplier supplier_id) ;;
  match rows with
  | [] => print [Text "Supplier not found."]
  | row :: _ =>
      company <- prompt "Company Name" (Some (Supplier.CompanyName row)) ;;
      contact <- prompt "Contact Person" (Supplier.ContactPerson row) ;;
      phone <- prompt "Phone" (Supplier.PhoneNo row) ;;
      email <- prompt "Email" (Supplier.Email row) ;;
      db_execute
        (update_supplier_where company contact phone email supplier_id) ;;
      print [Text "Supplier updated."]
  end.

(** [DELETE FROM tblSupplier WHERE SupplierID=?] *)
Definition delete_supplier_where (supplier_id : Z) (d : database)
  : sqlresult database :=
  if fits_int64 supplier_id then
    inr (set_tblSupplier
           (filter (fun r => negb (Supplier.SupplierID r =? supplier_id))
              (tblSupplier d)) d)
  else inl OverflowError.

(** [delete_supplier()] *)
Definition delete_supplier : M unit :=
  supplier_id <- prompt_int "Supplier ID" None ;;
  confirm <- prompt "Type YES to confirm" None ;;
  if negb (confirmed confirm) then print [Text "Cancelled."]
  else
    db_execute (delete_supplier_where supplier_id) ;;
    print [Text "Supplier deleted (if existed)."].

(** [SELECT * FROM tblSupplier ORDER BY SupplierID] *)
Definition select_suppliers (d : database) : sqlresult (list Supplier.row) :=
  inr (order_by Z.ltb Supplier.SupplierID (tblSupplier d)).

(** [list_suppliers()] *)
Definition list_suppliers : M unit :=
  rows <- db_query select_suppliers ;;
  for_each rows (fun row => print_row (Supplier.cols row)) ;;
  match rows with
  | [] => print [Text "No supplier records."]
  | _ :: _ => ret tt
  end.

(** [SELECT * FROM tblSupplier WHERE CompanyName LIKE ?] *)
Definition select_suppliers_like (name : string) (d : database)
  : sqlresult (list Supplier.row) :=
  inr (filter (fun r => like_value (Some (Supplier.CompanyName r)) name)
         (tblSupplier d)).

(** [search_suppliers()] *)
Definition search_suppliers : M unit :=
  name <- prompt "Search company" None ;;
  rows <- db_query (select_suppliers_like name) ;;
  for_each rows (fun row => print_row (Supplier.cols row)) ;;
  match rows with
  | [] => print [Text "No matches."]
  | _ :: _ => ret tt
  end.

(** ** Customer module *)

(** [SELECT * FROM tblCustomer WHERE CustomerID=?] *)
Definition select_customer (customer_id : Z) (d : database)
  : sqlresult (list Customer.row) :=
  if fits_int64 customer_id then
    inr (filter (fun r => Customer.CustomerID r =? customer_id)
           (tblCustomer d))
  else inl OverflowError.

(** [UPDATE tblCustomer SET Name=?, PhoneNo=?, Email=?, Address=? WHERE
    CustomerID=?] *)
Definition update_customer_where (name phone email address : string)
  (customer_id : Z) (d : database) : sqlresult database :=
  if fits_int64 customer_id then
    inr (set_tblCustomer
           (map (fun r => if Customer.CustomerID r =? customer_id
                          then Customer.mk (Customer.CustomerID r) name
                                 (Some phone) (Some email) (Some address)
                          else r)
              (tblCustomer d)) d)
  else inl OverflowError.

(** [update_customer()] *)
Definition update_customer : M unit :=
  customer_id <- prompt_int "Customer ID" None ;;
  rows <- db_query (select_customer customer_id) ;;
  match rows with
  | [] => print [Text "Customer not found."]
  | row :: _ =>
      name <- prompt "Name" (Some (Customer.Name row)) ;;
      phone <- prompt "Phone" (Customer.PhoneNo row) ;;
      email <- prompt "Email" (Customer.Email row) ;;
      address <- prompt "Address" (Customer.Address row) ;;
      db_execute
        (update_customer_where name phone email address customer_id) ;;
      print [Text "Customer updated."]
  end.

(** [DELETE FROM tblCustomer WHERE CustomerID=?] *)
Definition delete_customer_where (customer_id : Z) (d : database)
  : sqlresult database :=
  if fits_int64 customer_id then
    inr (set_tblCustomer
           (filter (fun r => negb (Customer.CustomerID r =? customer_id))
              (tblCustomer d)) d)
  else inl OverflowError.

(** [delete_customer()] *)
Definition delete_customer : M unit :=
  customer_id <- prompt_int "Customer ID" None ;;
  confirm <- prompt "Type YES to confirm" None ;;
  if negb (confirmed confirm) then print [Text "Cancelled."]
  else
    db_execute (delete_customer_where customer_id) ;;
    print [Text "Customer deleted (if existed)."].

(** [SELECT * FROM tblCustomer ORDER BY CustomerID] *)
Definition select_customers (d : database) : sqlresult (list Customer.row) :=
  inr (order_by Z.ltb Customer.CustomerID (tblCustomer d)).

(** [list_customers()] *)
Definition list_customers : M unit :=
  rows <- db_query select_customers ;;
  for_each rows (fun row => print_row (Customer.cols row)) ;;
  match rows with
  | [] => print [Text "No customer records."]
  | _ :: _ => ret tt
  end.

(** [SELECT * FROM tblCustomer WHERE Name LIKE ?] *)
Definition select_customers_like (name : string) (d : database)
  : sqlresult (list Customer.row) :=
  inr (filter (fun r => like_value (Some (Customer.Name r)) name)
         (tblCustomer d)).

(** [search_customers()] *)
Definition search_customers : M unit :=
  name <- prompt "Search name" None ;;
  rows <- db_query (select_customers_like name) ;;
  for_each rows (fun row => print_row (Customer.cols row)) ;;
  match rows with
  | [] => print [Text "No matches."]
  | _ :: _ => ret tt
  end.

(** ** Hire module *)

(** [SELECT Ownership FROM tblFleet WHERE FleetID=?] *)
Definition select_ownership (fleet_id : string) (d : database)
  : sqlresult (list (option string)) :=
  inr (map Fleet.Ownership
         (filter (fun r => String.eqb (Fleet.FleetID r) fleet_id)
            (tblFleet d))).

(** [ownership_row and ownership_row[0]["Ownership"] == "Rented-in"] *)
Definition is_rented_in (ownership_row : list (option string)) : bool :=
  match ownership_row with
  | Some o :: _ => String.eqb o "Rented-in"
  | _ => false
  end.

(** [CHECK(HireType IN ('Daily','Weekly','Monthly','Trip'))] *)
Definition hire_type_ok (hire_type : string) : bool :=
  existsb (String.eqb hire_type) ["Daily"; "Weekly"; "Monthly"; "Trip"].

Definition opt_fits_int64 (o : option Z) : bool :=
  match o with Some z => fits_int64 z | None => true end.

(** [INSERT INTO tblHire (FleetID, DriverID, CustomerID, SupplierID,
    HireType, StartDate, EndDate, Rate, Quantity, TotalAmount, Status)
    VALUES (?, ?, ?, ?, ?, ?, ?, ?, ?, ?, ?)]. The parameters are bound,
    then NOT NULL and CHECK are enforced. Foreign keys are declared but
    the connection never turns their enforcement on. *)
Definition insert_hire (fleet_id : string) (driver_id customer_id : Z)
  (supplier_id : option Z) (hire_type start_date : string)
  (end_date : option string) (rate : Py.float) (quantity : Z)
  (total : Py.float) (status : string) (d : database)
  : sqlresult database :=
  if fits_int64 driver_id && fits_int64 customer_id
     && opt_fits_int64 supplier_id && fits_int64 quantity
  then
    match bind_real rate, bind_real total with
    | None, _ => inl (IntegrityError "NOT NULL constraint failed: tblHire.Rate")
    | Some _, None =>
        inl (IntegrityError "NOT NULL constraint failed: tblHire.TotalAmount")
    | Some r, Some t =>
        if hire_type_ok hire_type then
          inr (set_tblHire
                 (tblHire d ++
                  [Hire.mk (next_id (map Hire.HireID (tblHire d))) fleet_id
                     driver_id customer_id supplier_id (Some hire_type)
                     start_date end_date r quantity t (Some status)]) d)
        else
          inl (IntegrityError
                 "CHECK constraint failed: HireType IN ('Daily','Weekly','Monthly','Trip')")
    end
  else inl OverflowError.

(** Lines 504-518 of [add_hire]: the supplier of the new hire. The outer
    [None] stands for the [return] statements of this part. *)
Definition add_hire_supplier (fleet_id : string) : M (option (option Z)) :=
  ownership_row <- db_query (select_ownership fleet_id) ;;
  let require_supplier := is_rented_in ownership_row in
  if require_supplier then
    supplier_id <- choose_from_table "tblSupplier" "SupplierID" "CompanyName" ;;
    match supplier_id with
    | None => ret None
    | Some s => ret (Some (Some s))
    end
  else
    supplier_input <- prompt "Enter Supplier ID (optional)" None ;;
    if String.eqb supplier_input "" then ret (Some None)
    else match Py.int supplier_input with
         | Some s => ret (Some (Some s))
         | None => print [Text "Invalid supplier ID."] ;; ret None
         end.

(** [rate * quantity]: the [int] is converted to a [float], which may
    overflow, then the two floats are multiplied. *)
Definition float_times_int (rate : Py.float) (quantity : Z) : M Py.float :=
  match Py.float_of_int quantity with
  | Some q => ret (Py.fmul rate q)
  | None => raise OverflowError
  end.

(** Lines 520-534 of [add_hire]: the terms of the hire and its record. *)
Definition add_hire_record (fleet_id : string) (driver_id customer_id : Z)
  (supplier_id : option Z) : M unit :=
  hire_type <- prompt "Hire Type (Daily/Weekly/Monthly/Trip)" None ;;
  start_date <- prompt "Start Date (YYYY-MM-DD)" None ;;
  end_date <- prompt "End Date (YYYY-MM-DD or blank)" (Some "") ;;
  rate <- prompt_float "Rate" ;;
  quantity <- prompt_int "Quantity" (Some 1) ;;
  total <- float_times_int rate quantity ;;
  let status := "Open" in
  db_execute
    (insert_hire fleet_id driver_id customer_id supplier_id hire_type
       start_date (if String.eqb end_date "" then None else Some end_date)
       rate quantity total status) ;;
  print [Text "Hire created with total amount"; Real total].

(** [add_hire()] *)
Definition add_hire : M unit :=
  fleet_id <- prompt "Fleet ID" None ;;
  found <- record_exists "tblFleet" "FleetID" (Text fleet_id) ;;
  if negb found then print [Text "Fleet not found."]
  else
    driver_id <- choose_from_table "tblDriver" "DriverID" "Name" ;;
    match driver_id with
    | None => ret tt
    | Some driver_id =>
        customer_id <- choose_from_table "tblCustomer" "CustomerID" "Name" ;;
        match customer_id with
        | None => ret tt
        | Some customer_id =>
            supplier <- add_hire_supplier fleet_id ;;
            match supplier with
            | None => ret tt
            | Some supplier_id =>
                add_hire_record fleet_id driver_id customer_id supplier_id
            end
        end
    end.

(** [UPDATE tblHire SET Status=? WHERE HireID=?] *)
Definition update_status_of_hire (status : string) (hire_id : Z)
  (d : database) : sqlresult database :=
  if fits_int64 hire_id then
    inr (set_tblHire
           (map (fun r => if Hire.HireID r =? hire_id
                          then Hire.set_Status (Some status) r else r)
              (tblHire d)) d)
  else inl OverflowError.

(** [update_hire_status()] *)
Definition update_hire_status : M unit :=
  hire_id <- prompt_int "Hire ID" None ;;
  found <- record_exists "tblHire" "HireID" (Int hire_id) ;;
  if negb found then print [Text "Hire not found."]
  else
    status <- prompt "New Status (Open/Completed/Cancelled)" None ;;
    db_execute (update_status_of_hire status hire_id) ;;
    print [Text "Hire status updated."].

(** The customers that a join finds for a customer id: [JOIN tblCustomer c
    ON x.CustomerID = c.CustomerID]. *)
Definition customers_with (d : database) (customer_id : Z)
  : list Customer.row :=
  filter (fun c => Customer.CustomerID c =? customer_id) (tblCustomer d).

Definition hire_with_customer (h : Hire.row) (c : Customer.row)
  : sqlite_row :=
  [("HireID", Int (Hire.HireID h)); ("FleetID", Text (Hire.FleetID h));
   ("Customer", Text (Customer.Name c));
   ("HireType", opt_text (Hire.HireType h));
   ("StartDate", Text (Hire.StartDate h));
   ("EndDate", opt_text (Hire.EndDate h));
   ("TotalAmount", Real (Hire.TotalAmount h));
   ("Status", opt_text (Hire.Status h))].

(** [SELECT h.HireID, h.FleetID, c.Name AS Customer, h.HireType,
    h.StartDate, h.EndDate, h.TotalAmount, h.Status FROM tblHire h JOIN
    tblCustomer c ON h.CustomerID = c.CustomerID ORDER BY h.HireID] *)
Definition select_hires_with_customer (d : database)
  : sqlresult (list sqlite_row) :=
  inr (flat_map
         (fun h => map (hire_with_customer h)
                     (customers_with d (Hire.CustomerID h)))
         (order_by Z.ltb Hire.HireID (tblHire d))).

(** [list_hires()] *)
Definition list_hires : M unit :=
  rows <- db_query select_hires_with_customer ;;
  for_each rows print_row ;;
  match rows with
  | [] => print [Text "No hires found."]
  | _ :: _ => ret tt
  end.

(** [SELECT HireID, FleetID, HireType, StartDate, EndDate, TotalAmount,
    Status FROM tblHire WHERE Status LIKE ?] *)
Definition select_hires_like (pattern : string) (d : database)
  : sqlresult (list Hire.row) :=
  inr (filter (fun r => like_opt (Hire.Status r) pattern) (tblHire d)).

Definition search_hires_columns : list string :=
  ["HireID"; "FleetID"; "HireType"; "StartDate"; "EndDate"; "TotalAmount";
   "Status"].

Definition project (names : list string) (r : sqlite_row) : sqlite_row :=
  map (fun n => (n, field n r)) names.

(** [search_hires()] *)
Definition search_hires : M unit :=
  status <- prompt "Filter by Status" None ;;
  rows <- db_query (select_hires_like ("%" ++ status ++ "%")%string) ;;
  for_each rows (fun row =>
    print_row (project search_hires_columns (Hire.cols row))) ;;
  match rows with
  | [] => print [Text "No matches."]
  | _ :: _ => ret tt
  end.

(** [hire_menu()] *)
Definition hire_menu_text : string :=
  Py.text_lines
    [""; "Hire Menu"; "1. Add Hire"; "2. Update Hire Status"; "3. List Hires";
     "4. Search Hires"; "0. Back"].

Definition hire_options : list (string * M unit) :=
  [("1", add_hire); ("2", update_hire_status); ("3", list_hires);
   ("4", search_hires)].

Definition hire_menu : M unit := menu hire_menu_text hire_options.

(** ** Invoice module *)

(** [SELECT InvoiceNo FROM tblCustomerInvoice ORDER BY InvoiceID DESC
    LIMIT 1]: the number of the invoice with the greatest id, if any. *)
Definition newest_invoice (rows : list CustomerInvoice.row)
  : option CustomerInvoice.row :=
  fold_left
    (fun best r =>
       match best with
       | Some b =>
           if CustomerInvoice.InvoiceID b <? CustomerInvoice.InvoiceID r
           then Some r else best
       | None => Some r
       end) rows None.

Definition select_last_invoice_no (d : database) : sqlresult (list string) :=
  inr (match newest_invoice (tblCustomerInvoice d) with
       | Some r => [CustomerInvoice.InvoiceNo r]
       | None => []
       end).

(** [int(last.split("-")[-1])]; [None] is [ValueError]. *)
Definition suffix_number (last : string) : option Z :=
  Py.int (Py.last_piece (Py.split "-" last)).

(** The [try] block: [number = int(last.split("-")[-1]) + 1], and
    [number = 1] on [ValueError]. *)
Definition next_number (last : string) : Z :=
  match suffix_number last with
  | Some n => n + 1
  | None => 1
  end.

(** [f"INV-{number:04d}"] *)
Definition invoice_no_of (number : Z) : string :=
  ("INV-" ++ Py.format_04d number)%string.

(** [generate_invoice_no()] *)
Definition generate_invoice_no : M string :=
  rows <- db_query select_last_invoice_no ;;
  match rows with
  | [] => ret "INV-0001"
  | last :: _ => ret (invoice_no_of (next_number last))
  end.

(** [SELECT HireID, CustomerID, TotalAmount FROM tblHire WHERE
    Status='Completed'] *)
Definition is_completed (r : Hire.row) : bool :=
  match Hire.Status r with
  | Some s => String.eqb s "Completed"
  | None => false
  end.

Definition select_completed_hires (d : database) : sqlresult (list Hire.row) :=
  inr (filter is_completed (tblHire d)).

(** [INSERT INTO tblCustomerInvoice (InvoiceNo, HireID, CustomerID,
    InvoiceDate, Amount, PaymentStatus) VALUES (?, ?, ?, ?, ?, 'Unpaid')],
    with NOT NULL on Amount and UNIQUE on InvoiceNo. *)
Definition insert_invoice (invoice_no : string) (hire_id customer_id : Z)
  (invoice_date : string) (amount : Py.float) (d : database)
  : sqlresult database :=
  if fits_int64 hire_id && fits_int64 customer_id then
    match bind_real amount with
    | None =>
        inl (IntegrityError
               "NOT NULL constraint failed: tblCustomerInvoice.Amount")
    | Some a =>
        if existsb (fun r => String.eqb (CustomerInvoice.InvoiceNo r)
                               invoice_no) (tblCustomerInvoice d)
        then inl (IntegrityError
                    "UNIQUE constraint failed: tblCustomerInvoice.InvoiceNo")
        else
          inr (set_tblCustomerInvoice
                 (tblCustomerInvoice d ++
                  [CustomerInvoice.mk
                     (next_id (map CustomerInvoice.InvoiceID
                                 (tblCustomerInvoice d)))
                     invoice_no hire_id customer_id invoice_date a
                     (Some "Unpaid")]) d)
    end
  else inl OverflowError.

(** [next((h for h in hires if h["HireID"] == hire_id), None)] *)
Definition selected_hire (hires : list Hire.row) (hire_id : Z)
  : option Hire.row :=
  find (fun h => Hire.HireID h =? hire_id) hires.

(** [create_invoice_from_hire()] *)
Definition create_invoice_from_hire : M unit :=
  hires <- db_query select_completed_hires ;;
  match hires with
  | [] => print [Text "No completed hires available."]
  | _ :: _ =>
      for_each hires (fun h =>
        print [Text "Hire "; Int (Hire.HireID h); Text " - Amount ";
               Real (Hire.TotalAmount h)]) ;;
      hire_id <- prompt_int "Choose Hire ID" None ;;
      match selected_hire hires hire_id with
      | None => print [Text "Invalid Hire ID."]
      | Some selected =>
          invoice_no <- generate_invoice_no ;;
          invoice_date <- prompt "Invoice Date (YYYY-MM-DD)" None ;;
          db_execute
            (insert_invoice invoice_no hire_id (Hire.CustomerID selected)
               invoice_date (Hire.TotalAmount selected)) ;;
          print [Text "Invoice created with number"; Text invoice_no]
      end
  end.

(** [UPDATE tblCustomerInvoice SET PaymentStatus=? WHERE InvoiceID=?] *)
Definition update_status_of_invoice (status : string) (invoice_id : Z)
  (d : database) : sqlresult database :=
  if fits_int64 invoice_id then
    inr (set_tblCustomerInvoice
           (map (fun r => if CustomerInvoice.InvoiceID r =? invoice_id
                          then CustomerInvoice.set_PaymentStatus
                                 (Some status) r
                          else r)
              (tblCustomerInvoice d)) d)
  else inl OverflowError.

(** [update_invoice_status()] *)
Definition update_invoice_status : M unit :=
  invoice_id <- prompt_int "Invoice ID" None ;;
  found <- record_exists "tblCustomerInvoice" "InvoiceID" (Int invoice_id) ;;
  if negb found then print [Text "Invoice not found."]
  else
    status <- prompt "Payment Status (Unpaid/Partially Paid/Paid)" None ;;
    db_execute (update_status_of_invoice status invoice_id) ;;
    print [Text "Invoice status updated."].

Definition invoice_with_customer (name_key : string)
  (i : CustomerInvoice.row) (c : Customer.row) : sqlite_row :=
  [("InvoiceID", Int (CustomerInvoice.InvoiceID i));
   ("InvoiceNo", Text (CustomerInvoice.InvoiceNo i));
   (name_key, Text (Customer.Name c));
   ("Amount", Real (CustomerInvoice.Amount i));
   ("PaymentStatus", opt_text (CustomerInvoice.PaymentStatus i))].

(** [SELECT i.InvoiceID, i.InvoiceNo, c.Name AS Customer, i.Amount,
    i.PaymentStatus FROM tblCustomerInvoice i JOIN tblCustomer c ON
    i.CustomerID = c.CustomerID]. The statement leaves the order of the
    rows open; SQLite walks the invoices by id and looks each customer up
    by its key. *)
Definition select_invoices_with_customer (d : database)
  : sqlresult (list sqlite_row) :=
  inr (flat_map
         (fun i => map (invoice_with_customer "Customer" i)
                     (customers_with d (CustomerInvoice.CustomerID i)))
         (tblCustomerInvoice d)).

(** [list_invoices()] *)
Definition list_invoices : M unit :=
  rows <- db_query select_invoices_with_customer ;;
  for_each rows print_row ;;
  match rows with
  | [] => print [Text "No invoices found."]
  | _ :: _ => ret tt
  end.

(** A filter of the search functions: [if value:] adds [AND col LIKE ?]
    with the parameter [f"%{value}%"] to the statement. *)
Definition optional_like (col : option string) (value : string) : bool :=
  if String.eqb value "" then true else like_value col value.

(** [SELECT i.InvoiceID, i.InvoiceNo, c.Name, i.Amount, i.PaymentStatus
    FROM tblCustomerInvoice i JOIN tblCustomer c ON
    i.CustomerID=c.CustomerID WHERE 1=1], with [AND i.PaymentStatus LIKE ?]
    and [AND c.Name LIKE ?] for the filters given. *)
Definition select_invoices_filtered (status customer : string) (d : database)
  : sqlresult (list sqlite_row) :=
  inr (flat_map
         (fun i =>
            map (invoice_with_customer "Name" i)
              (filter (fun c => optional_like (Some (Customer.Name c)) customer)
                 (customers_with d (CustomerInvoice.CustomerID i))))
         (filter (fun i => optional_like (CustomerInvoice.PaymentStatus i)
                             status)
            (tblCustomerInvoice d))).

(** [search_invoices()] *)
Definition search_invoices : M unit :=
  status <- prompt "Filter by Payment Status (leave blank for all)"
              (Some "") ;;
  customer <- prompt "Filter by Customer Name (leave blank for all)"
                (Some "") ;;
  rows <- db_query (select_invoices_filtered status customer) ;;
  for_each rows print_row ;;
  match rows with
  | [] => print [Text "No matches."]
  | _ :: _ => ret tt
  end.

(** [invoice_menu()] *)
Definition invoice_menu_text : string :=
  Py.text_lines
    [""; "Invoice Menu"; "1. Create Invoice from Hire";
     "2. Update Invoice Status"; "3. List Invoices"; "4. Search Invoices";
     "0. Back"].

Definition invoice_options : list (string * M unit) :=
  [("1", create_invoice_from_hire); ("2", update_invoice_status);
   ("3", list_invoices); ("4", search_invoices)].

Definition invoice_menu : M unit := menu invoice_menu_text invoice_options.

(** ** Supplier payments module *)

(** [SELECT SupplierID FROM tblHire WHERE HireID=?] *)
Definition select_supplier_of_hire (hire_id : Z) (d : database)
  : sqlresult (list (option Z)) :=
  if fits_int64 hire_id then
    inr (map Hire.SupplierID
           (filter (fun r => Hire.HireID r =? hire_id) (tblHire d)))
  else inl OverflowError.

(** [not supplier_id] holds of [None] and of 0; any other id is kept. *)
Definition truthy (supplier_id : option Z) : option Z :=
  match supplier_id with
  | Some z => if z =? 0 then None else Some z
  | None => None
  end.

(** [INSERT INTO tblSupplierPayment (SupplierID, HireID, PaymentDate,
    Amount, PaymentStatus) VALUES (?, ?, ?, ?, 'Pending')], with NOT NULL
    on Amount. *)
Definition insert_payment (supplier_id hire_id : Z) (payment_date : string)
  (amount : Py.float) (d : database) : sqlresult database :=
  if fits_int64 supplier_id && fits_int64 hire_id then
    match bind_real amount with
    | None =>
        inl (IntegrityError
               "NOT NULL constraint failed: tblSupplierPayment.Amount")
    | Some a =>
        inr (set_tblSupplierPayment
               (tblSupplierPayment d ++
                [SupplierPayment.mk
                   (next_id (map SupplierPayment.PaymentID
                               (tblSupplierPayment d)))
                   supplier_id hire_id payment_date a (Some "Pending")]) d)
    end
  else inl OverflowError.

(** [add_supplier_payment()] *)
Definition add_supplier_payment : M unit :=
  hire_id <- prompt_int "Hire ID" None ;;
  hire_rows <- db_query (select_supplier_of_hire hire_id) ;;
  match hire_rows with
  | [] => print [Text "Hire not found."]
  | supplier_id :: _ =>
      match truthy supplier_id with
      | None => print [Text "This hire has no supplier."]
      | Some supplier_id =>
          payment_date <- prompt "Payment Date (YYYY-MM-DD)" None ;;
          amount <- prompt_float "Amount" ;;
          db_execute
            (insert_payment supplier_id hire_id payment_date amount) ;;
          print [Text "Supplier payment recorded."]
      end
  end.

Definition set_payment_status (s : option string) (r : SupplierPayment.row)
  : SupplierPayment.row :=
  SupplierPayment.mk (SupplierPayment.PaymentID r)
    (SupplierPayment.SupplierID r) (SupplierPayment.HireID r)
    (SupplierPayment.PaymentDate r) (SupplierPayment.Amount r) s.

(** [UPDATE tblSupplierPayment SET PaymentStatus=? WHERE PaymentID=?] *)
Definition update_status_of_payment (status : string) (payment_id : Z)
  (d : database) : sqlresult database :=
  if fits_int64 payment_id then
    inr (set_tblSupplierPayment
           (map (fun r => if SupplierPayment.PaymentID r =? payment_id
                          then set_payment_status (Some status) r
                          else r)
              (tblSupplierPayment d)) d)
  else inl OverflowError.

(** [update_supplier_payment_status()] *)
Definition update_supplier_payment_status : M unit :=
  payment_id <- prompt_int "Payment ID" None ;;
  found <- record_exists "tblSupplierPayment" "PaymentID" (Int payment_id) ;;
  if negb found then print [Text "Payment not found."]
  else
    status <- prompt "Payment Status (Pending/Paid)" None ;;
    db_execute (update_status_of_payment status payment_id) ;;
    print [Text "Payment status updated."].

(** The suppliers that a join finds for a supplier id: [JOIN tblSupplier s
    ON p.SupplierID = s.SupplierID]. *)
Definition suppliers_with (d : database) (supplier_id : Z)
  : list Supplier.row :=
  filter (fun s => Supplier.SupplierID s =? supplier_id) (tblSupplier d).

Definition payment_with_supplier (p : SupplierPayment.row)
  (s : Supplier.row) : sqlite_row :=
  [("PaymentID", Int (SupplierPayment.PaymentID p));
   ("CompanyName", Text (Supplier.CompanyName s));
   ("HireID", Int (SupplierPayment.HireID p));
   ("PaymentDate", Text (SupplierPayment.PaymentDate p));
   ("Amount", Real (SupplierPayment.Amount p));
   ("PaymentStatus", opt_text (SupplierPayment.PaymentStatus p))].

(** [SELECT p.PaymentID, s.CompanyName, p.HireID, p.PaymentDate, p.Amount,
    p.PaymentStatus FROM tblSupplierPayment p JOIN tblSupplier s ON
    p.SupplierID = s.SupplierID], the payments walked by id. *)
Definition select_payments_with_supplier (d : database)
  : sqlresult (list sqlite_row) :=
  inr (flat_map
         (fun p => map (payment_with_supplier p)
                     (suppliers_with d (SupplierPayment.SupplierID p)))
         (tblSupplierPayment d)).

(** [list_supplier_payments()] *)
Definition list_supplier_payments : M unit :=
  rows <- db_query select_payments_with_supplier ;;
  for_each rows print_row ;;
  match rows with
  | [] => print [Text "No payments found."]
  | _ :: _ => ret tt
  end.

Definition payment_found (p : SupplierPayment.row) (s : Supplier.row)
  : sqlite_row :=
  [("PaymentID", Int (SupplierPayment.PaymentID p));
   ("CompanyName", Text (Supplier.CompanyName s));
   ("HireID", Int (SupplierPayment.HireID p));
   ("Amount", Real (SupplierPayment.Amount p));
   ("PaymentStatus", opt_text (SupplierPayment.PaymentStatus p))].

(** [SELECT p.PaymentID, s.CompanyName, p.HireID, p.Amount, p.PaymentStatus
    FROM tblSupplierPayment p JOIN tblSupplier s ON
    p.SupplierID=s.SupplierID WHERE 1=1], with [AND s.CompanyName LIKE ?]
    and [AND p.PaymentStatus LIKE ?] for the filters given. *)
Definition select_payments_filtered (supplier status : string) (d : database)
  : sqlresult (list sqlite_row) :=
  inr (flat_map
         (fun p =>
            map (payment_found p)
              (filter (fun s => optional_like (Some (Supplier.CompanyName s))
                                  supplier)
                 (suppliers_with d (SupplierPayment.SupplierID p))))
         (filter (fun p => optional_like (SupplierPayment.PaymentStatus p)
                             status)
            (tblSupplierPayment d))).

(** [search_supplier_payments()] *)
Definition search_supplier_payments : M unit :=
  supplier <- prompt "Filter by Supplier Name" (Some "") ;;
  status <- prompt "Filter by Status" (Some "") ;;
  rows <- db_query (select_payments_filtered supplier status) ;;
  for_each rows print_row ;;
  match rows with
  | [] => print [Text "No matches."]
  | _ :: _ => ret tt
  end.

(** [supplier_payment_menu()] *)
Definition supplier_payment_menu_text : string :=
  Py.text_lines
    [""; "Supplier Payment Menu"; "1. Add Supplier Payment";
     "2. Update Payment Status"; "3. List Payments"; "4. Search Payments";
     "0. Back"].

Definition supplier_payment_options : list (string * M unit) :=
  [("1", add_supplier_payment); ("2", update_supplier_payment_status);
   ("3", list_supplier_payments); ("4", search_supplier_payments)].

Definition supplier_payment_menu : M unit :=
  menu supplier_payment_menu_text supplier_payment_options.

(** * Properties *)

(** ** Stepping through a computation *)

Lemma bind_returned {A B} (m : M A) (k : A -> M B) w a w' :
  m w = Returned a w' -> bind m k w = k a w'.
Proof. unfold bind. intros ->. reflexivity. Qed.

Lemma bind_raised {A B} (m : M A) (k : A -> M B) w e w' :
  m w = Raised e w' -> bind m k w = Raised e w'.
Proof. unfold bind. intros ->. reflexivity. Qed.

(** The world after some more output. *)
Definition wrote (w : world) (os : list output) : world :=
  mkworld (db w) (stdin w) (stdout w ++ os).

Lemma wrote_nil w : wrote w [] = w.
Proof. destruct w. unfold wrote. simpl. now rewrite List.app_nil_r. Qed.

Lemma wrote_wrote w os os' : wrote (wrote w os) os' = wrote w (os ++ os').
Proof. unfold wrote. simpl. now rewrite List.app_assoc. Qed.

Lemma print_eq parts w : print parts w = Returned tt (wrote w [Printed parts]).
Proof. reflexivity. Qed.

Lemma input_line message d line rest out :
  input message (mkworld d (line :: rest) out)
  = Returned line (mkworld d rest (out ++ [Asked message])).
Proof. reflexivity. Qed.

Lemma input_eof message d out :
  input message (mkworld d [] out)
  = Raised EOFError (mkworld d [] (out ++ [Asked message])).
Proof. reflexivity. Qed.

(** What [prompt] returns for a line that was read. *)
Definition entered (default : option string) (line : string) : string :=
  match default with
  | Some d => if String.eqb line "" then d else Py.strip line
  | None => Py.strip line
  end.

Lemma prompt_line message default d line rest out :
  prompt message default (mkworld d (line :: rest) out)
  = Returned (entered default line)
      (mkworld d rest (out ++ [Asked (message ++ ": ")%string])).
Proof.
  unfold prompt, bind. rewrite input_line. unfold entered.
  destruct default; [destruct (String.eqb line "")|]; reflexivity.
Qed.

Lemma prompt_eof message default d out :
  prompt message default (mkworld d [] out)
  = Raised EOFError (mkworld d [] (out ++ [Asked (message ++ ": ")%string])).
Proof. reflexivity. Qed.

Lemma for_each_print {A} (l : list A) (f : A -> list value) w :
  for_each l (fun x => print (f x)) w
  = Returned tt (wrote w (map (fun x => Printed (f x)) l)).
Proof.
  revert w. induction l as [|x l IH]; intro w; simpl.
  - unfold ret. now rewrite wrote_nil.
  - unfold bind. rewrite print_eq, IH, wrote_wrote. reflexivity.
Qed.

Lemma for_each_print_row {A} (l : list A) (f : A -> sqlite_row) w :
  for_each l (fun x => print_row (f x)) w
  = Returned tt (wrote w (map (fun x => PrintedRow (f x)) l)).
Proof.
  revert w. induction l as [|x l IH]; intro w; simpl.
  - unfold ret. now rewrite wrote_nil.
  - unfold bind. unfold print_row at 1. rewrite IH.
    unfold wrote. simpl. now rewrite <- List.app_assoc.
Qed.

(** ** The prompt loops *)

(** The lines that [prompt_int] turns down before it accepts one. *)
Definition not_an_int (default : option Z) (line : string) : Prop :=
  Py.int (entered (option_map Py.str_of_int default) line) = None.

Definition not_a_float (line : string) : Prop :=
  Py.float_of_str (Py.strip line) = None.

(** The console log of a prompt loop: one question per line read, and one
    complaint per line turned down. *)
Definition retries (message complaint : string) (bad : list string)
  : list output :=
  flat_map (fun _ => [Asked (message ++ ": ")%string; Printed [Text complaint]])
    bad ++ [Asked (message ++ ": ")%string].

Lemma prompt_int_loop_accepts fuel message default d bad good n rest out :
  Forall (not_an_int default) bad ->
  Py.int (entered (option_map Py.str_of_int default) good) = Some n ->
  (List.length bad < fuel)%nat ->
  prompt_int_loop fuel message default (mkworld d (bad ++ good :: rest) out)
  = Returned n
      (mkworld d rest
         (out ++ retries message "Please enter a valid integer." bad)).
Proof.
  intros Hbad Hgood. revert fuel out.
  induction Hbad as [|b bad Hb Hbad IH]; intros fuel out Hfuel.
  - destruct fuel as [|fuel]; [inversion Hfuel|].
    simpl. unfold bind. rewrite prompt_line, Hgood. reflexivity.
  - destruct fuel as [|fuel]; [inversion Hfuel|].
    simpl app. cbn [prompt_int_loop]. unfold bind at 1.
    rewrite prompt_line. red in Hb. rewrite Hb.
    unfold bind. rewrite print_eq. unfold wrote. cbn [db stdin stdout].
    rewrite IH by (simpl in Hfuel; lia).
    unfold retries. simpl. now rewrite <- !List.app_assoc.
Qed.

Lemma prompt_int_accepts message default d bad good n rest out :
  Forall (not_an_int default) bad ->
  Py.int (entered (option_map Py.str_of_int default) good) = Some n ->
  prompt_int message default (mkworld d (bad ++ good :: rest) out)
  = Returned n
      (mkworld d rest
         (out ++ retries message "Please enter a valid integer." bad)).
Proof.
  intros Hbad Hgood. unfold prompt_int.
  apply prompt_int_loop_accepts; auto.
  cbn [stdin]. rewrite List.length_app. simpl. lia.
Qed.

Lemma prompt_float_loop_accepts fuel message d bad good x rest out :
  Forall not_a_float bad ->
  Py.float_of_str (Py.strip good) = Some x ->
  (List.length bad < fuel)%nat ->
  prompt_float_loop fuel message (mkworld d (bad ++ good :: rest) out)
  = Returned x
      (mkworld d rest
         (out ++ retries message "Please enter a valid number." bad)).
Proof.
  intros Hbad Hgood. revert fuel out.
  induction Hbad as [|b bad Hb Hbad IH]; intros fuel out Hfuel.
  - destruct fuel as [|fuel]; [inversion Hfuel|].
    simpl. unfold bind. rewrite prompt_line. unfold entered.
    rewrite Hgood. reflexivity.
  - destruct fuel as [|fuel]; [inversion Hfuel|].
    simpl app. cbn [prompt_float_loop]. unfold bind at 1.
    rewrite prompt_line. red in Hb. unfold entered. rewrite Hb.
    unfold bind. rewrite print_eq. unfold wrote. cbn [db stdin stdout].
    rewrite IH by (simpl in Hfuel; lia).
    unfold retries. simpl. now rewrite <- !List.app_assoc.
Qed.

Lemma prompt_float_accepts message d bad good x rest out :
  Forall not_a_float bad ->
  Py.float_of_str (Py.strip good) = Some x ->
  prompt_float message (mkworld d (bad ++ good :: rest) out)
  = Returned x
      (mkworld d rest
         (out ++ retries message "Please enter a valid number." bad)).
Proof.
  intros Hbad Hgood. unfold prompt_float.
  apply prompt_float_loop_accepts; auto.
  cbn [stdin]. rewrite List.length_app. simpl. lia.
Qed.

(** Fuel above the number of pending lines is never used up: any two such
    amounts give the same outcome. *)
Lemma prompt_int_fuel message default d lines out fuel fuel' :
  (List.length lines < fuel)%nat -> (List.length lines < fuel')%nat ->
  prompt_int_loop fuel message default (mkworld d lines out)
  = prompt_int_loop fuel' message default (mkworld d lines out).
Proof.
  revert out fuel fuel'.
  induction lines as [|l lines IH]; intros out fuel fuel' H H';
    (destruct fuel as [|fuel]; [inversion H|]);
    (destruct fuel' as [|fuel']; [inversion H'|]);
    cbn [prompt_int_loop]; unfold bind at 1 3.
  - rewrite prompt_eof. reflexivity.
  - rewrite prompt_line.
    destruct (Py.int _); [reflexivity|].
    unfold bind. rewrite print_eq. unfold wrote. cbn [db stdin stdout].
    apply IH; simpl in *; lia.
Qed.

Lemma prompt_float_fuel message d lines out fuel fuel' :
  (List.length lines < fuel)%nat -> (List.length lines < fuel')%nat ->
  prompt_float_loop fuel message (mkworld d lines out)
  = prompt_float_loop fuel' message (mkworld d lines out).
Proof.
  revert out fuel fuel'.
  induction lines as [|l lines IH]; intros out fuel fuel' H H';
    (destruct fuel as [|fuel]; [inversion H|]);
    (destruct fuel' as [|fuel']; [inversion H'|]);
    cbn [prompt_float_loop]; unfold bind at 1 3.
  - rewrite prompt_eof. reflexivity.
  - rewrite prompt_line.
    destruct (Py.float_of_str _); [reflexivity|].
    unfold bind. rewrite print_eq. unfold wrote. cbn [db stdin stdout].
    apply IH; simpl in *; lia.
Qed.

(** ** What a computation may do to the database *)

(** [changes R m]: whatever the console holds and however [m] ends, the
    database after [m] is related by [R] to the database before. *)
Definition changes {A} (R : database -> database -> Prop) (m : M A) : Prop :=
  forall w, R (db w) (db (world_of (m w))).

Section Changes.
Context (R : database -> database -> Prop) `{!PreOrder R}.

Lemma changes_ret {A} (a : A) : changes R (ret a).
Proof. intro w. reflexivity. Qed.

Lemma changes_raise {A} e : changes R (@raise A e).
Proof. intro w. reflexivity. Qed.

Lemma changes_bind {A B} (m : M A) (k : A -> M B) :
  changes R m -> (forall a, changes R (k a)) -> changes R (bind m k).
Proof.
  intros Hm Hk w. unfold bind. specialize (Hm w).
  destruct (m w) as [a w'|e w']; simpl in *; auto.
  etransitivity; [exact Hm|apply Hk].
Qed.

Lemma changes_print parts : changes R (print parts).
Proof. intro w. reflexivity. Qed.

Lemma changes_print_row r : changes R (print_row r).
Proof. intro w. reflexivity. Qed.

Lemma changes_input message : changes R (input message).
Proof. intro w. unfold input. destruct (stdin w); reflexivity. Qed.

Lemma changes_query {A} (q : database -> sqlresult A) :
  changes R (db_query q).
Proof. intro w. unfold db_query. destruct (q (db w)); reflexivity. Qed.

Lemma changes_execute stmt :
  (forall d d', stmt d = inr d' -> R d d') -> changes R (db_execute stmt).
Proof.
  intros H w. unfold db_execute.
  destruct (stmt (db w)) eqn:E; simpl; [reflexivity|auto].
Qed.

Lemma changes_for_each {A} (l : list A) body :
  (forall x, changes R (body x)) -> changes R (for_each l body).
Proof.
  intro H. induction l; simpl.
  - apply changes_ret.
  - apply changes_bind; auto.
Qed.

Lemma changes_prompt message default : changes R (prompt message default).
Proof.
  apply changes_bind; [apply changes_input|].
  intro v. destruct default; [destruct (String.eqb v "")|];
    apply changes_ret.
Qed.

Lemma changes_prompt_int_loop fuel message default :
  changes R (prompt_int_loop fuel message default).
Proof.
  induction fuel; simpl; [apply changes_raise|].
  apply changes_bind; [apply changes_prompt|].
  intro v. destruct (Py.int v); [apply changes_ret|].
  apply changes_bind; [apply changes_print|auto].
Qed.

Lemma changes_prompt_int message default :
  changes R (prompt_int message default).
Proof. intro w. apply changes_prompt_int_loop. Qed.

Lemma changes_prompt_float_loop fuel message :
  changes R (prompt_float_loop fuel message).
Proof.
  induction fuel; simpl; [apply changes_raise|].
  apply changes_bind; [apply changes_prompt|].
  intro v. destruct (Py.float_of_str v); [apply changes_ret|].
  apply changes_bind; [apply changes_print|auto].
Qed.

Lemma changes_prompt_float message : changes R (prompt_float message).
Proof. intro w. apply changes_prompt_float_loop. Qed.

Lemma changes_record_exists table key_field v :
  changes R (record_exists table key_field v).
Proof.
  apply changes_bind; [apply changes_query|]. intro; apply changes_ret.
Qed.

Lemma changes_choose_from_table table id_field label_field :
  changes R (choose_from_table table id_field label_field).
Proof.
  apply changes_bind; [apply changes_query|]. intros [|r rows].
  - apply changes_bind; [apply changes_print|]. intro; apply changes_ret.
  - apply changes_bind;
      [apply changes_for_each; intro; apply changes_print|].
    intros _. apply changes_bind; [apply changes_input|]. intro line.
    destruct (Py.int line).
    + apply changes_bind; [apply changes_record_exists|].
      intros []; [apply changes_ret|].
      apply changes_bind; [apply changes_print|]. intro; apply changes_ret.
    + apply changes_bind; [apply changes_print|]. intro; apply changes_ret.
Qed.

Lemma changes_float_times_int rate quantity :
  changes R (float_times_int rate quantity).
Proof.
  unfold float_times_int.
  destruct (Py.float_of_int quantity);
    [apply changes_ret|apply changes_raise].
Qed.
End Changes.

(** One step of a proof that a function changes the database within [R]:
    the parts that only read are discharged, a sequence is split. *)
Ltac changes_step :=
  first
    [ apply changes_ret | apply changes_raise | apply changes_print
    | apply changes_print_row | apply changes_input | apply changes_query
    | apply changes_prompt | apply changes_prompt_int
    | apply changes_prompt_float | apply changes_record_exists
    | apply changes_choose_from_table | apply changes_float_times_int
    | apply changes_for_each | apply changes_bind ];
  try exact _.

Ltac changes_auto :=
  repeat (changes_step
          || match goal with
             | |- forall _, changes _ _ => intro
             | |- changes _ (match ?x with _ => _ end) => destruct x
             | |- changes _ (if ?x then _ else _) => destruct x
             end).

(** Reading the console and the database leaves the database as it is. *)
Definition keeps_db {A} (m : M A) : Prop := changes eq m.

(** ** Decimal text: printing an integer and reading it back *)

Lemma chars_append s t :
  Py.chars (s ++ t)%string = Py.chars s ++ Py.chars t.
Proof. induction s; simpl; [reflexivity|now f_equal]. Qed.

Lemma chars_of_list l : Py.chars (string_of_list_ascii l) = l.
Proof. apply list_ascii_of_string_of_list_ascii. Qed.

Lemma chars_zeros k : Py.chars (Py.zeros k) = repeat "0"%char k.
Proof. induction k; simpl; [reflexivity|now f_equal]. Qed.

Definition digit_step (acc : N) (c : ascii) : N :=
  (Py.digit_value c + 10 * acc)%N.

Lemma uint_chars_value d acc :
  fold_left digit_step (Py.chars (NilEmpty.string_of_uint d)) acc
  = (Unsigned.of_lu (Decimal.rev d) + acc * 10 ^ Unsigned.usize d)%N.
Proof.
  revert acc.
  induction d; intro acc; cbn [NilEmpty.string_of_uint Py.chars
    list_ascii_of_string fold_left Unsigned.usize];
    [ simpl; lia | .. ];
    fold (Py.chars (NilEmpty.string_of_uint d)); rewrite IHd;
    unfold Decimal.rev; cbn [Decimal.revapp];
    rewrite (Unsigned.of_lu_revapp d (_ Decimal.Nil));
    fold (Decimal.rev d); rewrite N.pow_succ_r';
    unfold digit_step, Py.digit_value; simpl Unsigned.of_lu; simpl N_of_ascii;
    lia.
Qed.

Lemma uint_chars_digits d :
  forallb Py.isdigit (Py.chars (NilEmpty.string_of_uint d)) = true.
Proof. induction d; simpl; auto. Qed.

Lemma str_of_N_nilempty n :
  Py.str_of_N n = NilEmpty.string_of_uint (N.to_uint n).
Proof.
  unfold Py.str_of_N, NilZero.string_of_uint.
  destruct (N.to_uint n) eqn:E; try reflexivity.
  destruct n; simpl in E; [discriminate|].
  now apply Unsigned.to_uint_nonnil in E.
Qed.

Lemma str_of_N_value n :
  Py.digits_value (Py.chars (Py.str_of_N n)) = n.
Proof.
  unfold Py.digits_value. fold digit_step.
  rewrite str_of_N_nilempty, uint_chars_value.
  rewrite N.mul_0_l, N.add_0_r, <- Unsigned.of_uint_alt.
  apply DecimalN.Unsigned.of_to.
Qed.

Lemma str_of_N_digits n :
  forallb Py.isdigit (Py.chars (Py.str_of_N n)) = true.
Proof. rewrite str_of_N_nilempty. apply uint_chars_digits. Qed.

Lemma str_of_N_nonempty n : Py.chars (Py.str_of_N n) <> [].
Proof.
  rewrite str_of_N_nilempty.
  destruct (N.to_uint n) eqn:E; simpl; try discriminate.
  destruct n; simpl in E; [discriminate|].
  now apply Unsigned.to_uint_nonnil in E.
Qed.

Lemma digit_not_space c : Py.isdigit c = true -> Py.isspace c = false.
Proof.
  destruct c as [[] [] [] [] [] [] [] []]; simpl; intro H;
    (reflexivity || discriminate H).
Qed.

Lemma digit_not_sign c :
  Py.isdigit c = true ->
  Ascii.eqb c "-" = false /\ Ascii.eqb c "+" = false
  /\ Ascii.eqb c "_" = false.
Proof.
  destruct c as [[] [] [] [] [] [] [] []]; simpl; intro H;
    (repeat split; reflexivity) || discriminate H.
Qed.

Lemma forallb_rev {A} (f : A -> bool) l :
  forallb f l = true -> forallb f (rev l) = true.
Proof.
  rewrite !forallb_forall. intros H x Hx. apply H. now apply in_rev.
Qed.

Lemma lstrip_digits l :
  forallb Py.isdigit l = true -> Py.lstrip_chars l = l.
Proof.
  destruct l as [|c l]; simpl; [reflexivity|].
  intro H. apply andb_prop in H as [H _].
  now rewrite (digit_not_space c H).
Qed.

Lemma strip_digits l :
  forallb Py.isdigit l = true -> Py.strip_chars l = l.
Proof.
  intro H. unfold Py.strip_chars.
  rewrite (lstrip_digits l H), (lstrip_digits (rev l) (forallb_rev _ _ H)).
  apply rev_involutive.
Qed.

(** The white space of a literal is white space for [strip] too. *)
Lemma isspace_literal_isspace c :
  Py.isspace_literal c = true -> Py.isspace c = true.
Proof.
  destruct c as [[] [] [] [] [] [] [] []]; simpl; intro H;
    (reflexivity || discriminate H).
Qed.

Lemma not_space_not_literal c :
  Py.isspace c = false -> Py.isspace_literal c = false.
Proof.
  intro H. destruct (Py.isspace_literal c) eqn:E; [|reflexivity].
  apply isspace_literal_isspace in E. congruence.
Qed.

Lemma lskip_digits l :
  forallb Py.isdigit l = true -> Py.lskip_chars l = l.
Proof.
  destruct l as [|c l]; simpl; [reflexivity|].
  intro H. apply andb_prop in H as [H _].
  now rewrite (not_space_not_literal c (digit_not_space c H)).
Qed.

Lemma skip_digits l :
  forallb Py.isdigit l = true -> Py.skip_chars l = l.
Proof.
  intro H. unfold Py.skip_chars.
  rewrite (lskip_digits l H), (lskip_digits (rev l) (forallb_rev _ _ H)).
  apply rev_involutive.
Qed.

Lemma drop_underscores_digits l b :
  forallb Py.isdigit l = true -> Py.drop_underscores b l = Some l.
Proof.
  revert b. induction l as [|c l IH]; intros b H; simpl; [reflexivity|].
  simpl in H. apply andb_prop in H as [Hc Hl].
  destruct (digit_not_sign c Hc) as (_ & _ & ->).
  now rewrite IH.
Qed.

(** Reading back a text made of digits only. *)
Lemma int_of_digits l :
  l <> [] -> forallb Py.isdigit l = true ->
  Py.int (string_of_list_ascii l) = Some (Z.of_N (Py.digits_value l)).
Proof.
  intros Hne H. unfold Py.int.
  rewrite list_ascii_of_string_of_list_ascii, (skip_digits l H).
  destruct l as [|c l]; [contradiction|].
  assert (Hc : Py.isdigit c = true) by (simpl in H; now apply andb_prop in H).
  unfold Py.take_sign.
  destruct (digit_not_sign c Hc) as (-> & -> & _).
  rewrite (drop_underscores_digits _ false H).
  unfold Py.all_digits. now rewrite H.
Qed.

Lemma forallb_repeat {A} (f : A -> bool) x k :
  f x = true -> forallb f (repeat x k) = true.
Proof. intro H. induction k; simpl; [reflexivity|now rewrite H]. Qed.

Lemma digits_value_zeros k l :
  Py.digits_value (repeat "0"%char k ++ l) = Py.digits_value l.
Proof.
  unfold Py.digits_value. rewrite fold_left_app. f_equal.
  induction k; simpl; auto.
Qed.

Lemma string_of_chars s : string_of_list_ascii (Py.chars s) = s.
Proof. apply string_of_list_ascii_of_string. Qed.

(** [format(n, "04d")] of a number that is not negative is made of digits,
    and [int] reads the number back. *)
Lemma format_04d_chars n :
  0 <= n ->
  exists k, Py.chars (Py.format_04d n)
            = repeat "0"%char k ++ Py.chars (Py.str_of_N (Z.to_N n)).
Proof.
  intro H. unfold Py.format_04d.
  destruct n as [|p|p]; try lia;
    eexists; rewrite chars_append, chars_zeros; reflexivity.
Qed.

Lemma format_04d_digits n :
  0 <= n -> forallb Py.isdigit (Py.chars (Py.format_04d n)) = true.
Proof.
  intro H. destruct (format_04d_chars n H) as [k ->].
  rewrite forallb_app, str_of_N_digits, forallb_repeat; reflexivity.
Qed.

Lemma int_format_04d n : 0 <= n -> Py.int (Py.format_04d n) = Some n.
Proof.
  intro H.
  rewrite <- (string_of_chars (Py.format_04d n)).
  rewrite int_of_digits.
  - destruct (format_04d_chars n H) as [k ->].
    rewrite digits_value_zeros, str_of_N_value. f_equal. lia.
  - destruct (format_04d_chars n H) as [k ->].
    intro E. apply app_eq_nil in E as [_ E].
    now apply str_of_N_nonempty in E.
  - now apply format_04d_digits.
Qed.

(** The text after the last hyphen. *)
Lemma split_chars_no_sep sep l :
  forallb (fun c => negb (Ascii.eqb c sep)) l = true ->
  Py.split_chars sep l = [l].
Proof.
  induction l as [|c l IH]; simpl; [reflexivity|].
  intro H. apply andb_prop in H as [Hc Hl].
  destruct (Ascii.eqb c sep); [discriminate|].
  now rewrite IH.
Qed.

Lemma digit_not_hyphen l :
  forallb Py.isdigit l = true ->
  forallb (fun c => negb (Ascii.eqb c "-")) l = true.
Proof.
  rewrite !forallb_forall. intros H c Hc.
  destruct (digit_not_sign c (H c Hc)) as (-> & _). reflexivity.
Qed.

Lemma last_piece_invoice_no n :
  0 <= n ->
  Py.last_piece (Py.split "-" (invoice_no_of n)) = Py.format_04d n.
Proof.
  intro H. unfold invoice_no_of, Py.split, Py.last_piece.
  change (list_ascii_of_string ("INV-" ++ Py.format_04d n))
    with ("I" :: "N" :: "V" :: "-" :: Py.chars (Py.format_04d n))%char.
  cbn [Py.split_chars Ascii.eqb Bool.eqb].
  rewrite (split_chars_no_sep _ _ (digit_not_hyphen _ (format_04d_digits n H))).
  simpl. apply string_of_chars.
Qed.

(** The generator's arithmetic: after INV-n comes n + 1. *)
Lemma suffix_number_invoice_no n :
  0 <= n -> suffix_number (invoice_no_of n) = Some n.
Proof.
  intro H. unfold suffix_number.
  now rewrite last_piece_invoice_no, int_format_04d.
Qed.

Lemma next_number_invoice_no n :
  0 <= n -> next_number (invoice_no_of n) = n + 1.
Proof.
  intro H. unfold next_number. now rewrite suffix_number_invoice_no.
Qed.

Lemma invoice_no_of_inj n m :
  0 <= n -> 0 <= m -> invoice_no_of n = invoice_no_of m -> n = m.
Proof.
  intros Hn Hm E.
  pose proof (next_number_invoice_no n Hn) as En.
  rewrite E, (next_number_invoice_no m Hm) in En. lia.
Qed.

(** ** The invoice sequence *)

Import CustomerInvoice.

(** The invoices of a store, in creation order, are in sequence when the
    k-th one has id k and number INV-k. *)
Inductive in_sequence : list CustomerInvoice.row -> Prop :=
| in_sequence_nil : in_sequence []
| in_sequence_snoc l r :
    in_sequence l ->
    InvoiceID r = Z.of_nat (S (List.length l)) ->
    InvoiceNo r = invoice_no_of (Z.of_nat (S (List.length l))) ->
    in_sequence (l ++ [r]).

(** The first [n] invoice numbers. *)
Definition sequence (n : nat) : list string :=
  map (fun k => invoice_no_of (Z.of_nat k)) (seq 1 n).

Lemma in_sequence_numbers l :
  in_sequence l -> map InvoiceNo l = sequence (List.length l).
Proof.
  induction 1 as [|l r _ IH _ Hno]; [reflexivity|].
  rewrite map_app, List.length_app, IH. simpl List.length.
  rewrite Nat.add_1_r. unfold sequence. rewrite seq_S, map_app. simpl.
  now rewrite Hno.
Qed.

Lemma in_sequence_ids l :
  in_sequence l -> map InvoiceID l = map Z.of_nat (seq 1 (List.length l)).
Proof.
  induction 1 as [|l r _ IH Hid _]; [reflexivity|].
  rewrite map_app, List.length_app, IH. simpl List.length.
  rewrite Nat.add_1_r, seq_S, map_app. simpl. now rewrite Hid.
Qed.

Lemma in_sequence_bounds l :
  in_sequence l ->
  forall x, In x l ->
    exists k, (1 <= k <= List.length l)%nat
              /\ InvoiceID x = Z.of_nat k
              /\ InvoiceNo x = invoice_no_of (Z.of_nat k).
Proof.
  induction 1 as [|l r _ IH Hid Hno]; intros x Hx; [inversion Hx|].
  rewrite List.length_app. simpl List.length.
  apply in_app_or in Hx as [Hx|[<-|[]]].
  - destruct (IH x Hx) as (k & Hk & E1 & E2). exists k. repeat split; auto; lia.
  - exists (S (List.length l)). repeat split; auto; lia.
Qed.

Definition newer (best : option CustomerInvoice.row) (r : CustomerInvoice.row)
  : option CustomerInvoice.row :=
  match best with
  | Some b => if InvoiceID b <? InvoiceID r then Some r else best
  | None => Some r
  end.

Lemma newest_invoice_in l b :
  newest_invoice l = Some b -> In b l.
Proof.
  unfold newest_invoice. fold newer.
  assert (G : forall acc, fold_left newer l acc = Some b ->
                          acc = Some b \/ In b l).
  { induction l as [|x l IH]; intros acc H; simpl in *; [now left|].
    destruct (IH _ H) as [E|E]; [|now right; right].
    destruct acc as [a|]; simpl in E.
    - destruct (InvoiceID a <? InvoiceID x).
      + inversion E. right. now left.
      + now left.
    - inversion E. right. now left. }
  intro H. destruct (G None H) as [E|E]; [discriminate|exact E].
Qed.

Lemma newest_invoice_snoc l r :
  (forall x, In x l -> InvoiceID x < InvoiceID r) ->
  newest_invoice (l ++ [r]) = Some r.
Proof.
  intro H. unfold newest_invoice. rewrite fold_left_app. cbn [fold_left].
  remember (fold_left _ l None) as best eqn:E. symmetry in E.
  destruct best as [b|]; [|reflexivity].
  apply (newest_invoice_in l b) in E. apply H in E.
  apply Z.ltb_lt in E. now rewrite E.
Qed.

Lemma in_sequence_newest l r :
  in_sequence (l ++ [r]) -> newest_invoice (l ++ [r]) = Some r.
Proof.
  intro H. inversion H as [E|l' r' Hl Hid Hno E].
  - now destruct l.
  - apply app_inj_tail in E as [-> ->].
    apply newest_invoice_snoc. intros x Hx.
    destruct (in_sequence_bounds l Hl x Hx) as (k & Hk & -> & _).
    rewrite Hid. lia.
Qed.

Lemma max_of_ids l :
  (forall x, In x l -> 0 <= x) ->
  forall m, (forall x, In x l -> x <= m) -> 0 <= m ->
  fold_right Z.max 0 (l ++ [m]) = m.
Proof.
  induction l as [|y l IH]; intros Hpos m Hm Hm0; simpl.
  - lia.
  - rewrite IH; auto.
    + specialize (Hm y (or_introl eq_refl)). lia.
    + intros x Hx. apply Hpos. now right.
    + intros x Hx. apply Hm. now right.
Qed.

Lemma in_sequence_next_id l :
  in_sequence l ->
  next_id (map InvoiceID l) = Z.of_nat (S (List.length l)).
Proof.
  unfold next_id. induction 1 as [|l r Hl IH Hid _]; [reflexivity|].
  rewrite map_app. simpl map. rewrite max_of_ids.
  - rewrite Hid, List.length_app. simpl. lia.
  - intros x Hx. apply in_map_iff in Hx as (y & <- & Hy).
    destruct (in_sequence_bounds l Hl y Hy) as (k & Hk & -> & _). lia.
  - intros x Hx. apply in_map_iff in Hx as (y & <- & Hy).
    destruct (in_sequence_bounds l Hl y Hy) as (k & Hk & -> & _). lia.
  - lia.
Qed.

Lemma in_sequence_map f l :
  (forall r, InvoiceID (f r) = InvoiceID r) ->
  (forall r, InvoiceNo (f r) = InvoiceNo r) ->
  in_sequence l -> in_sequence (map f l).
Proof.
  intros Hid Hno. induction 1 as [|l r _ IH E1 E2]; [constructor|].
  rewrite map_app. simpl. constructor; auto.
  - now rewrite Hid, length_map.
  - now rewrite Hno, length_map.
Qed.

(** In a store whose invoices are in sequence the generator yields the
    next number of the sequence, and that number is not in use. *)
Definition next_invoice_no (d : database) : string :=
  match newest_invoice (tblCustomerInvoice d) with
  | Some r => invoice_no_of (next_number (InvoiceNo r))
  | None => "INV-0001"
  end.

Lemma generate_invoice_no_eq w :
  generate_invoice_no w = Returned (next_invoice_no (db w)) w.
Proof.
  unfold generate_invoice_no, next_invoice_no, bind, db_query,
    select_last_invoice_no.
  destruct (newest_invoice _); reflexivity.
Qed.

Lemma in_sequence_next_invoice_no d :
  in_sequence (tblCustomerInvoice d) ->
  next_invoice_no d
  = invoice_no_of (Z.of_nat (S (List.length (tblCustomerInvoice d)))).
Proof.
  unfold next_invoice_no. intro H.
  destruct H as [|l r Hl Hid Hno]; [reflexivity|].
  rewrite (in_sequence_newest l r) by (now constructor).
  rewrite Hno, next_number_invoice_no by lia.
  f_equal. rewrite List.length_app. simpl. lia.
Qed.

Lemma in_sequence_fresh l :
  in_sequence l ->
  existsb (fun r => String.eqb (InvoiceNo r)
                      (invoice_no_of (Z.of_nat (S (List.length l))))) l
  = false.
Proof.
  intro H. apply not_true_is_false. intro E.
  apply existsb_exists in E as (x & Hx & E). apply String.eqb_eq in E.
  destruct (in_sequence_bounds l H x Hx) as (k & Hk & _ & Hno).
  rewrite Hno in E. apply invoice_no_of_inj in E; lia.
Qed.

(** *** Which tables an operation writes *)

(** Every table but tblHire is as before. *)
Definition only_hires (d d' : database) : Prop :=
  d' = set_tblHire (tblHire d') d.

(** Every table but tblCustomerInvoice is as before, and the invoices are
    in sequence after if they were before. *)
Definition keeps_sequence (d d' : database) : Prop :=
  in_sequence (tblCustomerInvoice d) -> in_sequence (tblCustomerInvoice d').

(** Every table but tblSupplierPayment is as before. *)
Definition only_payments (d d' : database) : Prop :=
  d' = set_tblSupplierPayment (tblSupplierPayment d') d.

#[local] Instance only_hires_preorder : PreOrder only_hires.
Proof.
  split.
  - intros []. reflexivity.
  - intros [] [] [] H1 H2. unfold only_hires, set_tblHire in *. simpl in *.
    congruence.
Qed.

#[local] Instance only_payments_preorder : PreOrder only_payments.
Proof.
  split.
  - intros []. reflexivity.
  - intros [] [] [] H1 H2.
    unfold only_payments, set_tblSupplierPayment in *. simpl in *.
    congruence.
Qed.

#[local] Instance keeps_sequence_preorder : PreOrder keeps_sequence.
Proof. split; unfold keeps_sequence; [intros d H|intros x y z]; auto. Qed.

Lemma changes_weaken {A} (R R' : database -> database -> Prop) (m : M A) :
  (forall d d', R d d' -> R' d d') -> changes R m -> changes R' m.
Proof. intros H Hm w. apply H, Hm. Qed.

Lemma only_hires_keeps_sequence d d' : only_hires d d' -> keeps_sequence d d'.
Proof. unfold only_hires, keeps_sequence. intros -> H. exact H. Qed.

Lemma only_payments_keeps_sequence d d' :
  only_payments d d' -> keeps_sequence d d'.
Proof. unfold only_payments, keeps_sequence. intros -> H. exact H. Qed.

Lemma eq_keeps_sequence d d' : d = d' -> keeps_sequence d d'.
Proof. intros <- H. exact H. Qed.

Lemma insert_hire_only_hires f dr c s ht sd ed r q t st d d' :
  insert_hire f dr c s ht sd ed r q t st d = inr d' -> only_hires d d'.
Proof.
  unfold insert_hire.
  destruct (_ && _); [|discriminate].
  destruct (bind_real r); [|discriminate].
  destruct (bind_real t); [|discriminate].
  destruct (hire_type_ok ht); [|discriminate].
  intro E. inversion E. reflexivity.
Qed.

Lemma add_hire_only_hires : changes only_hires add_hire.
Proof.
  unfold add_hire, add_hire_supplier, add_hire_record.
  changes_auto.
  apply changes_execute; try exact _.
  intros d d'. apply insert_hire_only_hires.
Qed.

Lemma update_hire_status_only_hires : changes only_hires update_hire_status.
Proof.
  unfold update_hire_status. changes_auto.
  apply changes_execute; try exact _.
  intros d d'. unfold update_status_of_hire.
  destruct (fits_int64 _); [|discriminate].
  intro E. inversion E. reflexivity.
Qed.

Lemma search_hires_keeps_db : keeps_db search_hires.
Proof. unfold keeps_db, search_hires. changes_auto. Qed.

Lemma insert_payment_only_payments s h pd a d d' :
  insert_payment s h pd a d = inr d' -> only_payments d d'.
Proof.
  unfold insert_payment.
  destruct (_ && _); [|discriminate].
  destruct (bind_real a); [|discriminate].
  intro E. inversion E. reflexivity.
Qed.

Lemma add_supplier_payment_only_payments :
  changes only_payments add_supplier_payment.
Proof.
  unfold add_supplier_payment. changes_auto.
  apply changes_execute; try exact _.
  intros d d'. apply insert_payment_only_payments.
Qed.

Lemma update_invoice_status_sequence :
  changes keeps_sequence update_invoice_status.
Proof.
  unfold update_invoice_status. changes_auto.
  apply changes_execute; try exact _.
  intros d d'. unfold update_status_of_invoice.
  destruct (fits_int64 _); [|discriminate].
  intro E. inversion E. intro H. simpl.
  apply in_sequence_map; auto; intro r;
    destruct (InvoiceID r =? _); reflexivity.
Qed.

(** A stored invoice: what the INSERT of [create_invoice_from_hire] adds. *)
Lemma insert_invoice_stored no h c date a d d' :
  insert_invoice no h c date a d = inr d' ->
  exists a',
    bind_real a = Some a'
    /\ d' = set_tblCustomerInvoice
              (tblCustomerInvoice d ++
               [CustomerInvoice.mk (next_id (map InvoiceID (tblCustomerInvoice d)))
                  no h c date a' (Some "Unpaid")]) d.
Proof.
  unfold insert_invoice.
  destruct (_ && _); [|discriminate].
  destruct (bind_real a) as [a'|]; [|discriminate].
  destruct (existsb _ _); [discriminate|].
  intro E. inversion E. now exists a'.
Qed.

Lemma insert_invoice_sequence h c date a d d' :
  insert_invoice (next_invoice_no d) h c date a d = inr d' ->
  keeps_sequence d d'.
Proof.
  intros E Hseq. apply insert_invoice_stored in E as (a' & _ & ->).
  simpl. constructor; auto; simpl.
  - now apply in_sequence_next_id.
  - now apply in_sequence_next_invoice_no.
Qed.

Lemma create_invoice_from_hire_sequence :
  changes keeps_sequence create_invoice_from_hire.
Proof.
  unfold create_invoice_from_hire.
  changes_step; [changes_step|]. intros [|h0 hires].
  { changes_step. }
  changes_step; [changes_auto|]. intros _.
  changes_step; [changes_step|]. intro hire_id.
  destruct (selected_hire _ _) as [selected|]; [|changes_step].
  intro w. unfold bind at 1. rewrite generate_invoice_no_eq.
  unfold bind at 1.
  pose proof (changes_prompt eq "Invoice Date (YYYY-MM-DD)" None w) as Hp.
  destruct (prompt _ _ w) as [date w1|e w1]; simpl in Hp.
  - unfold bind, db_execute.
    destruct (insert_invoice _ _ _ _ _ _) as [e|d'] eqn:E; simpl.
    + rewrite <- Hp. reflexivity.
    + rewrite <- Hp in E. now apply insert_invoice_sequence in E.
  - simpl. rewrite <- Hp. reflexivity.
Qed.

(** ** Creating an invoice *)

(** The hires listed by [create_invoice_from_hire]. *)
Definition completed_hires (d : database) : list Hire.row :=
  filter is_completed (tblHire d).

Definition listing (hires : list Hire.row) : list output :=
  map (fun h => Printed [Text "Hire "; Int (Hire.HireID h);
                         Text " - Amount "; Real (Hire.TotalAmount h)])
    hires.

Lemma selected_hire_completed d hire_id h :
  selected_hire (completed_hires d) hire_id = Some h ->
  In h (tblHire d) /\ is_completed h = true /\ Hire.HireID h = hire_id.
Proof.
  unfold selected_hire. intro H. apply find_some in H as [H1 H2].
  apply filter_In in H1 as [H1 H3]. apply Z.eqb_eq in H2. auto.
Qed.

(** With nothing to invoice the function says so and returns. *)
Lemma create_invoice_nothing_completed w :
  completed_hires (db w) = [] ->
  create_invoice_from_hire w
  = Returned tt (wrote w [Printed [Text "No completed hires available."]]).
Proof.
  intro H. unfold create_invoice_from_hire, bind, db_query,
    select_completed_hires.
  fold (completed_hires (db w)). rewrite H. reflexivity.
Qed.

(** The function up to the choice of a hire: the completed hires are
    listed and a hire id is asked for until an integer is entered. *)
Lemma create_invoice_choice d bad good hire_id rest out :
  completed_hires d <> [] ->
  Forall (not_an_int None) bad ->
  Py.int (Py.strip good) = Some hire_id ->
  let w' := mkworld d rest
              (out ++ listing (completed_hires d)
                   ++ retries "Choose Hire ID"
                        "Please enter a valid integer." bad) in
  create_invoice_from_hire (mkworld d (bad ++ good :: rest) out)
  = match selected_hire (completed_hires d) hire_id with
    | None => print [Text "Invalid Hire ID."] w'
    | Some selected =>
        (invoice_no <- generate_invoice_no ;;
         invoice_date <- prompt "Invoice Date (YYYY-MM-DD)" None ;;
         db_execute
           (insert_invoice invoice_no hire_id (Hire.CustomerID selected)
              invoice_date (Hire.TotalAmount selected)) ;;
         print [Text "Invoice created with number"; Text invoice_no]) w'
    end.
Proof.
  intros Hne Hbad Hgood w'.
  unfold create_invoice_from_hire, db_query, select_completed_hires.
  unfold bind at 1. cbn [db]. fold (completed_hires d).
  destruct (completed_hires d) as [|h0 hires] eqn:E; [contradiction|].
  unfold bind at 1. rewrite for_each_print.
  unfold bind at 1. unfold wrote. cbn [db stdin stdout].
  rewrite prompt_int_accepts with (n := hire_id); auto.
  subst w'. unfold listing. rewrite <- List.app_assoc.
  destruct (selected_hire _ _); reflexivity.
Qed.

(** From a completed hire, in a store whose invoices are in sequence, the
    invoice is created with the next number of the sequence. *)
Lemma create_invoice_creates d bad good hire_id h date rest out :
  in_sequence (tblCustomerInvoice d) ->
  selected_hire (completed_hires d) hire_id = Some h ->
  Forall (not_an_int None) bad ->
  Py.int (Py.strip good) = Some hire_id ->
  fits_int64 hire_id = true ->
  fits_int64 (Hire.CustomerID h) = true ->
  Py.is_nan (Hire.TotalAmount h) = false ->
  exists w',
    create_invoice_from_hire (mkworld d (bad ++ good :: date :: rest) out)
    = Returned tt w'
    /\ stdin w' = rest
    /\ db w' = set_tblCustomerInvoice
                 (tblCustomerInvoice d ++
                  [CustomerInvoice.mk
                     (Z.of_nat (S (List.length (tblCustomerInvoice d))))
                     (invoice_no_of
                        (Z.of_nat (S (List.length (tblCustomerInvoice d)))))
                     hire_id (Hire.CustomerID h) (Py.strip date)
                     (real_column (Hire.TotalAmount h)) (Some "Unpaid")]) d.
Proof.
  intros Hseq Hsel Hbad Hgood Hfit Hfitc Hnan.
  rewrite create_invoice_choice with (hire_id := hire_id); auto.
  2:{ intro E. rewrite E in Hsel. discriminate. }
  rewrite Hsel. unfold bind at 1. rewrite generate_invoice_no_eq.
  cbn [db]. rewrite (in_sequence_next_invoice_no d Hseq).
  unfold bind at 1. rewrite prompt_line. unfold entered.
  unfold bind at 1. unfold db_execute. cbn [db stdin stdout].
  unfold insert_invoice. rewrite Hfit, Hfitc. cbn [andb].
  unfold bind_real. rewrite Hnan.
  rewrite (in_sequence_fresh _ Hseq), (in_sequence_next_id _ Hseq).
  eexists. split; [reflexivity|]. split; reflexivity.
Qed.

(** ** The operations of the hire, invoice and payment menus *)

Inductive operation :=
| AddHire
| UpdateHireStatus
| SearchHires
| CreateInvoiceFromHire
| UpdateInvoiceStatus
| AddSupplierPayment.

Definition perform (op : operation) : M unit :=
  match op with
  | AddHire => add_hire
  | UpdateHireStatus => update_hire_status
  | SearchHires => search_hires
  | CreateInvoiceFromHire => create_invoice_from_hire
  | UpdateInvoiceStatus => update_invoice_status
  | AddSupplierPayment => add_supplier_payment
  end.

(** The store after one operation run on a console on which [lines] are
    typed. What the operation committed stays, also when it ends in an
    exception. *)
Definition store_after (op : operation) (lines : list string) (d : database)
  : database :=
  db (world_of (perform op (mkworld d lines []))).

(** The store after a series of operations, each with what was typed from
    its start on. *)
Fixpoint lifetime (steps : list (operation * list string)) (d : database)
  : database :=
  match steps with
  | [] => d
  | (op, lines) :: steps' => lifetime steps' (store_after op lines d)
  end.

Lemma perform_keeps_sequence op : changes keeps_sequence (perform op).
Proof.
  destruct op; simpl.
  - eapply changes_weaken;
      [apply only_hires_keeps_sequence|apply add_hire_only_hires].
  - eapply changes_weaken;
      [apply only_hires_keeps_sequence|apply update_hire_status_only_hires].
  - eapply changes_weaken;
      [apply eq_keeps_sequence|apply search_hires_keeps_db].
  - apply create_invoice_from_hire_sequence.
  - apply update_invoice_status_sequence.
  - eapply changes_weaken;
      [apply only_payments_keeps_sequence
      |apply add_supplier_payment_only_payments].
Qed.

Lemma lifetime_in_sequence steps d :
  in_sequence (tblCustomerInvoice d) ->
  in_sequence (tblCustomerInvoice (lifetime steps d)).
Proof.
  revert d. induction steps as [|[op lines] steps IH]; intros d H; simpl.
  - exact H.
  - apply IH. unfold store_after.
    exact (perform_keeps_sequence op (mkworld d lines []) H).
Qed.

Lemma sequence_suffixes n :
  map suffix_number (sequence n) = map (fun k => Some (Z.of_nat k)) (seq 1 n).
Proof.
  unfold sequence. rewrite map_map. apply map_ext.
  intro k. apply suffix_number_invoice_no. lia.
Qed.

Lemma sequence_NoDup n : NoDup (sequence n).
Proof.
  unfold sequence. apply NoDup_map_NoDup_ForallPairs; [|apply seq_NoDup].
  intros a b _ _ E. apply invoice_no_of_inj in E; lia.
Qed.

Example sequence_3 : sequence 3 = ["INV-0001"; "INV-0002"; "INV-0003"].
Proof. reflexivity. Qed.

Example sequence_wide : invoice_no_of 10000 = "INV-10000".
Proof. reflexivity. Qed.

(** Failure messages: the function has returned after telling the operator
    one of [reasons]. *)
Definition gave_up_with (reasons : list string) (w : world) : Prop :=
  exists out reason,
    stdout w = out ++ [Printed [Text reason]] /\ In reason reasons.

(** What the specification calls ValidationError(HireNotCompleted). *)
Definition hire_not_completed : world -> Prop :=
  gave_up_with ["No completed hires available."; "Invalid Hire ID."].

Lemma is_completed_iff h :
  is_completed h = true <-> Hire.Status h = Some "Completed".
Proof.
  unfold is_completed. destruct (Hire.Status h) as [s|].
  - rewrite String.eqb_eq. split; [now intros ->|now intros [= ->]].
  - split; discriminate.
Qed.

(** ** Looking records up *)

Lemma nonempty_filter {A} (p : A -> bool) l :
  match filter p l with [] => false | _ :: _ => true end = existsb p l.
Proof.
  induction l as [|x l IH]; simpl; [reflexivity|].
  destruct (p x); simpl; auto.
Qed.

Lemma existsb_map {A B} (p : B -> bool) (g : A -> B) l :
  existsb p (map g l) = existsb (fun x => p (g x)) l.
Proof. induction l; simpl; [reflexivity|now f_equal]. Qed.

(** Whether some row of [table] has [id] in its column [id_field]. *)
Definition known_id (table id_field : string) (d : database) (id : Z) : bool :=
  match table_rows d table with
  | Some rows => existsb (fun r => Sql.eqb (field id_field r) (Int id)) rows
  | None => false
  end.

Lemma record_exists_int table id_field rows id w :
  table_rows (db w) table = Some rows ->
  has_column table id_field = true ->
  fits_int64 id = true ->
  record_exists table id_field (Int id) w
  = Returned (known_id table id_field (db w) id) w.
Proof.
  intros Hrows Hcol Hfit.
  unfold record_exists, bind, db_query, select_1_where, known_id, bind_param.
  rewrite Hrows, Hcol, Hfit. unfold ret. now rewrite nonempty_filter.
Qed.

(** An id beyond the signed 64-bit integers cannot be bound: the lookup
    ends in OverflowError. *)
Lemma record_exists_overflow table id_field rows id w :
  table_rows (db w) table = Some rows ->
  has_column table id_field = true ->
  fits_int64 id = false ->
  record_exists table id_field (Int id) w = Raised OverflowError w.
Proof.
  intros Hrows Hcol Hfit.
  unfold record_exists, bind, db_query, select_1_where, bind_param.
  now rewrite Hrows, Hcol, Hfit.
Qed.

(** The fleet with a given id. *)
Definition fleet_of (d : database) (fleet_id : string) : option Fleet.row :=
  find (fun r => String.eqb (Fleet.FleetID r) fleet_id) (tblFleet d).

Lemma record_exists_fleet fleet_id w :
  record_exists "tblFleet" "FleetID" (Text fleet_id) w
  = Returned (match fleet_of (db w) fleet_id with
              | Some _ => true | None => false end) w.
Proof.
  unfold record_exists, bind, db_query, select_1_where, bind_param, ret.
  cbn [table_rows has_column table_columns String.eqb Ascii.eqb Bool.eqb
       existsb orb].
  rewrite nonempty_filter, existsb_map. f_equal.
  unfold fleet_of. induction (tblFleet (db w)) as [|r l IH]; simpl; auto.
  destruct (String.eqb (Fleet.FleetID r) fleet_id); auto.
Qed.

Lemma is_rented_in_fleet d fleet_id :
  is_rented_in
    (map Fleet.Ownership
       (filter (fun r => String.eqb (Fleet.FleetID r) fleet_id) (tblFleet d)))
  = match fleet_of d fleet_id with
    | Some f => match Fleet.Ownership f with
                | Some o => String.eqb o "Rented-in"
                | None => false
                end
    | None => false
    end.
Proof.
  unfold fleet_of. induction (tblFleet d) as [|r l IH]; simpl; auto.
  destruct (String.eqb (Fleet.FleetID r) fleet_id); simpl; auto.
Qed.

(** The list that [choose_from_table] prints before it asks. *)
Definition choices (id_field label_field : string) (rows : list sqlite_row)
  : list output :=
  map (fun row => Printed [field id_field row; Text " - ";
                           field label_field row]) rows.

Section Choose.
Variables (table id_field label_field : string) (d : database).
Variable rows : list sqlite_row.
Hypothesis table_known : table_rows d table = Some rows.
Hypothesis id_known : has_column table id_field = true.
Hypothesis label_known : has_column table label_field = true.

Let listed : list output :=
  choices id_field label_field rows
  ++ [Asked ("Enter " ++ id_field ++ ": ")%string].

Lemma select_id_label_eq :
  select_id_label table id_field label_field d
  = inr (map (fun r => [(id_field, field id_field r);
                        (label_field, field label_field r)]) rows).
Proof.
  unfold select_id_label.
  now rewrite table_known, id_known, label_known.
Qed.

Lemma field_of_pair r :
  field id_field [(id_field, field id_field r);
                  (label_field, field label_field r)] = field id_field r
  /\ field label_field [(id_field, field id_field r);
                        (label_field, field label_field r)]
     = field label_field r.
Proof.
  split.
  - unfold field at 1. simpl. now rewrite String.eqb_refl.
  - unfold field at 1. simpl.
    destruct (String.eqb id_field label_field) eqn:E.
    + apply String.eqb_eq in E. now rewrite E.
    + now rewrite String.eqb_refl.
Qed.

Lemma choose_from_empty lines out :
  rows = [] ->
  choose_from_table table id_field label_field (mkworld d lines out)
  = Returned None
      (mkworld d lines (out ++ [Printed [Text "No records found."]])).
Proof.
  intro E. unfold choose_from_table, bind at 1, db_query. cbn [db].
  rewrite select_id_label_eq, E. reflexivity.
Qed.

Lemma choose_from_table_asks line rest out :
  rows <> [] ->
  choose_from_table table id_field label_field
    (mkworld d (line :: rest) out)
  = match Py.int line with
    | None =>
        Returned None
          (mkworld d rest
             (out ++ listed ++ [Printed [Text "Invalid choice."]]))
    | Some choice =>
        if fits_int64 choice then
          if known_id table id_field d choice
          then Returned (Some choice) (mkworld d rest (out ++ listed))
          else Returned None
                 (mkworld d rest
                    (out ++ listed ++ [Printed [Text "ID does not exist."]]))
        else Raised OverflowError (mkworld d rest (out ++ listed))
    end.
Proof.
  intro Hne. unfold choose_from_table, bind at 1, db_query. cbn [db].
  rewrite select_id_label_eq.
  assert (Hout : forall l : list sqlite_row,
    map (fun row => Printed [field id_field row; Text " - ";
                             field label_field row])
      (map (fun r => [(id_field, field id_field r);
                      (label_field, field label_field r)]) l)
    = choices id_field label_field l).
  { intro l. unfold choices. rewrite map_map. apply map_ext. intro r.
    destruct (field_of_pair r) as [-> ->]. reflexivity. }
  destruct (map _ rows) eqn:Em.
  { apply map_eq_nil in Em. contradiction. }
  rewrite <- Em. clear Em.
  unfold bind at 1. rewrite for_each_print, Hout.
  unfold bind at 1, wrote. cbn [db stdin stdout]. rewrite input_line.
  subst listed. rewrite <- !List.app_assoc.
  destruct (Py.int line) as [choice|].
  - unfold bind at 1.
    destruct (fits_int64 choice) eqn:Hfit.
    + rewrite (record_exists_int table id_field rows); auto.
      cbn [db]. destruct (known_id _ _ _ _); [reflexivity|].
      unfold bind. rewrite print_eq. unfold wrote, ret. simpl.
      now rewrite <- !List.app_assoc.
    + unfold record_exists, bind, db_query, select_1_where, bind_param.
      cbn [db]. now rewrite table_known, id_known, Hfit.
  - unfold bind. rewrite print_eq. unfold wrote, ret. simpl.
    now rewrite <- !List.app_assoc.
Qed.

End Choose.

Lemma existsb_ext {A} (p q : A -> bool) l :
  (forall x, p x = q x) -> existsb p l = existsb q l.
Proof. intro H. induction l; simpl; [reflexivity|now rewrite H, IHl]. Qed.

Lemma existsb_ids {A} (id : A -> Z) l z :
  existsb (fun r => id r =? z) l = true <-> In z (map id l).
Proof.
  rewrite existsb_exists, in_map_iff.
  split; intros (r & H1 & H2); exists r.
  - apply Z.eqb_eq in H2. auto.
  - split; [exact H2|now apply Z.eqb_eq].
Qed.

Lemma known_driver d z :
  known_id "tblDriver" "DriverID" d z = true
  <-> In z (map Driver.DriverID (tblDriver d)).
Proof.
  unfold known_id. cbn [table_rows String.eqb Ascii.eqb Bool.eqb].
  rewrite existsb_map. apply existsb_ids.
Qed.

Lemma known_customer d z :
  known_id "tblCustomer" "CustomerID" d z = true
  <-> In z (map Customer.CustomerID (tblCustomer d)).
Proof.
  unfold known_id. cbn [table_rows String.eqb Ascii.eqb Bool.eqb].
  rewrite existsb_map. apply existsb_ids.
Qed.

Lemma known_supplier d z :
  known_id "tblSupplier" "SupplierID" d z = true
  <-> In z (map Supplier.SupplierID (tblSupplier d)).
Proof.
  unfold known_id. cbn [table_rows String.eqb Ascii.eqb Bool.eqb].
  rewrite existsb_map. apply existsb_ids.
Qed.

(** The operator answers [choose_from_table] with a line that reads as the
    id of a row of the table. *)
Definition names (ids : list Z) (line : string) (id : Z) : Prop :=
  Py.int line = Some id /\ fits_int64 id = true /\ In id ids.

Lemma choose_driver d line rest out id :
  names (map Driver.DriverID (tblDriver d)) line id ->
  exists out',
    choose_from_table "tblDriver" "DriverID" "Name"
      (mkworld d (line :: rest) out)
    = Returned (Some id) (mkworld d rest out').
Proof.
  intros (Hint & Hfit & Hin).
  rewrite (choose_from_table_asks _ _ _ d (map Driver.cols (tblDriver d)));
    try reflexivity.
  - rewrite Hint, Hfit. apply known_driver in Hin. rewrite Hin. eauto.
  - intro E. apply map_eq_nil in E. rewrite E in Hin. inversion Hin.
Qed.

Lemma choose_customer d line rest out id :
  names (map Customer.CustomerID (tblCustomer d)) line id ->
  exists out',
    choose_from_table "tblCustomer" "CustomerID" "Name"
      (mkworld d (line :: rest) out)
    = Returned (Some id) (mkworld d rest out').
Proof.
  intros (Hint & Hfit & Hin).
  rewrite (choose_from_table_asks _ _ _ d
             (map Customer.cols (tblCustomer d))); try reflexivity.
  - rewrite Hint, Hfit. apply known_customer in Hin. rewrite Hin. eauto.
  - intro E. apply map_eq_nil in E. rewrite E in Hin. inversion Hin.
Qed.

Lemma choose_supplier d line rest out id :
  names (map Supplier.SupplierID (tblSupplier d)) line id ->
  exists out',
    choose_from_table "tblSupplier" "SupplierID" "CompanyName"
      (mkworld d (line :: rest) out)
    = Returned (Some id) (mkworld d rest out').
Proof.
  intros (Hint & Hfit & Hin).
  rewrite (choose_from_table_asks _ _ _ d
             (map Supplier.cols (tblSupplier d))); try reflexivity.
  - rewrite Hint, Hfit. apply known_supplier in Hin. rewrite Hin. eauto.
  - intro E. apply map_eq_nil in E. rewrite E in Hin. inversion Hin.
Qed.

(** ** Creating a hire: the references *)

(** [require_supplier] of [add_hire] for a fleet id. *)
Definition requires_supplier (d : database) (fleet_id : string) : bool :=
  match fleet_of d fleet_id with
  | Some f => match Fleet.Ownership f with
              | Some o => String.eqb o "Rented-in"
              | None => false
              end
  | None => false
  end.


Lemma owned_requires_no_supplier d fleet_id f :
  fleet_of d fleet_id = Some f -> Fleet.Ownership f = Some "Owned" ->
  requires_supplier d fleet_id = false.
Proof. unfold requires_supplier. now intros -> ->. Qed.

(** First part of [add_hire], lines 494-503: the fleet id is asked and
    looked up, a driver and a customer are chosen. *)
Lemma add_hire_fleet_driver_customer
  d fleet_line driver_line customer_line rest out f driver customer :
  fleet_of d (Py.strip fleet_line) = Some f ->
  names (map Driver.DriverID (tblDriver d)) driver_line driver ->
  names (map Customer.CustomerID (tblCustomer d)) customer_line customer ->
  exists out',
    add_hire (mkworld d (fleet_line :: driver_line :: customer_line :: rest)
                out)
    = (supplier <- add_hire_supplier (Py.strip fleet_line) ;;
       match supplier with
       | None => ret tt
       | Some supplier_id =>
           add_hire_record (Py.strip fleet_line) driver customer supplier_id
       end) (mkworld d rest out').
Proof.
  intros Hf Hd Hc. unfold add_hire.
  unfold bind at 1. rewrite prompt_line. cbn [entered].
  unfold bind at 1. rewrite record_exists_fleet. cbn [db]. rewrite Hf.
  cbn [negb].
  unfold bind at 1.
  match goal with
  | |- context [choose_from_table _ _ _ (mkworld d _ ?o)] =>
      destruct (choose_driver d driver_line (customer_line :: rest) o driver
                  Hd) as [out1 ->]
  end.
  unfold bind at 1.
  destruct (choose_customer d customer_line rest out1 customer Hc)
    as [out2 ->].
  now exists out2.
Qed.

Lemma add_hire_supplier_query fleet_id w :
  add_hire_supplier fleet_id w
  = (if requires_supplier (db w) fleet_id then
       supplier_id <-
         choose_from_table "tblSupplier" "SupplierID" "CompanyName" ;;
       match supplier_id with
       | None => ret None
       | Some s => ret (Some (Some s))
       end
     else
       supplier_input <- prompt "Enter Supplier ID (optional)" None ;;
       if String.eqb supplier_input "" then ret (Some None)
       else match Py.int supplier_input with
            | Some s => ret (Some (Some s))
            | None => print [Text "Invalid supplier ID."] ;; ret None
            end) w.
Proof.
  unfold add_hire_supplier, bind at 1, db_query, select_ownership.
  rewrite is_rented_in_fleet. reflexivity.
Qed.






(** ** Creating a hire: the terms and the record *)

(** The terms of a hire as [add_hire] holds them after its prompts. *)
Record terms := mkterms {
  typed_hire_type : string;
  typed_start_date : string;
  typed_end_date : option string;
  typed_rate : Py.float;
  typed_quantity : Z }.

(** The lines typed at the five prompts of lines 520-524, with the lines
    that the rate and quantity prompts turned down, and the terms they
    stand for. A blank end date is no end date; a blank quantity is 1. *)
Inductive terms_typed : list string -> terms -> list string -> Prop :=
| terms_lines ht sd ed bad_rates rl r bad_quantities ql q rest :
    Forall not_a_float bad_rates ->
    Py.float_of_str (Py.strip rl) = Some r ->
    Forall (not_an_int (Some 1)) bad_quantities ->
    Py.int (entered (Some "1") ql) = Some q ->
    terms_typed
      (ht :: sd :: ed :: bad_rates ++ rl :: bad_quantities ++ ql :: rest)
      (mkterms (Py.strip ht) (Py.strip sd)
         (if String.eqb (entered (Some "") ed) "" then None
          else Some (entered (Some "") ed)) r q)
      rest.

Lemma add_hire_record_terms fleet_id driver_id customer_id supplier_id
  d lines t rest out :
  terms_typed lines t rest ->
  exists out',
    add_hire_record fleet_id driver_id customer_id supplier_id
      (mkworld d lines out)
    = (total <- float_times_int (typed_rate t) (typed_quantity t) ;;
       db_execute
         (insert_hire fleet_id driver_id customer_id supplier_id
            (typed_hire_type t) (typed_start_date t) (typed_end_date t)
            (typed_rate t) (typed_quantity t) total "Open") ;;
       print [Text "Hire created with total amount"; Real total])
        (mkworld d rest out').
Proof.
  intros [ht sd ed bad_rates rl r bad_quantities ql q rest' Hbr Hr Hbq Hq].
  unfold add_hire_record.
  unfold bind at 1. rewrite prompt_line.
  unfold bind at 1. rewrite prompt_line.
  unfold bind at 1. rewrite prompt_line.
  unfold bind at 1. rewrite prompt_float_accepts with (x := r); auto.
  unfold bind at 1. rewrite prompt_int_accepts with (n := q); auto.
  cbn [entered typed_rate typed_quantity typed_hire_type typed_start_date
       typed_end_date].
  eexists. reflexivity.
Qed.

(** The record that [add_hire] stores for given references and terms; the
    rate and the total are what their REAL columns give back. *)
Definition hire_record (d : database) (fleet_id : string)
  (driver_id customer_id : Z) (supplier_id : option Z) (t : terms)
  (total : Py.float) : Hire.row :=
  Hire.mk (next_id (map Hire.HireID (tblHire d))) fleet_id driver_id
    customer_id supplier_id (Some (typed_hire_type t)) (typed_start_date t)
    (typed_end_date t) (real_column (typed_rate t)) (typed_quantity t)
    (real_column total) (Some "Open").

(** The terms can be stored: the integers fit SQLite's INTEGER and neither
    the rate nor the total is NaN. *)
Definition storable (driver_id customer_id : Z) (supplier_id : option Z)
  (t : terms) (total : Py.float) : Prop :=
  fits_int64 driver_id = true /\ fits_int64 customer_id = true
  /\ opt_fits_int64 supplier_id = true
  /\ fits_int64 (typed_quantity t) = true
  /\ Py.is_nan (typed_rate t) = false /\ Py.is_nan total = false.

Lemma add_hire_record_stores fleet_id driver_id customer_id supplier_id
  d lines t rest out q :
  terms_typed lines t rest ->
  Py.float_of_int (typed_quantity t) = Some q ->
  storable driver_id customer_id supplier_id t (Py.fmul (typed_rate t) q) ->
  hire_type_ok (typed_hire_type t) = true ->
  exists w',
    add_hire_record fleet_id driver_id customer_id supplier_id
      (mkworld d lines out) = Returned tt w'
    /\ stdin w' = rest
    /\ db w' = set_tblHire
                 (tblHire d ++
                  [hire_record d fleet_id driver_id customer_id supplier_id t
                     (Py.fmul (typed_rate t) q)]) d.
Proof.
  intros Ht Hq (H1 & H2 & H3 & H4 & H5 & H6) Hok.
  destruct (add_hire_record_terms fleet_id driver_id customer_id supplier_id
              d lines t rest out Ht) as [out' ->].
  unfold bind at 1, float_times_int. rewrite Hq. unfold ret.
  unfold bind at 1, db_execute. cbn [db stdin stdout].
  unfold insert_hire. rewrite H1, H2, H3, H4. cbn [andb].
  unfold bind_real. rewrite H5, H6, Hok.
  eexists. split; [reflexivity|]. split; reflexivity.
Qed.

Lemma insert_hire_checks_type f dr c s ht sd ed r q t st d :
  hire_type_ok ht = false ->
  exists e, insert_hire f dr c s ht sd ed r q t st d = inl e.
Proof.
  intro H. unfold insert_hire. rewrite H.
  destruct (_ && _); [|eauto].
  destruct (bind_real r); [|eauto].
  destruct (bind_real t); eauto.
Qed.

Lemma add_hire_record_checks_type fleet_id driver_id customer_id supplier_id
  d lines t rest out :
  terms_typed lines t rest ->
  hire_type_ok (typed_hire_type t) = false ->
  exists e w',
    add_hire_record fleet_id driver_id customer_id supplier_id
      (mkworld d lines out) = Raised e w'
    /\ db w' = d
    /\ forall q,
         Py.float_of_int (typed_quantity t) = Some q ->
         storable driver_id customer_id supplier_id t
           (Py.fmul (typed_rate t) q) ->
         e = IntegrityError
               "CHECK constraint failed: HireType IN ('Daily','Weekly','Monthly','Trip')".
Proof.
  intros Ht Hbad.
  destruct (add_hire_record_terms fleet_id driver_id customer_id supplier_id
              d lines t rest out Ht) as [out' ->].
  unfold bind at 1, float_times_int.
  destruct (Py.float_of_int (typed_quantity t)) as [q|] eqn:Hq.
  - unfold ret, bind at 1, db_execute. cbn [db stdin stdout].
    destruct (insert_hire_checks_type fleet_id driver_id customer_id
                supplier_id (typed_hire_type t) (typed_start_date t)
                (typed_end_date t) (typed_rate t) (typed_quantity t)
                (Py.fmul (typed_rate t) q) "Open" d Hbad) as [e He].
    rewrite He. exists e. eexists. split; [reflexivity|].
    split; [reflexivity|].
    intros q' [= <-] (H1 & H2 & H3 & H4 & H5 & H6).
    unfold insert_hire in He. rewrite H1, H2, H3, H4 in He.
    cbn [andb] in He. unfold bind_real in He.
    rewrite H5, H6, Hbad in He. now inversion He.
  - unfold raise. eexists _, _. split; [reflexivity|].
    split; [reflexivity|]. intros q' [=].
Qed.

(** ** Converting an integer to a float *)

(** Rounding to binary64 a number well below the largest float never gives
    an infinity. The size of the rounded number is followed through the
    two shifts of [binary_round_aux]. *)

Lemma shr_1_digits mrs :
  Zdigits2 (shr_m (shr_1 mrs)) = Z.max 0 (Zdigits2 (shr_m mrs) - 1)
  /\ (0 <= shr_m mrs -> 0 <= shr_m (shr_1 mrs)).
Proof.
  destruct mrs as [m r s].
  destruct m as [|[p|p|]|[p|p|]];
    cbn [shr_1 shr_m Zdigits2 digits2_pos];
    rewrite ?Pos2Z.inj_succ; split; lia.
Qed.

Lemma iter_shr_1_digits p : forall mrs,
  Zdigits2 (shr_m (SpecFloat.iter_pos shr_1 p mrs))
  = Z.max 0 (Zdigits2 (shr_m mrs) - Zpos p)
  /\ (0 <= shr_m mrs -> 0 <= shr_m (SpecFloat.iter_pos shr_1 p mrs)).
Proof.
  induction p as [p IH|p IH|]; intro mrs; simpl.
  - destruct (IH (SpecFloat.iter_pos shr_1 p (shr_1 mrs))) as [E1 P1].
    destruct (IH (shr_1 mrs)) as [E2 P2].
    destruct (shr_1_digits mrs) as [E3 P3].
    rewrite E1, E2, E3. split; [lia|auto].
  - destruct (IH (SpecFloat.iter_pos shr_1 p mrs)) as [E1 P1].
    destruct (IH mrs) as [E2 P2].
    rewrite E1, E2. split; [lia|auto].
  - apply shr_1_digits.
Qed.

Lemma shr_bounds mrs e n :
  0 <= shr_m mrs ->
  0 <= shr_m (fst (shr mrs e n))
  /\ snd (shr mrs e n) = e + Z.max 0 n
  /\ Zdigits2 (shr_m (fst (shr mrs e n))) + snd (shr mrs e n)
     <= Z.max (e + Z.max 0 n) (Zdigits2 (shr_m mrs) + e).
Proof.
  intro H. unfold shr. destruct n as [|p|p]; cbn [fst snd].
  - lia.
  - destruct (iter_shr_1_digits p mrs) as [E P]. rewrite E.
    split; [auto|]. lia.
  - lia.
Qed.

Lemma digits2_succ p :
  Zpos (digits2_pos (Pos.succ p)) <= Zpos (digits2_pos p) + 1.
Proof.
  induction p; cbn [Pos.succ digits2_pos]; rewrite ?Pos2Z.inj_succ; lia.
Qed.

Lemma round_nearest_even_digits m l :
  0 <= m ->
  0 <= round_nearest_even m l
  /\ Zdigits2 (round_nearest_even m l) <= Zdigits2 m + 1.
Proof.
  intro H.
  assert (G : 0 <= m + 1 /\ Zdigits2 (m + 1) <= Zdigits2 m + 1).
  { destruct m as [|p|p]; try lia.
    - simpl. lia.
    - change (Z.pos p + 1) with (Z.pos (p + 1)). rewrite Pos.add_1_r.
      cbn [Zdigits2]. split; [lia|apply digits2_succ]. }
  unfold round_nearest_even.
  destruct l as [|[]]; try (split; lia); try exact G.
  destruct (Z.even m); [split; lia|exact G].
Qed.

Lemma shr_record_of_loc_m m l : shr_m (shr_record_of_loc m l) = m.
Proof. destruct l as [|[]]; reflexivity. Qed.

Lemma fexp_bound e : fexp Py.prec Py.emax e = Z.max (e - 53) (-1074).
Proof. reflexivity. Qed.

Definition is_infinity (x : spec_float) : bool :=
  match x with S754_infinity _ => true | _ => false end.

Lemma binary_round_aux_finite sx mx ex lx :
  0 <= mx -> Zdigits2 mx + ex <= 1000 -> ex <= 900 ->
  is_infinity (binary_round_aux Py.prec Py.emax sx mx ex lx) = false.
Proof.
  intros Hm HD He. unfold binary_round_aux, shr_fexp.
  rewrite fexp_bound.
  set (n1 := Z.max (Zdigits2 mx + ex - 53) (-1074) - ex).
  pose proof (shr_bounds (shr_record_of_loc mx lx) ex n1) as B1.
  rewrite shr_record_of_loc_m in B1. specialize (B1 Hm).
  destruct (shr (shr_record_of_loc mx lx) ex n1) as [mrs' e'].
  cbn [fst snd] in B1. destruct B1 as (P1 & E1 & D1).
  pose proof (round_nearest_even_digits (shr_m mrs')
                (loc_of_shr_record mrs') P1) as [P2 D2].
  set (mr := round_nearest_even (shr_m mrs') (loc_of_shr_record mrs')) in *.
  rewrite fexp_bound.
  set (n2 := Z.max (Zdigits2 mr + e' - 53) (-1074) - e').
  pose proof (shr_bounds (shr_record_of_loc mr loc_Exact) e' n2) as B2.
  rewrite shr_record_of_loc_m in B2. specialize (B2 P2).
  destruct (shr (shr_record_of_loc mr loc_Exact) e' n2) as [mrs'' e''].
  cbn [fst snd] in B2. destruct B2 as (P3 & E3 & D3).
  destruct (shr_m mrs'') eqn:Em; try reflexivity.
  replace (e'' <=? Py.emax - Py.prec) with true; [reflexivity|].
  symmetry. apply Z.leb_le. unfold Py.emax, Py.prec. subst n1 n2. lia.
Qed.

Lemma shl_align_digits mx ex ex' :
  Zpos (digits2_pos (fst (shl_align mx ex ex'))) + snd (shl_align mx ex ex')
  = Zpos (digits2_pos mx) + ex
  /\ snd (shl_align mx ex ex') <= ex.
Proof.
  unfold shl_align. destruct (ex' - ex) as [|d|d] eqn:E; cbn [fst snd];
    try lia.
  assert (G : forall d, Zpos (digits2_pos (Pos.iter xO mx d))
                        = Zpos (digits2_pos mx) + Zpos d).
  { intro k. induction k using Pos.peano_ind.
    - cbn [Pos.iter digits2_pos]. rewrite Pos2Z.inj_succ. lia.
    - rewrite Pos.iter_succ. cbn [digits2_pos].
      rewrite !Pos2Z.inj_succ. lia. }
  rewrite G. pose proof (Pos2Z.opp_pos d). lia.
Qed.

Lemma binary_round_finite sx mx :
  Zpos (digits2_pos mx) <= 1000 ->
  is_infinity (binary_round Py.prec Py.emax sx mx 0) = false.
Proof.
  intro H. unfold binary_round.
  pose proof (shl_align_digits mx 0
                (fexp Py.prec Py.emax (Zpos (digits2_pos mx) + 0))) as [E L].
  destruct (shl_align mx 0 _) as [mz ez]. cbn [fst snd] in E, L.
  apply binary_round_aux_finite; cbn [Zdigits2]; lia.
Qed.

Lemma digits2_lower m : 2 ^ (Zpos (digits2_pos m) - 1) <= Zpos m.
Proof.
  induction m as [m IH|m IH|]; cbn [digits2_pos]; rewrite ?Pos2Z.inj_succ.
  - replace (Z.succ (Zpos (digits2_pos m)) - 1)
      with (Z.succ (Zpos (digits2_pos m) - 1)) by lia.
    rewrite Z.pow_succ_r by lia. lia.
  - replace (Z.succ (Zpos (digits2_pos m)) - 1)
      with (Z.succ (Zpos (digits2_pos m) - 1)) by lia.
    rewrite Z.pow_succ_r by lia. lia.
  - simpl. lia.
Qed.

Lemma digits2_int64 m : Zpos m <= 2 ^ 63 -> Zpos (digits2_pos m) <= 1000.
Proof.
  intro H. destruct (Z_le_gt_dec (Zpos (digits2_pos m)) 1000) as [L|G]; auto.
  pose proof (digits2_lower m) as B.
  assert (2 ^ 64 <= 2 ^ (Zpos (digits2_pos m) - 1))
    by (apply Z.pow_le_mono_r; lia).
  assert (2 ^ 63 < 2 ^ 64) by (apply Z.pow_lt_mono_r; lia).
  lia.
Qed.

(** An integer that SQLite can hold converts to a float. *)
Lemma float_of_int_fits q :
  fits_int64 q = true -> exists x, Py.float_of_int q = Some x.
Proof.
  unfold fits_int64. intro H. apply andb_prop in H as [H1 H2].
  apply Z.leb_le in H1. apply Z.ltb_lt in H2.
  unfold Py.float_of_int, binary_normalize.
  destruct q as [|m|m].
  - eauto.
  - pose proof (binary_round_finite false m) as F.
    destruct (binary_round Py.prec Py.emax false m 0); eauto.
    discriminate F. apply digits2_int64. lia.
  - pose proof (binary_round_finite true m) as F.
    destruct (binary_round Py.prec Py.emax true m 0); eauto.
    discriminate F. apply digits2_int64.
    pose proof (Pos2Z.opp_pos m). lia.
Qed.

(** *** Products that need no rounding *)

Lemma digits2_iter_xO m j :
  Zpos (digits2_pos (Pos.iter xO m j)) = Zpos (digits2_pos m) + Zpos j.
Proof.
  induction j using Pos.peano_ind.
  - cbn [Pos.iter digits2_pos]. rewrite Pos2Z.inj_succ. lia.
  - rewrite Pos.iter_succ. cbn [digits2_pos]. rewrite !Pos2Z.inj_succ. lia.
Qed.

Lemma digits2_shiftl m j :
  Zpos (digits2_pos (Pos.shiftl m j)) = Zpos (digits2_pos m) + Z.of_N j.
Proof.
  destruct j as [|j]; simpl Pos.shiftl.
  - simpl. lia.
  - apply digits2_iter_xO.
Qed.

Definition exact_record (m : positive) : shr_record :=
  {| shr_m := Zpos m; shr_r := false; shr_s := false |}.

Lemma iter_shr_1_exact j : forall m,
  SpecFloat.iter_pos shr_1 j (exact_record (Pos.iter xO m j)) = exact_record m.
Proof.
  induction j as [j IH|j IH|]; intro m.
  - change (Pos.iter xO m j~1) with (xO (Pos.iter xO (Pos.iter xO m j) j)).
    cbn [SpecFloat.iter_pos].
    change (shr_1 (exact_record (xO (Pos.iter xO (Pos.iter xO m j) j))))
      with (exact_record (Pos.iter xO (Pos.iter xO m j) j)).
    now rewrite !IH.
  - change (Pos.iter xO m j~0) with (Pos.iter xO (Pos.iter xO m j) j).
    cbn [SpecFloat.iter_pos]. now rewrite !IH.
  - reflexivity.
Qed.

Lemma shr_exact m j e :
  shr (exact_record (Pos.shiftl m j)) (e - Z.of_N j) (Z.of_N j)
  = (exact_record m, e).
Proof.
  destruct j as [|j]; cbn [Z.of_N shr Pos.shiftl].
  - f_equal. lia.
  - rewrite iter_shr_1_exact. f_equal. lia.
Qed.

(** A number that is written [m * 2 ^ j] times [2 ^ (e - j)], with [(m, e)]
    a binary64 number, is rounded to that number. *)
Lemma binary_round_aux_exact s m e j :
  bounded Py.prec Py.emax m e = true ->
  binary_round_aux Py.prec Py.emax s (Zpos (Pos.shiftl m j)) (e - Z.of_N j) loc_Exact
  = S754_finite s m e.
Proof.
  unfold bounded, canonical_mantissa. intro H.
  apply andb_prop in H as [Hc Hb]. apply Z.eqb_eq in Hc.
  unfold binary_round_aux, shr_fexp. cbn [Zdigits2 shr_record_of_loc].
  rewrite digits2_shiftl.
  replace (Zpos (digits2_pos m) + Z.of_N j + (e - Z.of_N j))
    with (Zpos (digits2_pos m) + e) by lia.
  rewrite Hc.
  replace (e - (e - Z.of_N j)) with (Z.of_N j) by lia.
  change {| shr_m := Zpos (Pos.shiftl m j); shr_r := false; shr_s := false |}
    with (exact_record (Pos.shiftl m j)).
  rewrite shr_exact.
  cbn [exact_record shr_m loc_of_shr_record round_nearest_even Zdigits2
       shr_record_of_loc].
  rewrite Hc, Z.sub_diag. cbn [shr shr_m]. now rewrite Hb.
Qed.

(** The product of two floats whose exact product is a binary64 number is
    that number. *)
Lemma SFmul_exact sx mx ex sy my ey m j :
  (mx * my)%positive = Pos.shiftl m j ->
  bounded Py.prec Py.emax m (ex + ey + Z.of_N j) = true ->
  SFmul Py.prec Py.emax (S754_finite sx mx ex) (S754_finite sy my ey)
  = S754_finite (xorb sx sy) m (ex + ey + Z.of_N j).
Proof.
  intros Hm Hb. cbn [SFmul]. rewrite Hm.
  pose proof (binary_round_aux_exact (xorb sx sy) m (ex + ey + Z.of_N j) j Hb)
    as R.
  replace (ex + ey + Z.of_N j - Z.of_N j) with (ex + ey) in R by lia.
  exact R.
Qed.

(** An integer below [2 ^ 53] in absolute value converts without
    rounding. *)
Definition normalized (p : positive) : positive :=
  Pos.shiftl p (Z.to_N (53 - Zpos (digits2_pos p))).

Lemma binary_round_small s p :
  Zpos (digits2_pos p) <= 53 ->
  binary_round Py.prec Py.emax s p 0
  = S754_finite s (normalized p) (Zpos (digits2_pos p) - 53).
Proof.
  intro H. unfold binary_round.
  assert (F : fexp Py.prec Py.emax (Zpos (digits2_pos p) + 0)
              = Zpos (digits2_pos p) - 53).
  { unfold fexp, emin, Py.prec, Py.emax. lia. }
  rewrite F.
  assert (S : shl_align p 0 (Zpos (digits2_pos p) - 53)
              = (normalized p, Zpos (digits2_pos p) - 53)).
  { unfold shl_align, normalized. rewrite Z.sub_0_r.
    destruct (Zpos (digits2_pos p) - 53) as [|k|k] eqn:E; try lia.
    - replace (53 - Zpos (digits2_pos p)) with 0 by lia. reflexivity.
    - replace (53 - Zpos (digits2_pos p)) with (Zpos k)
        by (pose proof (Pos2Z.opp_pos k); lia).
      reflexivity. }
  rewrite S.
  pose proof (binary_round_aux_exact s (normalized p)
                (Zpos (digits2_pos p) - 53) 0) as R.
  cbn [Pos.shiftl Z.of_N] in R. rewrite Z.sub_0_r in R. apply R.
  unfold bounded, canonical_mantissa, normalized.
  rewrite digits2_shiftl, Z2N.id by lia.
  apply andb_true_intro. split.
  - apply Z.eqb_eq. unfold fexp, emin, Py.prec, Py.emax. lia.
  - apply Z.leb_le. unfold Py.prec, Py.emax. lia.
Qed.

Lemma pos_iter_xO_value p n : Zpos (Pos.iter xO p n) = Zpos p * 2 ^ Zpos n.
Proof.
  induction n using Pos.peano_ind.
  - cbn [Pos.iter]. rewrite Pos2Z.inj_xO. lia.
  - rewrite Pos.iter_succ, Pos2Z.inj_xO, IHn, Pos2Z.inj_succ.
    rewrite Z.pow_succ_r by lia. lia.
Qed.

Lemma pos_shiftl_value p n : Zpos (Pos.shiftl p n) = Zpos p * 2 ^ Z.of_N n.
Proof.
  destruct n as [|n]; cbn [Pos.shiftl Z.of_N].
  - rewrite Z.pow_0_r. lia.
  - apply pos_iter_xO_value.
Qed.

Lemma digits2_small p : Zpos p < 2 ^ 53 -> Zpos (digits2_pos p) <= 53.
Proof.
  intro H. destruct (Z_le_gt_dec (Zpos (digits2_pos p)) 53) as [L|G]; auto.
  pose proof (digits2_lower p) as B.
  assert (2 ^ 53 <= 2 ^ (Zpos (digits2_pos p) - 1))
    by (apply Z.pow_le_mono_r; lia).
  lia.
Qed.

(** The float of an integer below [2 ^ 53] in absolute value. *)
Lemma float_of_int_small q :
  0 < Z.abs q < 2 ^ 53 ->
  Py.float_of_int q
  = Some (S754_finite (q <? 0) (normalized (Z.to_pos (Z.abs q)))
            (Zpos (digits2_pos (Z.to_pos (Z.abs q))) - 53)).
Proof.
  intro H. unfold Py.float_of_int, binary_normalize.
  destruct q as [|p|p]; cbn [Z.abs Z.to_pos Z.ltb Z.compare] in *.
  - lia.
  - rewrite binary_round_small by (apply digits2_small; lia). reflexivity.
  - rewrite binary_round_small by (apply digits2_small; lia). reflexivity.
Qed.

(** If the exact product of a finite rate and a quantity below [2 ^ 53] is
    the binary64 number [m * 2 ^ (er + k)], the float product of the rate
    and the float of the quantity is that number, with the sign of the
    product. *)
Lemma float_product_exact sr mr er q m k :
  0 < Z.abs q < 2 ^ 53 ->
  Zpos mr * Z.abs q = Zpos m * 2 ^ Z.of_N k ->
  bounded Py.prec Py.emax m (er + Z.of_N k) = true ->
  exists qf,
    Py.float_of_int q = Some qf
    /\ Py.fmul (S754_finite sr mr er) qf
       = S754_finite (xorb sr (q <? 0)) m (er + Z.of_N k).
Proof.
  intros Hq Hm Hb. rewrite (float_of_int_small q Hq).
  eexists. split; [reflexivity|].
  set (p := Z.to_pos (Z.abs q)).
  assert (Hp : Zpos p = Z.abs q) by (unfold p; rewrite Z2Pos.id; lia).
  assert (Hd : Zpos (digits2_pos p) <= 53) by (apply digits2_small; lia).
  set (a := Z.to_N (53 - Zpos (digits2_pos p))).
  unfold Py.fmul.
  rewrite (SFmul_exact sr mr er (q <? 0) (normalized p)
             (Zpos (digits2_pos p) - 53) m (k + a)).
  - f_equal. unfold a. rewrite N2Z.inj_add, Z2N.id by lia. lia.
  - apply Pos2Z.inj. rewrite Pos2Z.inj_mul. unfold normalized. fold a.
    rewrite !pos_shiftl_value, Hp, N2Z.inj_add.
    rewrite Z.pow_add_r by lia. rewrite Z.mul_assoc, Hm. ring.
  - replace (er + (Zpos (digits2_pos p) - 53) + Z.of_N (k + a))
      with (er + Z.of_N k); [exact Hb|].
    unfold a. rewrite N2Z.inj_add, Z2N.id by lia. lia.
Qed.

(** ** Creating a hire: the reference checks as a whole *)

(** The supplier step of [add_hire] (lines 504-518) lets the hire through:
    for a Rented-in fleet a supplier of the table is chosen; otherwise the
    line is blank, or it reads as an integer, which is taken as it is. *)
Inductive supplier_given (d : database) (fleet_id : string)
  : list string -> option Z -> list string -> Prop :=
| supplier_chosen line rest s :
    requires_supplier d fleet_id = true ->
    names (map Supplier.SupplierID (tblSupplier d)) line s ->
    supplier_given d fleet_id (line :: rest) (Some s) rest
| supplier_left_out line rest :
    requires_supplier d fleet_id = false ->
    Py.strip line = "" ->
    supplier_given d fleet_id (line :: rest) None rest
| supplier_typed line rest s :
    requires_supplier d fleet_id = false ->
    Py.int (Py.strip line) = Some s ->
    supplier_given d fleet_id (line :: rest) (Some s) rest.

(** The reference checks of [add_hire] pass on the lines typed: the fleet
    exists, a driver and a customer of the tables are chosen, and the
    supplier step lets the hire through. *)
Inductive references_pass (d : database)
  : list string -> string -> Z -> Z -> option Z -> list string -> Prop :=
| references_lines fleet_line driver_line customer_line lines f
    driver customer supplier rest :
    fleet_of d (Py.strip fleet_line) = Some f ->
    names (map Driver.DriverID (tblDriver d)) driver_line driver ->
    names (map Customer.CustomerID (tblCustomer d)) customer_line customer ->
    supplier_given d (Py.strip fleet_line) lines supplier rest ->
    references_pass d (fleet_line :: driver_line :: customer_line :: lines)
      (Py.strip fleet_line) driver customer supplier rest.

Lemma add_hire_supplier_given d fleet_id lines supplier rest out :
  supplier_given d fleet_id lines supplier rest ->
  exists out',
    add_hire_supplier fleet_id (mkworld d lines out)
    = Returned (Some supplier) (mkworld d rest out').
Proof.
  intro H. rewrite add_hire_supplier_query. cbn [db].
  destruct H as [line rest s Hreq Hs|line rest Hreq Hblank|line rest s Hreq Hs];
    rewrite Hreq.
  - unfold bind.
    destruct (choose_supplier d line rest out s Hs) as [out' ->].
    now exists out'.
  - unfold bind. rewrite prompt_line. cbn [entered]. rewrite Hblank.
    eexists. reflexivity.
  - unfold bind. rewrite prompt_line. cbn [entered].
    destruct (String.eqb (Py.strip line) "") eqn:E.
    + apply String.eqb_eq in E. rewrite E, int_rejects_empty in Hs.
      discriminate Hs.
    + rewrite Hs. eexists. reflexivity.
Qed.

Lemma add_hire_references d lines fleet driver customer supplier rest out :
  references_pass d lines fleet driver customer supplier rest ->
  exists out',
    add_hire (mkworld d lines out)
    = add_hire_record fleet driver customer supplier (mkworld d rest out').
Proof.
  intros [fleet_line driver_line customer_line lines' f driver' customer'
            supplier' rest' Hf Hd Hc Hs].
  destruct (add_hire_fleet_driver_customer d fleet_line driver_line
              customer_line lines' out f driver' customer' Hf Hd Hc)
    as [out1 ->].
  destruct (add_hire_supplier_given d _ lines' supplier' rest' out1 Hs)
    as [out2 E].
  unfold bind. rewrite E. now exists out2.
Qed.

Lemma references_fit d lines fleet driver customer supplier rest :
  references_pass d lines fleet driver customer supplier rest ->
  fits_int64 driver = true /\ fits_int64 customer = true.
Proof. intros [? ? ? ? ? ? ? ? ? _ (_ & H1 & _) (_ & H2 & _) _]. auto. Qed.

(** A hire is persisted whenever the references pass, the hire type is one
    of the four and the terms can be stored. *)
Lemma add_hire_persists d lines fleet driver customer supplier lines' t rest
  out :
  references_pass d lines fleet driver customer supplier lines' ->
  terms_typed lines' t rest ->
  hire_type_ok (typed_hire_type t) = true ->
  opt_fits_int64 supplier = true ->
  fits_int64 (typed_quantity t) = true ->
  Py.is_nan (typed_rate t) = false ->
  exists q,
    Py.float_of_int (typed_quantity t) = Some q
    /\ (Py.is_nan (Py.fmul (typed_rate t) q) = false ->
        exists w',
          add_hire (mkworld d lines out) = Returned tt w'
          /\ db w' = set_tblHire
                       (tblHire d ++
                        [hire_record d fleet driver customer supplier t
                           (Py.fmul (typed_rate t) q)]) d).
Proof.
  intros Hr Ht Hok Hs Hq Hrate.
  destruct (float_of_int_fits _ Hq) as [q Eq].
  destruct (references_fit _ _ _ _ _ _ _ Hr) as [Hfd Hfc].
  destruct (add_hire_references d lines fleet driver customer supplier lines'
              out Hr) as [out' E].
  exists q. split; [exact Eq|]. intro Hnan.
  destruct (add_hire_record_stores fleet driver customer supplier d lines'
              t rest out' q Ht Eq) as (w' & E' & _ & Hdb); auto.
  { repeat split; auto. }
  exists w'. rewrite E. auto.
Qed.

(** ** A sample store and sample runs *)

(** Two fleets, F1 rented in and F2 owned, one driver, one supplier and one
    customer; no hire yet. *)
Definition sample_db : database :=
  mkdb [Fleet.mk "F1" (Some "S-1") (Some "Crane") (Some "Rented-in") None
          (Some "Active");
        Fleet.mk "F2" (Some "S-2") (Some "Truck") (Some "Owned") None
          (Some "Active")]
       [Driver.mk 1 "Dan" None (Some "Active") None]
       [Supplier.mk 1 "Acme" None None None]
       [Customer.mk 1 "Carol" None None None]
       [] [] [].

Definition console (d : database) (lines : list string) : world :=
  mkworld d lines [].

(** The exact product of the stored rate and quantity, compared with the
    stored total. *)
Definition total_is_exact (h : Hire.row) : bool :=
  match Py.exact (Hire.TotalAmount h), Py.exact (Hire.Rate h) with
  | Some t, Some r => Qeq_bool t (r * inject_Z (Hire.Quantity h))
  | _, _ => false
  end.

Lemma sample_references_owned supplier_line supplier rest :
  supplier_given sample_db "F2" (supplier_line :: rest) supplier rest ->
  references_pass sample_db ("F2" :: "1" :: "1" :: supplier_line :: rest)
    "F2" 1 1 supplier rest.
Proof.
  intro H.
  exact (references_lines sample_db "F2" "1" "1" (supplier_line :: rest)
           (Fleet.mk "F2" (Some "S-2") (Some "Truck") (Some "Owned") None
              (Some "Active")) 1 1 supplier rest eq_refl
           (conj eq_refl (conj eq_refl (or_introl eq_refl)))
           (conj eq_refl (conj eq_refl (or_introl eq_refl))) H).
Qed.

Lemma sample_references_rented rest :
  references_pass sample_db ("F1" :: "1" :: "1" :: "1" :: rest)
    "F1" 1 1 (Some 1) rest.
Proof.
  exact (references_lines sample_db "F1" "1" "1" ("1" :: rest)
           (Fleet.mk "F1" (Some "S-1") (Some "Crane") (Some "Rented-in") None
              (Some "Active")) 1 1 (Some 1) rest eq_refl
           (conj eq_refl (conj eq_refl (or_introl eq_refl)))
           (conj eq_refl (conj eq_refl (or_introl eq_refl)))
           (supplier_chosen sample_db "F1" "1" rest 1 eq_refl
              (conj eq_refl (conj eq_refl (or_introl eq_refl))))).
Qed.

Lemma sample_terms ht sd rl r ql q rest :
  Py.float_of_str (Py.strip rl) = Some r ->
  Py.int (entered (Some "1") ql) = Some q ->
  terms_typed (ht :: sd :: "" :: rl :: ql :: rest)
    (mkterms (Py.strip ht) (Py.strip sd) None r q) rest.
Proof.
  intros Hr Hq.
  exact (terms_lines ht sd "" [] rl r [] ql q rest (Forall_nil _) Hr
           (Forall_nil _) Hq).
Qed.

Definition f150 : Py.float := S754_finite false 5277655813324800 (-45).
Definition f450 : Py.float := S754_finite false 7916483719987200 (-44).

Example float_450 : Py.float_of_str "450.00" = Some f450.
Proof. vm_compute. reflexivity. Qed.

Definition f0_1 : Py.float := S754_finite false 7205759403792794 (-56).
Definition f0_3 : Py.float := S754_finite false 5404319552844595 (-54).

Definition f_minus_2_5 : Py.float := S754_finite true 5629499534213120 (-51).
Definition f_minus_4 : Py.float := S754_finite true 4503599627370496 (-50).
Definition f10 : Py.float := S754_finite false 5629499534213120 (-49).

Example zero_quantity_is_stored :
  exists w' h,
    add_hire (console sample_db
                ["F2"; "1"; "1"; ""; "Daily"; "2024-01-01"; ""; "0"; "0"])
    = Returned tt w'
    /\ tblHire (db w') = [h]
    /\ Hire.Rate h = S754_zero false
    /\ Hire.Quantity h = 0
    /\ Hire.TotalAmount h = S754_zero false.
Proof. eexists _, _. repeat split; vm_compute; reflexivity. Qed.

(** ** Searching hires *)

(** [v] occurs in [s], letters A-Z and a-z taken in either case. *)
Fixpoint starts_with_ci (v s : list ascii) : bool :=
  match v, s with
  | [], _ => true
  | p :: v', c :: s' => char_like p c && starts_with_ci v' s'
  | _ :: _, [] => false
  end.

Fixpoint contains_ci_chars (v s : list ascii) : bool :=
  starts_with_ci v s
  || match s with [] => false | _ :: s' => contains_ci_chars v s' end.

Definition contains_ci (v s : string) : bool :=
  contains_ci_chars (Py.chars v) (Py.chars s).

(** [v] occurs in [s], character for character: the reading of the
    specification. *)
Fixpoint starts_with (v s : list ascii) : bool :=
  match v, s with
  | [], _ => true
  | p :: v', c :: s' => Ascii.eqb p c && starts_with v' s'
  | _ :: _, [] => false
  end.

Fixpoint contains_chars (v s : list ascii) : bool :=
  starts_with v s
  || match s with [] => false | _ :: s' => contains_chars v s' end.

Definition contains (v s : string) : bool :=
  contains_chars (Py.chars v) (Py.chars s).

Definition is_wildcard (c : ascii) : bool :=
  Ascii.eqb c "%" || Ascii.eqb c "_".

Definition no_wildcard (v : string) : bool :=
  forallb (fun c => negb (is_wildcard c)) (Py.chars v).

(** [v] is the end of [s], letters A-Z and a-z taken in either case. *)
Fixpoint same_ci (v s : list ascii) : bool :=
  match v, s with
  | [], [] => true
  | p :: v', c :: s' => char_like p c && same_ci v' s'
  | _, _ => false
  end.

Fixpoint ends_with_ci_chars (v s : list ascii) : bool :=
  same_ci v s
  || match s with [] => false | _ :: s' => ends_with_ci_chars v s' end.

Definition ends_with_ci (v s : string) : bool :=
  ends_with_ci_chars (Py.chars v) (Py.chars s).

(** The text before the first NUL character, which is all that LIKE reads
    of a text. *)
Definition before_nul (s : string) : string :=
  string_of_list_ascii (until_nul (Py.chars s)).

Definition is_nul (c : ascii) : bool := Ascii.eqb c zero.

Definition no_nul (v : string) : bool :=
  forallb (fun c => negb (is_nul c)) (Py.chars v).

Lemma like_percent pat s :
  like_chars ("%"%char :: pat) s
  = like_chars pat s
    || match s with
       | [] => false
       | _ :: s' => like_chars ("%"%char :: pat) s'
       end.
Proof. destruct s; reflexivity. Qed.

Lemma like_plain p pat s :
  is_wildcard p = false ->
  like_chars (p :: pat) s
  = match s with
    | [] => false
    | c :: s' => char_like p c && like_chars pat s'
    end.
Proof.
  unfold is_wildcard. intro H. apply orb_false_elim in H as [H1 H2].
  cbn [like_chars]. rewrite H1, H2. reflexivity.
Qed.

Lemma like_trailing_percent s : like_chars ["%"%char] s = true.
Proof.
  induction s as [|c s IH]; rewrite like_percent; [reflexivity|].
  rewrite IH. apply orb_true_r.
Qed.

Lemma like_prefix v s :
  forallb (fun c => negb (is_wildcard c)) v = true ->
  like_chars (v ++ ["%"%char]) s = starts_with_ci v s.
Proof.
  revert s. induction v as [|p v IH]; intros s H.
  - simpl app. rewrite like_trailing_percent. reflexivity.
  - simpl in H. apply andb_prop in H as [Hp Hv].
    apply negb_true_iff in Hp.
    simpl app. rewrite (like_plain p _ s Hp).
    destruct s as [|c s]; [reflexivity|]. simpl. now rewrite IH.
Qed.

Lemma like_contains v s :
  forallb (fun c => negb (is_wildcard c)) v = true ->
  like_chars ("%"%char :: v ++ ["%"%char]) s = contains_ci_chars v s.
Proof.
  intro H. induction s as [|c s IH]; rewrite like_percent, like_prefix by auto.
  - simpl. now rewrite orb_false_r.
  - simpl contains_ci_chars. now rewrite IH.
Qed.

Lemma like_exact v s :
  forallb (fun c => negb (is_wildcard c)) v = true ->
  like_chars v s = same_ci v s.
Proof.
  revert s. induction v as [|p v IH]; intros s H.
  - destruct s; reflexivity.
  - simpl in H. apply andb_prop in H as [Hp Hv].
    apply negb_true_iff in Hp. rewrite (like_plain p _ s Hp).
    destruct s as [|c s]; [reflexivity|]. simpl. now rewrite IH.
Qed.

Lemma like_suffix v s :
  forallb (fun c => negb (is_wildcard c)) v = true ->
  like_chars ("%"%char :: v) s = ends_with_ci_chars v s.
Proof.
  intro H. induction s as [|c s IH]; rewrite like_percent, like_exact by auto.
  - simpl. now rewrite orb_false_r.
  - simpl ends_with_ci_chars. now rewrite IH.
Qed.

Lemma until_nul_app v l :
  forallb (fun c => negb (is_nul c)) v = true ->
  until_nul (v ++ l) = v ++ until_nul l.
Proof.
  induction v as [|c v IH]; intro H; [reflexivity|].
  simpl in H. apply andb_prop in H as [Hc Hv].
  apply negb_true_iff in Hc. unfold is_nul in Hc.
  simpl. rewrite Hc. now rewrite IH.
Qed.

Lemma chars_before_nul s : Py.chars (before_nul s) = until_nul (Py.chars s).
Proof. apply list_ascii_of_string_of_list_ascii. Qed.

(** Without wildcards and without NUL in [v], [s LIKE '%v%'] says that [v]
    occurs in [s] before the first NUL of [s], letters taken in either
    case. *)
Lemma like_is_contains_ci v s :
  no_wildcard v = true -> no_nul v = true ->
  Sql.like s ("%" ++ v ++ "%") = contains_ci v (before_nul s).
Proof.
  intros H Hn. unfold Sql.like, contains_ci.
  change (list_ascii_of_string ("%" ++ v ++ "%"))
    with ("%"%char :: Py.chars (v ++ "%")).
  rewrite chars_append, chars_before_nul.
  change (until_nul ("%"%char :: Py.chars v ++ Py.chars "%"))
    with ("%"%char :: until_nul (Py.chars v ++ Py.chars "%")).
  rewrite (until_nul_app _ _ Hn). now apply like_contains.
Qed.

(** A NUL in the filter ends the pattern, closing percent sign included:
    with [a] before the NUL, [s LIKE '%v%'] says that [a] ends [s], or
    what [s] has before its first NUL. *)
Lemma like_is_ends_with_ci a b s :
  no_wildcard a = true -> no_nul a = true ->
  Sql.like s ("%" ++ (a ++ String zero b) ++ "%") = ends_with_ci a (before_nul s).
Proof.
  intros H Hn. unfold Sql.like, ends_with_ci.
  change (list_ascii_of_string ("%" ++ (a ++ String zero b) ++ "%"))
    with ("%"%char :: Py.chars ((a ++ String zero b) ++ "%")).
  rewrite !chars_append, chars_before_nul, <- List.app_assoc.
  change (until_nul ("%"%char :: Py.chars a
                       ++ Py.chars (String zero b) ++ Py.chars "%"))
    with ("%"%char :: until_nul (Py.chars a ++ Py.chars (String zero b)
                                   ++ Py.chars "%")).
  rewrite (until_nul_app _ _ Hn).
  change (until_nul (Py.chars (String zero b) ++ Py.chars "%")) with (@nil ascii).
  rewrite List.app_nil_r. now apply like_suffix.
Qed.

(** The hires that a search for [v] returns, and what it prints. *)
Definition hires_like (d : database) (v : string) : list Hire.row :=
  filter (fun h => like_opt (Hire.Status h) ("%" ++ v ++ "%")) (tblHire d).

Definition search_output (hires : list Hire.row) : list output :=
  map (fun h => PrintedRow (project search_hires_columns (Hire.cols h))) hires
  ++ match hires with
     | [] => [Printed [Text "No matches."]]
     | _ :: _ => []
     end.

Lemma search_hires_line d line rest out :
  search_hires (mkworld d (line :: rest) out)
  = Returned tt
      (mkworld d rest
         (out ++ Asked "Filter by Status: "
              :: search_output (hires_like d (Py.strip line)))).
Proof.
  unfold search_hires, bind at 1. rewrite prompt_line. cbn [entered].
  unfold bind at 1, db_query, select_hires_like. cbn [db].
  fold (hires_like d (Py.strip line)).
  unfold bind at 1. rewrite for_each_print_row.
  unfold wrote, search_output. cbn [db stdin stdout].
  destruct (hires_like d (Py.strip line)).
  - rewrite print_eq. unfold wrote. simpl.
    rewrite <- !List.app_assoc. reflexivity.
  - unfold ret. rewrite <- !List.app_assoc. simpl.
    now rewrite List.app_nil_r.
Qed.

Definition open_hire : Hire.row :=
  Hire.mk 1 "F1" 1 1 (Some 1) (Some "Daily") "2024-01-01" None
    (S754_finite false 7036874417766400 (-46)) 5
    (S754_finite false 8796093022208000 (-44)) (Some "Open").

Definition one_hire_db : database := set_tblHire [open_hire] sample_db.

Definition open_hire_row : sqlite_row :=
  [("HireID", Int 1); ("FleetID", Text "F1"); ("HireType", Text "Daily");
   ("StartDate", Text "2024-01-01"); ("EndDate", Null);
   ("TotalAmount", Real (S754_finite false 8796093022208000 (-44)));
   ("Status", Text "Open")].

(** ** Recording a supplier payment *)

(** The hire with a given id. *)
Definition hire_of (d : database) (hire_id : Z) : option Hire.row :=
  find (fun r => Hire.HireID r =? hire_id) (tblHire d).

Lemma select_supplier_of_hire_eq d hire_id :
  fits_int64 hire_id = true ->
  select_supplier_of_hire hire_id d
  = inr (match hire_of d hire_id with
         | Some h =>
             Hire.SupplierID h
               :: map Hire.SupplierID
                    (tl (filter (fun r => Hire.HireID r =? hire_id)
                           (tblHire d)))
         | None => []
         end).
Proof.
  intro Hfit. unfold select_supplier_of_hire, hire_of. rewrite Hfit. f_equal.
  induction (tblHire d) as [|r l IH]; simpl; [reflexivity|].
  destruct (Hire.HireID r =? hire_id); simpl; auto.
Qed.

(** What the specification calls ValidationError(NoSupplierOnHire). *)
Definition no_supplier_on_hire : world -> Prop :=
  gave_up_with ["This hire has no supplier."].

(** The payment that [add_supplier_payment] stores; the amount is what its
    REAL column gives back. *)
Definition payment_record (d : database) (supplier_id hire_id : Z)
  (payment_date : string) (amount : Py.float) : SupplierPayment.row :=
  SupplierPayment.mk
    (next_id (map SupplierPayment.PaymentID (tblSupplierPayment d)))
    supplier_id hire_id payment_date (real_column amount) (Some "Pending").

(** The function up to the lookup of the hire's supplier. *)
Lemma add_supplier_payment_hire d bad good hire_id h lines out :
  Forall (not_an_int None) bad ->
  Py.int (Py.strip good) = Some hire_id ->
  fits_int64 hire_id = true ->
  hire_of d hire_id = Some h ->
  let w := mkworld d lines
             (out ++ retries "Hire ID" "Please enter a valid integer." bad) in
  add_supplier_payment (mkworld d (bad ++ good :: lines) out)
  = match truthy (Hire.SupplierID h) with
    | None => print [Text "This hire has no supplier."] w
    | Some supplier_id =>
        (payment_date <- prompt "Payment Date (YYYY-MM-DD)" None ;;
         amount <- prompt_float "Amount" ;;
         db_execute (insert_payment supplier_id hire_id payment_date amount) ;;
         print [Text "Supplier payment recorded."]) w
    end.
Proof.
  intros Hbad Hgood Hfit Hh w. unfold add_supplier_payment.
  unfold bind at 1. rewrite prompt_int_accepts with (n := hire_id); auto.
  unfold bind at 1, db_query. cbn [db].
  rewrite select_supplier_of_hire_eq, Hh by exact Hfit.
  subst w. destruct (truthy (Hire.SupplierID h)); reflexivity.
Qed.

Lemma insert_payment_stored s h pd a d d' :
  insert_payment s h pd a d = inr d' ->
  Py.is_nan a = false
  /\ d' = set_tblSupplierPayment
            (tblSupplierPayment d ++ [payment_record d s h pd a]) d.
Proof.
  unfold insert_payment, bind_real.
  destruct (_ && _); [|discriminate].
  destruct (Py.is_nan a); [discriminate|].
  intro E. inversion E. now split.
Qed.

(** After the hire's supplier is known, whatever is typed, the store is as
    before or holds one more payment, made out to that supplier. *)
Lemma payment_steps_keep_supplier supplier_id hire_id w :
  let run :=
    (payment_date <- prompt "Payment Date (YYYY-MM-DD)" None ;;
     amount <- prompt_float "Amount" ;;
     db_execute (insert_payment supplier_id hire_id payment_date amount) ;;
     print [Text "Supplier payment recorded."]) w in
  db (world_of run) = db w
  \/ exists p,
       db (world_of run)
       = set_tblSupplierPayment (tblSupplierPayment (db w) ++ [p]) (db w)
       /\ SupplierPayment.SupplierID p = supplier_id
       /\ SupplierPayment.HireID p = hire_id
       /\ SupplierPayment.PaymentStatus p = Some "Pending".
Proof.
  intro run. subst run. unfold bind, db_execute.
  pose proof (changes_prompt eq "Payment Date (YYYY-MM-DD)" None w) as H1.
  destruct (prompt _ _ w) as [date w1|e w1]; simpl in H1; [|now left].
  pose proof (changes_prompt_float eq "Amount" w1) as H2.
  destruct (prompt_float _ w1) as [amount w2|e w2]; simpl in H2;
    [|left; simpl; congruence].
  destruct (insert_payment _ _ _ _ _) as [e|d'] eqn:E; simpl.
  - left. congruence.
  - right. apply insert_payment_stored in E as (_ & ->).
    rewrite <- H2, <- H1. eexists. split; [reflexivity|].
    repeat split.
Qed.

Definition completed_hire : Hire.row := Hire.set_Status (Some "Completed") open_hire.

Definition owned_hire : Hire.row :=
  Hire.mk 2 "F2" 1 1 None (Some "Weekly") "2024-02-01" None
    (S754_finite false 7036874417766400 (-46)) 1
    (S754_finite false 7036874417766400 (-46)) (Some "Completed").

Definition two_hires_db : database :=
  set_tblHire [completed_hire; owned_hire] sample_db.

Definition f500 : Py.float := S754_finite false 8796093022208000 (-44).

(** A supplier id of 0 counts as no supplier. Such a hire can only come
    from the Owned branch of [add_hire], which stores what is typed. *)
Example supplier_zero_counts_as_none :
  exists w',
    add_supplier_payment
      (console (set_tblHire
                  [Hire.mk 1 "F2" 1 1 (Some 0) (Some "Daily") "2024-01-01"
                     None f500 1 f500 (Some "Open")] sample_db)
         ["1"; "2024-03-01"; "500"])
    = Returned tt w'
    /\ tblSupplierPayment (db w') = []
    /\ stdout w' = [Asked "Hire ID: ";
                    Printed [Text "This hire has no supplier."]].
Proof. eexists. repeat split; vm_compute; reflexivity. Qed.


(** An amount typed as -0 is read as a negative zero and stored as 0.0. *)
Example negative_zero_amount_is_stored_as_zero :
  Py.float_of_str "-0" = Some (S754_zero true)
  /\ exists w',
       add_supplier_payment (console two_hires_db ["1"; "2024-03-01"; "-0"])
       = Returned tt w'
       /\ map SupplierPayment.Amount (tblSupplierPayment (db w'))
          = [S754_zero false].
Proof. split; [reflexivity|]. eexists. split; vm_compute; reflexivity. Qed.

Definition odd_invoice : CustomerInvoice.row :=
  CustomerInvoice.mk 1 "INV-ABC" 1 1 "2024-01-01" f500 (Some "Unpaid").

(** ** What the operations can persist, whatever is typed *)

Lemma prompt_returned message w v w' :
  prompt message None w = Returned v w' ->
  exists line rest,
    stdin w = line :: rest /\ v = Py.strip line /\ db w' = db w.
Proof.
  destruct w as [d lines out]. destruct lines as [|line rest].
  - rewrite prompt_eof. discriminate.
  - rewrite prompt_line. intros [= <- <-]. now exists line, rest.
Qed.

Lemma choose_from_table_returned table id_field label_field rows w c w' :
  table_rows (db w) table = Some rows ->
  has_column table id_field = true ->
  has_column table label_field = true ->
  choose_from_table table id_field label_field w = Returned (Some c) w' ->
  known_id table id_field (db w) c = true /\ fits_int64 c = true
  /\ db w' = db w.
Proof.
  intros Hrows Hid Hlabel E.
  pose proof (changes_choose_from_table eq table id_field label_field w) as K.
  rewrite E in K. simpl in K.
  destruct w as [d lines out]. cbn [db] in *.
  destruct rows as [|r0 rows'] eqn:Er.
  { rewrite (choose_from_empty table id_field label_field d [])
      in E by auto. discriminate E. }
  destruct lines as [|line rest].
  { unfold choose_from_table, bind at 1, db_query in E. cbn [db] in E.
    rewrite (select_id_label_eq table id_field label_field d (r0 :: rows'))
      in E by auto.
    cbn [map] in E. unfold bind at 1 in E. rewrite for_each_print in E.
    unfold bind at 1, wrote in E. cbn [db stdin stdout] in E.
    rewrite input_eof in E. discriminate E. }
  rewrite (choose_from_table_asks table id_field label_field d (r0 :: rows'))
    in E by (auto; discriminate).
  destruct (Py.int line) as [choice|]; [|discriminate E].
  destruct (fits_int64 choice) eqn:Hfit; [|discriminate E].
  destruct (known_id table id_field d choice) eqn:Hk; [|discriminate E].
  inversion E. subst. auto.
Qed.

Lemma insert_hire_stored f dr c s ht sd ed r q t st d d' :
  insert_hire f dr c s ht sd ed r q t st d = inr d' ->
  hire_type_ok ht = true
  /\ d' = set_tblHire
            (tblHire d ++
             [Hire.mk (next_id (map Hire.HireID (tblHire d))) f dr c s
                (Some ht) sd ed (real_column r) q (real_column t)
                (Some st)]) d.
Proof.
  unfold insert_hire.
  destruct (_ && _); [|discriminate].
  unfold bind_real.
  destruct (Py.is_nan r); [discriminate|].
  destruct (Py.is_nan t); [discriminate|].
  destruct (hire_type_ok ht); [|discriminate].
  intro E. inversion E. auto.
Qed.

(** A hire that [add_hire] may append to the store [d] for the fleet id
    typed: its references are those chosen and its type is one of the
    four. *)
Definition checked_hire (d : database) (fleet_id : string) (h : Hire.row)
  : Prop :=
  Hire.FleetID h = fleet_id
  /\ fleet_of d fleet_id <> None
  /\ In (Hire.DriverID h) (map Driver.DriverID (tblDriver d))
  /\ In (Hire.CustomerID h) (map Customer.CustomerID (tblCustomer d))
  /\ (requires_supplier d fleet_id = true ->
      exists s, Hire.SupplierID h = Some s
                /\ In s (map Supplier.SupplierID (tblSupplier d)))
  /\ (exists ht, Hire.HireType h = Some ht /\ hire_type_ok ht = true)
  /\ Hire.Status h = Some "Open".

Lemma add_hire_record_outcome fleet_id driver_id customer_id supplier_id w :
  let d' := db (world_of (add_hire_record fleet_id driver_id customer_id
                            supplier_id w)) in
  d' = db w
  \/ exists h,
       d' = set_tblHire (tblHire (db w) ++ [h]) (db w)
       /\ Hire.FleetID h = fleet_id /\ Hire.DriverID h = driver_id
       /\ Hire.CustomerID h = customer_id
       /\ Hire.SupplierID h = supplier_id
       /\ (exists ht, Hire.HireType h = Some ht /\ hire_type_ok ht = true)
       /\ Hire.Status h = Some "Open".
Proof.
  intro d'. subst d'. unfold add_hire_record, bind, db_execute.
  pose proof (changes_prompt eq "Hire Type (Daily/Weekly/Monthly/Trip)" None w)
    as H1.
  destruct (prompt _ _ w) as [ht w1|e w1]; simpl in H1; [|now left].
  pose proof (changes_prompt eq "Start Date (YYYY-MM-DD)" None w1) as H2.
  destruct (prompt _ _ w1) as [sd w2|e w2]; simpl in H2;
    [|left; simpl; congruence].
  pose proof (changes_prompt eq "End Date (YYYY-MM-DD or blank)" (Some "") w2)
    as H3.
  destruct (prompt _ _ w2) as [ed w3|e w3]; simpl in H3;
    [|left; simpl; congruence].
  pose proof (changes_prompt_float eq "Rate" w3) as H4.
  destruct (prompt_float _ w3) as [r w4|e w4]; simpl in H4;
    [|left; simpl; congruence].
  pose proof (changes_prompt_int eq "Quantity" (Some 1) w4) as H5.
  destruct (prompt_int _ _ w4) as [q w5|e w5]; simpl in H5;
    [|left; simpl; congruence].
  unfold float_times_int.
  destruct (Py.float_of_int q) as [qf|]; [|left; simpl; congruence].
  unfold ret.
  destruct (insert_hire _ _ _ _ _ _ _ _ _ _ _ _) as [e|d2] eqn:E; simpl.
  - left. congruence.
  - right. apply insert_hire_stored in E as [Hok ->].
    assert (Hd : db w5 = db w) by congruence. rewrite Hd.
    eexists. split; [reflexivity|]. cbn. repeat split; eauto.
Qed.

(** Whatever is typed, [add_hire] leaves the store as it is or appends one
    hire to it, and that hire is a checked one. *)
Definition add_hire_post (w : world) (d' : database) : Prop :=
  d' = db w
  \/ exists fleet_line rest h,
       stdin w = fleet_line :: rest
       /\ d' = set_tblHire (tblHire (db w) ++ [h]) (db w)
       /\ checked_hire (db w) (Py.strip fleet_line) h.

Lemma add_hire_outcome w : add_hire_post w (db (world_of (add_hire w))).
Proof.
  unfold add_hire. unfold bind at 1.
  destruct (prompt "Fleet ID" None w) as [fleet_id w1|e w1] eqn:E1.
  2:{ unfold add_hire_post. left. pose proof (changes_prompt eq "Fleet ID" None w) as K.
      rewrite E1 in K. simpl in *. congruence. }
  apply prompt_returned in E1 as (fleet_line & rest & Hin & -> & Hd1).
  unfold bind at 1. rewrite record_exists_fleet. rewrite Hd1.
  destruct (fleet_of (db w) (Py.strip fleet_line)) as [f|] eqn:Hf;
    cbn [negb]; [|unfold add_hire_post; left; simpl; exact Hd1].
  unfold bind at 1.
  destruct (choose_from_table "tblDriver" _ _ w1) as [[dr|] w2|e w2] eqn:E2.
  2:{ unfold add_hire_post. left. simpl.
      pose proof (changes_choose_from_table eq "tblDriver" "DriverID" "Name"
                    w1) as K. rewrite E2 in K. simpl in K. congruence. }
  2:{ unfold add_hire_post. left. simpl.
      pose proof (changes_choose_from_table eq "tblDriver" "DriverID" "Name"
                    w1) as K. rewrite E2 in K. simpl in K. congruence. }
  apply (choose_from_table_returned _ _ _ (map Driver.cols (tblDriver (db w1))))
    in E2 as (Kd & _ & Hd2); try reflexivity.
  unfold bind at 1.
  destruct (choose_from_table "tblCustomer" _ _ w2) as [[cu|] w3|e w3] eqn:E3.
  2:{ unfold add_hire_post. left. simpl.
      pose proof (changes_choose_from_table eq "tblCustomer" "CustomerID"
                    "Name" w2) as K. rewrite E3 in K. simpl in K. congruence. }
  2:{ unfold add_hire_post. left. simpl.
      pose proof (changes_choose_from_table eq "tblCustomer" "CustomerID"
                    "Name" w2) as K. rewrite E3 in K. simpl in K. congruence. }
  apply (choose_from_table_returned _ _ _
           (map Customer.cols (tblCustomer (db w2))))
    in E3 as (Kc & _ & Hd3); try reflexivity.
  assert (D2 : db w2 = db w) by congruence.
  assert (D3 : db w3 = db w) by congruence.
  rewrite Hd1 in Kd. rewrite D2 in Kc.
  apply known_driver in Kd. apply known_customer in Kc.
  unfold bind at 1. rewrite add_hire_supplier_query. rewrite D3.
  destruct (requires_supplier (db w) (Py.strip fleet_line)) eqn:Hreq.
  - unfold bind at 1.
    destruct (choose_from_table "tblSupplier" _ _ w3) as [[s|] w4|e w4] eqn:E4.
    2:{ unfold add_hire_post. left. simpl.
        pose proof (changes_choose_from_table eq "tblSupplier" "SupplierID"
                      "CompanyName" w3) as K.
        rewrite E4 in K. simpl in K. congruence. }
    2:{ unfold add_hire_post. left. simpl.
        pose proof (changes_choose_from_table eq "tblSupplier" "SupplierID"
                      "CompanyName" w3) as K.
        rewrite E4 in K. simpl in K. congruence. }
    apply (choose_from_table_returned _ _ _
             (map Supplier.cols (tblSupplier (db w3))))
      in E4 as (Ks & _ & Hd4); try reflexivity.
    rewrite D3 in Ks. apply known_supplier in Ks.
    assert (D4 : db w4 = db w) by congruence.
    unfold ret.
    destruct (add_hire_record_outcome (Py.strip fleet_line) dr cu (Some s) w4)
      as [H|(h & H & F1 & F2 & F3 & F4 & F5 & F6)].
    + unfold add_hire_post. left. congruence.
    + unfold add_hire_post. right. exists fleet_line, rest, h.
      rewrite D4 in H.
      split; [exact Hin|]. split; [exact H|].
      unfold checked_hire. rewrite F1, F2, F3, Hf.
      repeat split; auto; try discriminate.
      intros _. exists s. auto.
  - assert (Hs : forall (o : option (option Z)) w4,
              db w4 = db w ->
              add_hire_post w
                (db (world_of
                       (match o with
                        | Some supplier_id =>
                            add_hire_record (Py.strip fleet_line) dr cu
                              supplier_id
                        | None => ret tt
                        end w4)))).
    { unfold add_hire_post. intros [sup|] w4 D4; [|now left].
      destruct (add_hire_record_outcome (Py.strip fleet_line) dr cu sup w4)
        as [H|(h & H & F1 & F2 & F3 & F4 & F5 & F6)].
      - left. congruence.
      - right. exists fleet_line, rest, h. rewrite D4 in H.
        split; [exact Hin|]. split; [exact H|].
        unfold checked_hire. rewrite F1, F2, F3, Hf, Hreq.
        repeat split; auto; discriminate. }
    unfold bind at 1.
    pose proof (changes_prompt eq "Enter Supplier ID (optional)" None w3) as K.
    destruct (prompt _ _ w3) as [si w4|e w4]; simpl in K;
      [|unfold add_hire_post; left; simpl; congruence].
    destruct (String.eqb si "").
    + apply (Hs (Some None)). congruence.
    + destruct (Py.int si) as [s|].
      * apply (Hs (Some (Some s))). congruence.
      * unfold bind. rewrite print_eq. unfold add_hire_post. left. simpl.
        congruence.
Qed.

(** Whatever is typed, [create_invoice_from_hire] leaves the store as it is
    or appends one invoice to it, made from a hire that the store holds as
    Completed: the hire's id, customer and total are copied, the total
    through a REAL column once more, the number is the one the generator
    yields, the payment status is Unpaid. *)
Definition create_invoice_post (w : world) (d' : database) : Prop :=
  d' = db w
  \/ exists h inv,
       In h (tblHire (db w))
       /\ Hire.Status h = Some "Completed"
       /\ d' = set_tblCustomerInvoice (tblCustomerInvoice (db w) ++ [inv])
                 (db w)
       /\ CustomerInvoice.HireID inv = Hire.HireID h
       /\ CustomerInvoice.CustomerID inv = Hire.CustomerID h
       /\ Amount inv = real_column (Hire.TotalAmount h)
       /\ InvoiceNo inv = next_invoice_no (db w)
       /\ PaymentStatus inv = Some "Unpaid".

(** What a REAL column gives back goes through a REAL column unchanged. *)
Lemma real_column_stored x : real_column (real_column x) = real_column x.
Proof. now destruct x. Qed.

Lemma bind_real_some x a : bind_real x = Some a -> a = real_column x.
Proof. unfold bind_real. destruct (Py.is_nan x); now intros [=]. Qed.

Lemma create_invoice_outcome w :
  create_invoice_post w (db (world_of (create_invoice_from_hire w))).
Proof.
  unfold create_invoice_from_hire, db_query, select_completed_hires.
  unfold bind at 1. fold (completed_hires (db w)).
  destruct (completed_hires (db w)) as [|h0 hs] eqn:Eh.
  { left. reflexivity. }
  rewrite <- Eh. clear Eh h0 hs.
  unfold bind at 1. rewrite for_each_print.
  set (w0 := wrote w _). assert (D0 : db w0 = db w) by reflexivity.
  unfold bind at 1.
  pose proof (changes_prompt_int eq "Choose Hire ID" None w0) as K1.
  destruct (prompt_int _ _ w0) as [hire_id w1|e w1]; simpl in K1;
    [|left; simpl; congruence].
  destruct (selected_hire _ hire_id) as [sel|] eqn:Hsel;
    [|left; simpl; congruence].
  apply selected_hire_completed in Hsel as (Hin & Hc & Hid).
  apply is_completed_iff in Hc.
  unfold bind at 1. rewrite generate_invoice_no_eq.
  unfold bind at 1.
  pose proof (changes_prompt eq "Invoice Date (YYYY-MM-DD)" None w1) as K2.
  destruct (prompt _ _ w1) as [date w2|e w2]; simpl in K2;
    [|left; simpl; congruence].
  unfold bind, db_execute.
  assert (D2 : db w2 = db w) by congruence.
  assert (D1 : db w1 = db w) by congruence.
  rewrite D2, D1.
  destruct (insert_invoice _ _ _ _ _ _) as [e|d2] eqn:E; simpl.
  - left. exact D2.
  - right. apply insert_invoice_stored in E as (a' & Ha & ->).
    apply bind_real_some in Ha. subst a'.
    exists sel. eexists. split; [exact Hin|]. split; [exact Hc|].
    split; [reflexivity|]. cbn. repeat split; auto.
Qed.

(** ** The end-to-end scenario of the specification *)

(** Fleet F1 is rented in. A hire of F1 with supplier 1, rate 100 and
    quantity 5 is created, completed, invoiced and settled. *)
Definition scenario : list (operation * list string) :=
  [(AddHire, ["F1"; "1"; "1"; "1"; "Daily"; "2024-01-01"; ""; "100"; "5"]);
   (UpdateHireStatus, ["1"; "Completed"]);
   (CreateInvoiceFromHire, ["1"; "2024-01-01"]);
   (AddSupplierPayment, ["1"; "2024-01-01"; "500"])].

Example end_to_end_scenario :
  let d := lifetime scenario sample_db in
  tblHire d
  = [Hire.mk 1 "F1" 1 1 (Some 1) (Some "Daily") "2024-01-01" None
       (S754_finite false 7036874417766400 (-46)) 5 f500 (Some "Completed")]
  /\ tblCustomerInvoice d
     = [CustomerInvoice.mk 1 "INV-0001" 1 1 "2024-01-01" f500 (Some "Unpaid")]
  /\ tblSupplierPayment d
     = [SupplierPayment.mk 1 1 1 "2024-01-01" f500 (Some "Pending")]
  /\ Py.float_of_str "100" = Some (S754_finite false 7036874417766400 (-46))
  /\ Py.float_of_str "500" = Some f500.
Proof. repeat split; vm_compute; reflexivity. Qed.

(** * The claims *)

(** ** Invoice numbers *)

(** C1. Starting from a store without invoices, after any series of
    operations of the program the invoices, in creation order, carry the
    numbers INV-0001, INV-0002, ... without a gap: the numeric suffixes read
    back as 1, 2, ..., n and no number occurs twice. Moreover, from any
    store reached this way, creating an invoice from a completed hire
    appends one invoice, whose number is the next of the sequence. *)
Theorem invoice_numbers_follow_the_sequence :
  forall steps d,
    tblCustomerInvoice d = [] ->
    let d' := lifetime steps d in
    let n := List.length (tblCustomerInvoice d') in
    map InvoiceNo (tblCustomerInvoice d') = sequence n
    /\ map suffix_number (map InvoiceNo (tblCustomerInvoice d'))
       = map (fun k => Some (Z.of_nat k)) (seq 1 n)
    /\ NoDup (map InvoiceNo (tblCustomerInvoice d'))
    /\ forall bad good hire_id h date rest out,
         selected_hire (completed_hires d') hire_id = Some h ->
         Forall (not_an_int None) bad ->
         Py.int (Py.strip good) = Some hire_id ->
         fits_int64 hire_id = true ->
         fits_int64 (Hire.CustomerID h) = true ->
         Py.is_nan (Hire.TotalAmount h) = false ->
         exists w',
           create_invoice_from_hire
             (mkworld d' (bad ++ good :: date :: rest) out) = Returned tt w'
           /\ map InvoiceNo (tblCustomerInvoice (db w')) = sequence (S n).
Proof.
  intros steps d Hd d' n.
  assert (Hseq : in_sequence (tblCustomerInvoice d')).
  { apply lifetime_in_sequence. rewrite Hd. constructor. }
  pose proof (in_sequence_numbers _ Hseq) as Hnum. fold n in Hnum.
  repeat split.
  - exact Hnum.
  - rewrite Hnum. apply sequence_suffixes.
  - rewrite Hnum. apply sequence_NoDup.
  - intros bad good hire_id h date rest out Hsel Hbad Hgood Hf Hfc Hnan.
    destruct (create_invoice_creates d' bad good hire_id h date rest out)
      as (w' & E & _ & Hdb); auto.
    exists w'. split; [exact E|].
    rewrite Hdb. simpl. rewrite map_app, Hnum. simpl.
    unfold sequence. now rewrite seq_S, map_app.
Qed.

(** Two invoices are created, one is marked as paid in between; a third
    creation from the store reached gets INV-0003. *)
Lemma invoice_numbers_follow_the_sequence_witness :
  let steps :=
    [(CreateInvoiceFromHire, ["1"; "2024-01-01"]);
     (UpdateInvoiceStatus, ["1"; "Paid"]);
     (SearchHires, ["Completed"]);
     (CreateInvoiceFromHire, ["oops"; "2"; "2024-01-02"])] in
  tblCustomerInvoice two_hires_db = []
  /\ map InvoiceNo (tblCustomerInvoice (lifetime steps two_hires_db))
     = ["INV-0001"; "INV-0002"]
  /\ NoDup (map InvoiceNo (tblCustomerInvoice (lifetime steps two_hires_db)))
  /\ exists w',
       create_invoice_from_hire
         (mkworld (lifetime steps two_hires_db) ["1"; "2024-01-03"] [])
       = Returned tt w'
       /\ map InvoiceNo (tblCustomerInvoice (db w'))
          = ["INV-0001"; "INV-0002"; "INV-0003"].
Proof.
  intro steps.
  destruct (invoice_numbers_follow_the_sequence steps two_hires_db eq_refl)
    as (Hnum & _ & Hdup & Hnext).
  split; [reflexivity|].
  split; [rewrite Hnum; vm_compute; reflexivity|].
  split; [exact Hdup|].
  destruct (Hnext [] "1" 1 completed_hire "2024-01-03" [] [])
    as (w' & E & Hw').
  - vm_compute. reflexivity.
  - constructor.
  - reflexivity.
  - reflexivity.
  - reflexivity.
  - reflexivity.
  - exists w'. split; [exact E|]. rewrite Hw'. vm_compute. reflexivity.
Defined.

(** ** A rented-in fleet needs a supplier *)




(** ** Invoices come from completed hires *)

(** C3. Whatever hire id the operator enters, if no hire of the store has
    that id and status Completed (the id is unknown, or its hire is Open,
    Cancelled or anything else), [create_invoice_from_hire] returns after
    reporting the refusal and the store is as before: no invoice is
    created. The status is read from the store by the call itself. And
    whatever is typed, also when the input ends or an exception escapes,
    the store is as before or holds one more invoice, made for a hire that
    the store holds as Completed, hence for another hire. *)
Theorem invoice_needs_completed_hire :
  forall d hire_id bad good rest out,
    (forall h, In h (tblHire d) -> Hire.HireID h = hire_id ->
               Hire.Status h <> Some "Completed") ->
    Forall (not_an_int None) bad ->
    Py.int (Py.strip good) = Some hire_id ->
    (exists w',
       create_invoice_from_hire (mkworld d (bad ++ good :: rest) out)
       = Returned tt w'
       /\ db w' = d
       /\ hire_not_completed w')
    /\ forall typed out',
         let d' := db (world_of (create_invoice_from_hire
                                   (mkworld d typed out'))) in
         d' = d
         \/ exists h inv,
              In h (tblHire d)
              /\ Hire.Status h = Some "Completed"
              /\ d' = set_tblCustomerInvoice (tblCustomerInvoice d ++ [inv]) d
              /\ CustomerInvoice.HireID inv = Hire.HireID h
              /\ CustomerInvoice.HireID inv <> hire_id.
Proof.
  intros d hire_id bad good rest out Hno Hbad Hgood. split.
  - destruct (completed_hires d) as [|h0 hs] eqn:E.
    + rewrite create_invoice_nothing_completed by exact E.
      eexists. split; [reflexivity|]. split; [reflexivity|].
      eexists _, _. split; [reflexivity|]. simpl. auto.
    + rewrite create_invoice_choice with (hire_id := hire_id); auto.
      2:{ rewrite E. discriminate. }
      destruct (selected_hire _ _) as [h|] eqn:Hsel.
      * apply selected_hire_completed in Hsel as (Hin & Hc & Hid).
        apply is_completed_iff in Hc. now apply Hno in Hc.
      * rewrite print_eq. eexists. split; [reflexivity|].
        split; [reflexivity|].
        eexists _, _. split; [reflexivity|]. simpl. auto.
  - intros typed out' d'. subst d'.
    destruct (create_invoice_outcome (mkworld d typed out'))
      as [H|(h & inv & Hin & Hc & H & Hid & _)]; [now left|].
    right. cbn [db] in *. exists h, inv. repeat split; auto.
    rewrite Hid. intro E. exact (Hno h Hin E Hc).
Qed.

(** Hire 1 of [one_hire_db] is Open. *)
Lemma invoice_needs_completed_hire_witness :
  Hire.Status open_hire = Some "Open"
  /\ exists w',
       create_invoice_from_hire (console one_hire_db ["1"; "2024-01-01"])
       = Returned tt w'
       /\ db w' = one_hire_db
       /\ hire_not_completed w'.
Proof.
  split; [reflexivity|].
  apply (invoice_needs_completed_hire one_hire_db 1 [] "1" ["2024-01-01"] []).
  - intros h [<-|[]] _. discriminate.
  - constructor.
  - reflexivity.
Defined.

(** ** The supplier of an owned fleet *)

(** C4: what the code does. For an Owned fleet the supplier id typed is
    stored as it is; it is not looked up. Here supplier 999 is stored
    although the only supplier of the store has id 1. *)
Theorem owned_hire_keeps_unknown_supplier :
  let lines := ["F2"; "1"; "1"; "999"; "Daily"; "2024-01-01"; ""; "100"; "5"] in
  map Supplier.SupplierID (tblSupplier sample_db) = [1]
  /\ exists w' h,
       add_hire (console sample_db lines) = Returned tt w'
       /\ tblHire (db w') = [h]
       /\ Hire.FleetID h = "F2"
       /\ Hire.SupplierID h = Some 999
       /\ stdout w'
          = [Asked "Fleet ID: "; Printed [Int 1; Text " - "; Text "Dan"];
             Asked "Enter DriverID: ";
             Printed [Int 1; Text " - "; Text "Carol"];
             Asked "Enter CustomerID: ";
             Asked "Enter Supplier ID (optional): ";
             Asked "Hire Type (Daily/Weekly/Monthly/Trip): ";
             Asked "Start Date (YYYY-MM-DD): ";
             Asked "End Date (YYYY-MM-DD or blank): ";
             Asked "Rate: "; Asked "Quantity: ";
             Printed [Text "Hire created with total amount";
                      Real (S754_finite false 8796093022208000 (-44))]].
Proof.
  intro lines. split; [reflexivity|].
  eexists _, _. repeat split; vm_compute; reflexivity.
Qed.

(** ** The hire type *)

(** C5. Once the reference checks have passed, a hire type other than
    Daily, Weekly, Monthly and Trip makes [add_hire] fail: it ends in an
    exception and the store is as before, so no hire is persisted. When
    the other terms can be stored, the exception is the IntegrityError of
    the CHECK constraint on HireType. And whatever is typed, the store is
    as before or holds one more hire, whose type is one of the four. *)
Theorem hire_type_is_checked :
  forall d lines fleet driver customer supplier lines' t rest out,
    references_pass d lines fleet driver customer supplier lines' ->
    terms_typed lines' t rest ->
    hire_type_ok (typed_hire_type t) = false ->
    (exists e w',
       add_hire (mkworld d lines out) = Raised e w'
       /\ db w' = d
       /\ forall q,
            Py.float_of_int (typed_quantity t) = Some q ->
            storable driver customer supplier t (Py.fmul (typed_rate t) q) ->
            e = IntegrityError
                 "CHECK constraint failed: HireType IN ('Daily','Weekly','Monthly','Trip')")
    /\ forall typed out',
         let d' := db (world_of (add_hire (mkworld d typed out'))) in
         d' = d
         \/ exists h hire_type,
              d' = set_tblHire (tblHire d ++ [h]) d
              /\ Hire.HireType h = Some hire_type
              /\ In hire_type ["Daily"; "Weekly"; "Monthly"; "Trip"].
Proof.
  intros d lines fleet driver customer supplier lines' t rest out Hr Ht Hbad.
  split.
  - destruct (add_hire_references d lines fleet driver customer supplier
                lines' out Hr) as [out' ->].
    now apply add_hire_record_checks_type with (rest := rest).
  - intros typed out' d'. subst d'.
    destruct (add_hire_outcome (mkworld d typed out'))
      as [H|(fl & rest' & h & _ & H & Hh)]; [now left|].
    right. cbn [db] in *.
    destruct Hh as (_ & _ & _ & _ & _ & (ht & Eht & Hok) & _).
    exists h, ht. repeat split; auto.
    unfold hire_type_ok in Hok. apply existsb_exists in Hok as (x & Hx & E).
    apply String.eqb_eq in E. now subst x.
Qed.

(** Hourly is not a hire type of the schema. *)
Lemma hire_type_is_checked_witness :
  hire_type_ok "Hourly" = false
  /\ exists w',
       add_hire (console sample_db
                   ["F1"; "1"; "1"; "1"; "Hourly"; "2024-01-01"; ""; "100";
                    "5"])
       = Raised (IntegrityError
                 "CHECK constraint failed: HireType IN ('Daily','Weekly','Monthly','Trip')") w'
       /\ db w' = sample_db.
Proof.
  split; [reflexivity|].
  destruct (hire_type_is_checked sample_db
              ["F1"; "1"; "1"; "1"; "Hourly"; "2024-01-01"; ""; "100"; "5"]
              "F1" 1 1 (Some 1) ["Hourly"; "2024-01-01"; ""; "100"; "5"]
              (mkterms "Hourly" "2024-01-01" None
                 (S754_finite false 7036874417766400 (-46)) 5) [] [])
    as ((e & w' & E & Hdb & He) & _).
  - apply sample_references_rented.
  - apply (sample_terms "Hourly" "2024-01-01" "100"
             (S754_finite false 7036874417766400 (-46)) "5" 5 []);
      vm_compute; reflexivity.
  - reflexivity.
  - exists w'. split; [|exact Hdb].
    rewrite <- (He (S754_finite false 5629499534213120 (-50))).
    + exact E.
    + vm_compute. reflexivity.
    + repeat split; vm_compute; reflexivity.
Defined.

(** ** The total amount *)

(** C6, as amended. For every rate and quantity that hire creation accepts
    (the references pass, the hire type is one of the four, the terms can
    be stored), the persisted record keeps the rate and the quantity as
    entered and its total is their binary64 product: the quantity is
    converted to a float and multiplied by the rate with one rounding to
    nearest, ties to even. The rate and the total are read back from their
    REAL columns, where a negative zero has become zero and every other
    value is as it was. No decimal arithmetic takes part. The total is
    the exact product whenever that product is a binary64 number: if the
    rate is [mr * 2 ^ er], the quantity is below [2 ^ 53] in absolute value
    and [mr * |quantity|] is [m * 2 ^ k] with [(m, er + k)] a binary64
    number, the total is that number with the sign of the product. *)
Theorem total_is_the_float_product :
  forall d lines fleet driver customer supplier lines' t rest out q,
    references_pass d lines fleet driver customer supplier lines' ->
    terms_typed lines' t rest ->
    hire_type_ok (typed_hire_type t) = true ->
    Py.float_of_int (typed_quantity t) = Some q ->
    storable driver customer supplier t (Py.fmul (typed_rate t) q) ->
    exists w' h,
      add_hire (mkworld d lines out) = Returned tt w'
      /\ tblHire (db w') = tblHire d ++ [h]
      /\ Hire.Rate h = real_column (typed_rate t)
      /\ Hire.Quantity h = typed_quantity t
      /\ Hire.TotalAmount h = real_column (SFmul 53 1024 (typed_rate t) q)
      /\ forall sr mr er m k,
           typed_rate t = S754_finite sr mr er ->
           0 < Z.abs (typed_quantity t) < 2 ^ 53 ->
           Zpos mr * Z.abs (typed_quantity t) = Zpos m * 2 ^ Z.of_N k ->
           bounded 53 1024 m (er + Z.of_N k) = true ->
           Hire.TotalAmount h
           = S754_finite (xorb sr (typed_quantity t <? 0)) m (er + Z.of_N k).
Proof.
  intros d lines fleet driver customer supplier lines' t rest out q
    Hr Ht Hok Hq Hst.
  destruct (add_hire_references d lines fleet driver customer supplier lines'
              out Hr) as [out' E].
  destruct (add_hire_record_stores fleet driver customer supplier d lines'
              t rest out' q Ht Hq Hst Hok) as (w' & E' & _ & Hdb).
  exists w', (hire_record d fleet driver customer supplier t
                (Py.fmul (typed_rate t) q)).
  rewrite E, E', Hdb. repeat split.
  intros sr mr er m k Hrate Hsmall Hm Hb. cbn [hire_record Hire.TotalAmount].
  destruct (float_product_exact sr mr er (typed_quantity t) m k Hsmall Hm Hb)
    as (qf & Hqf & Hmul).
  rewrite Hq in Hqf. inversion Hqf. subst qf. rewrite Hrate, Hmul.
  reflexivity.
Qed.

(** The example of the specification: 150.00 times 3 is stored as 450.00.
    The rate is [5277655813324800 * 2 ^ -45], three times its mantissa is
    [7916483719987200 * 2 ^ 1], and the total is
    [7916483719987200 * 2 ^ -44], the exact product. *)
Lemma total_is_the_float_product_witness :
  let lines := ["F2"; "1"; "1"; ""; "Daily"; "2024-01-01"; ""; "150.00"; "3"] in
  Py.float_of_str "150.00" = Some f150
  /\ Py.float_of_str "450.00" = Some f450
  /\ exists w' h,
       add_hire (console sample_db lines) = Returned tt w'
       /\ tblHire (db w') = [h]
       /\ Hire.Rate h = f150
       /\ Hire.Quantity h = 3
       /\ Hire.TotalAmount h = f450
       /\ total_is_exact h = true.
Proof.
  intro lines.
  split; [vm_compute; reflexivity|]. split; [vm_compute; reflexivity|].
  destruct (total_is_the_float_product sample_db lines "F2" 1 1 None
              ["Daily"; "2024-01-01"; ""; "150.00"; "3"]
              (mkterms "Daily" "2024-01-01" None f150 3) [] []
              (S754_finite false 6755399441055744 (-51)))
    as (w' & h & E & Hh & Hr & Hq & _ & Hexact).
  - apply sample_references_owned.
    apply supplier_left_out; reflexivity.
  - apply (sample_terms "Daily" "2024-01-01" "150.00" f150 "3" 3 []);
      vm_compute; reflexivity.
  - reflexivity.
  - vm_compute. reflexivity.
  - repeat split; reflexivity.
  - assert (Ht : Hire.TotalAmount h = f450).
    { apply (Hexact false 5277655813324800%positive (-45)
               7916483719987200%positive 1%N).
      - reflexivity.
      - cbn [typed_quantity Z.abs]. lia.
      - reflexivity.
      - vm_compute. reflexivity. }
    exists w', h.
    split; [exact E|]. split; [exact Hh|]. split; [exact Hr|].
    split; [exact Hq|]. split; [exact Ht|].
    unfold total_is_exact. rewrite Ht, Hr, Hq. vm_compute. reflexivity.
Defined.

(** C6 as stated fails: for rate 0.1 and quantity 3 the stored total is
    neither the exact product of the stored rate and quantity nor the
    float that the decimal product 0.3 reads as. *)
Lemma total_is_not_exact :
  let lines := ["F2"; "1"; "1"; ""; "Daily"; "2024-01-01"; ""; "0.1"; "3"] in
  exists w' h,
    add_hire (console sample_db lines) = Returned tt w'
    /\ tblHire (db w') = [h]
    /\ Hire.Rate h = f0_1
    /\ Py.float_of_str "0.1" = Some f0_1
    /\ Hire.Quantity h = 3
    /\ total_is_exact h = false
    /\ Py.float_of_str "0.3" = Some f0_3
    /\ Hire.TotalAmount h <> f0_3.
Proof.
  intro lines. eexists _, _.
  split; [vm_compute; reflexivity|].
  split; [reflexivity|].
  repeat split; try (vm_compute; reflexivity).
  vm_compute. discriminate.
Qed.

(** ** Searching hires by status *)

(** C7, as amended. For the filter value [v] that [prompt] returns (the
    line typed, stripped), [search_hires] prints exactly the hires whose
    status matches the LIKE pattern %v%, in table order, and leaves the
    store as it is; this for a pattern within the 50000 bytes that SQLite
    accepts. LIKE reads the pattern and the status up to their first NUL
    character. When [v] holds neither %, _ nor NUL, the hires
    printed are those whose status, up to its first NUL, contains [v] as a
    substring, the letters A-Z and a-z taken in either case. When [v] holds
    a NUL, with neither % nor _ before it, the pattern ends there, and the
    hires printed are those whose status, up to its first NUL, ends with
    what [v] has before the NUL. The store is left as it is on every
    console, also when the input has ended. *)
Theorem search_hires_matches_like :
  forall d line rest out,
    let v := Py.strip line in
    (like_pattern_fits ("%" ++ v ++ "%") = true ->
     exists w',
       search_hires (mkworld d (line :: rest) out) = Returned tt w'
       /\ db w' = d
       /\ stdout w'
          = out ++ Asked "Filter by Status: "
                :: search_output
                     (filter (fun h => like_opt (Hire.Status h)
                                         ("%" ++ v ++ "%")) (tblHire d)))
    /\ (no_wildcard v = true -> no_nul v = true ->
        forall h,
          like_opt (Hire.Status h) ("%" ++ v ++ "%")
          = match Hire.Status h with
            | Some s => contains_ci v (before_nul s)
            | None => false
            end)
    /\ (forall a b,
          v = (a ++ String zero b)%string ->
          no_wildcard a = true -> no_nul a = true ->
          forall h,
            like_opt (Hire.Status h) ("%" ++ v ++ "%")
            = match Hire.Status h with
              | Some s => ends_with_ci a (before_nul s)
              | None => false
              end)
    /\ forall typed out',
         db (world_of (search_hires (mkworld d typed out'))) = d.
Proof.
  intros d line rest out v. split; [|split; [|split]].
  - intros _. rewrite search_hires_line.
    eexists. split; [reflexivity|]. split; reflexivity.
  - intros Hv Hn h. unfold like_opt.
    destruct (Hire.Status h); [|reflexivity].
    now apply like_is_contains_ci.
  - intros a b -> Ha Hn h. unfold like_opt.
    destruct (Hire.Status h); [|reflexivity].
    now apply like_is_ends_with_ci.
  - intros typed out'.
    exact (eq_sym (search_hires_keeps_db (mkworld d typed out'))).
Qed.

(** The filter pe finds the hire with status Open, and so does the filter
    made of pen, a NUL and zzz: Open ends with pen. *)
Lemma search_hires_matches_like_witness :
  (no_wildcard (Py.strip " pe ") = true
   /\ no_nul (Py.strip " pe ") = true
   /\ contains_ci "pe" (before_nul "Open") = true
   /\ exists w',
        search_hires (console one_hire_db [" pe "]) = Returned tt w'
        /\ db w' = one_hire_db
        /\ stdout w' = [Asked "Filter by Status: "; PrintedRow open_hire_row])
  /\ (ends_with_ci "pen" (before_nul "Open") = true
      /\ exists w',
           search_hires
             (console one_hire_db [("pen" ++ String zero "zzz")%string])
           = Returned tt w'
           /\ stdout w'
              = [Asked "Filter by Status: "; PrintedRow open_hire_row]).
Proof.
  split.
  - split; [reflexivity|]. split; [reflexivity|]. split; [reflexivity|].
    destruct (search_hires_matches_like one_hire_db " pe " [] [])
      as (Hrun & Hlike & _).
    destruct (Hrun eq_refl) as (w' & E & Hdb & Hout).
    exists w'. split; [exact E|]. split; [exact Hdb|].
    rewrite Hout. unfold one_hire_db, set_tblHire, tblHire.
    cbn [filter]. rewrite (Hlike eq_refl eq_refl open_hire). reflexivity.
  - split; [reflexivity|].
    destruct (search_hires_matches_like one_hire_db
                ("pen" ++ String zero "zzz")%string [] [])
      as (Hrun & _ & Hnul & _).
    destruct (Hrun eq_refl) as (w' & E & _ & Hout).
    exists w'. split; [exact E|].
    rewrite Hout. unfold one_hire_db, set_tblHire, tblHire.
    cbn [filter].
    rewrite (Hnul "pen" "zzz" eq_refl eq_refl eq_refl open_hire).
    reflexivity.
Defined.

(** C7 as stated fails: the hire with status Open is returned for the
    filter value open, and for the filter value O_en, although neither
    occurs in Open character for character. *)
Lemma search_hires_is_not_case_sensitive :
  (contains "open" "Open" = false
   /\ exists w',
        search_hires (console one_hire_db ["open"]) = Returned tt w'
        /\ stdout w' = [Asked "Filter by Status: "; PrintedRow open_hire_row])
  /\ (contains "O_en" "Open" = false
      /\ exists w',
           search_hires (console one_hire_db ["O_en"]) = Returned tt w'
           /\ stdout w'
              = [Asked "Filter by Status: "; PrintedRow open_hire_row]).
Proof.
  repeat split; try reflexivity; eexists; split; vm_compute; reflexivity.
Qed.

(** ** An unreadable invoice number *)

(** C8. When the number of the newest invoice has no integer after its
    last hyphen, [generate_invoice_no] returns INV-0001 and raises
    nothing. *)
Theorem unreadable_number_restarts_the_sequence :
  forall w newest,
    newest_invoice (tblCustomerInvoice (db w)) = Some newest ->
    suffix_number (InvoiceNo newest) = None ->
    generate_invoice_no w = Returned "INV-0001" w.
Proof.
  intros w newest Hn Hs. rewrite generate_invoice_no_eq.
  unfold next_invoice_no, next_number. now rewrite Hn, Hs.
Qed.

(** The suffix ABC is no integer. *)
Lemma unreadable_number_restarts_the_sequence_witness :
  suffix_number "INV-ABC" = None
  /\ generate_invoice_no
       (console (set_tblCustomerInvoice [odd_invoice] two_hires_db) [])
     = Returned "INV-0001"
         (console (set_tblCustomerInvoice [odd_invoice] two_hires_db) []).
Proof.
  split; [reflexivity|].
  exact (unreadable_number_restarts_the_sequence
           (console (set_tblCustomerInvoice [odd_invoice] two_hires_db) [])
           odd_invoice eq_refl eq_refl).
Defined.

(** ** Supplier payments *)

(** C9. The operator enters the id of a hire. If the hire has no supplier
    (NULL), [add_supplier_payment] returns after saying so and the store is
    as before. If the hire has supplier s then, whatever else is typed, the
    store is as before or holds exactly one more payment, whose supplier is
    s, whose hire is that hire and whose status is Pending: the supplier is
    never asked for. And for s other than 0, a date and an amount that is
    not NaN do create that payment, with the amount as its REAL column
    gives it back: a negative zero as zero, any other amount as it is. *)
Theorem supplier_payment_follows_the_hire :
  forall d bad good hire_id h lines out,
    Forall (not_an_int None) bad ->
    Py.int (Py.strip good) = Some hire_id ->
    fits_int64 hire_id = true ->
    hire_of d hire_id = Some h ->
    let run := add_supplier_payment (mkworld d (bad ++ good :: lines) out) in
    match Hire.SupplierID h with
    | None =>
        exists w', run = Returned tt w' /\ db w' = d /\ no_supplier_on_hire w'
    | Some s =>
        (db (world_of run) = d
         \/ exists p,
              db (world_of run)
              = set_tblSupplierPayment (tblSupplierPayment d ++ [p]) d
              /\ SupplierPayment.SupplierID p = s
              /\ SupplierPayment.HireID p = hire_id
              /\ SupplierPayment.PaymentStatus p = Some "Pending")
        /\ (s <> 0 -> fits_int64 s = true ->
            forall date bad_amounts al a rest,
              lines = date :: bad_amounts ++ al :: rest ->
              Forall not_a_float bad_amounts ->
              Py.float_of_str (Py.strip al) = Some a ->
              Py.is_nan a = false ->
              exists w',
                run = Returned tt w'
                /\ db w' = set_tblSupplierPayment
                             (tblSupplierPayment d ++
                              [payment_record d s hire_id (Py.strip date) a])
                             d
                /\ SupplierPayment.Amount
                     (payment_record d s hire_id (Py.strip date) a)
                   = real_column a)
    end.
Proof.
  intros d bad good hire_id h lines out Hbad Hgood Hfit Hh run. subst run.
  rewrite (add_supplier_payment_hire d bad good hire_id h lines out)
    by assumption.
  destruct (Hire.SupplierID h) as [s|]; cbn [truthy].
  - split.
    + destruct (s =? 0); [now left|].
      apply (payment_steps_keep_supplier s hire_id
               (mkworld d lines
                  (out ++ retries "Hire ID" "Please enter a valid integer."
                            bad))).
    + intros HS HfS date bad_amounts al a rest -> Hba Ha Hnan.
      apply Z.eqb_neq in HS. rewrite HS.
      unfold bind at 1. rewrite prompt_line. cbn [entered].
      unfold bind at 1. rewrite prompt_float_accepts with (x := a); auto.
      unfold bind at 1, db_execute. cbn [db stdin stdout].
      unfold insert_payment, bind_real. rewrite HfS, Hfit, Hnan. cbn [andb].
      eexists. split; [reflexivity|]. split; reflexivity.
  - rewrite print_eq. eexists. split; [reflexivity|]. split; [reflexivity|].
    eexists _, _. split; [reflexivity|]. simpl. auto.
Qed.

(** Hire 2 has no supplier and is refused; hire 1 has supplier 1 and its
    payment is made out to supplier 1. *)
Lemma supplier_payment_follows_the_hire_witness :
  (exists w',
     add_supplier_payment (console two_hires_db ["x"; "2"]) = Returned tt w'
     /\ db w' = two_hires_db /\ no_supplier_on_hire w')
  /\ (exists w',
        add_supplier_payment
          (console two_hires_db ["1"; "2024-03-01"; "abc"; "500"])
        = Returned tt w'
        /\ tblSupplierPayment (db w')
           = [SupplierPayment.mk 1 1 1 "2024-03-01" f500 (Some "Pending")]).
Proof.
  split.
  - exact (supplier_payment_follows_the_hire two_hires_db ["x"] "2" 2
             owned_hire [] []
             (Forall_cons _ (eq_refl : not_an_int None "x") (Forall_nil _))
             eq_refl eq_refl eq_refl).
  - destruct (supplier_payment_follows_the_hire two_hires_db [] "1" 1
                completed_hire ["2024-03-01"; "abc"; "500"] []
                (Forall_nil _) eq_refl eq_refl eq_refl) as [_ H].
    destruct (H ltac:(discriminate) eq_refl "2024-03-01" ["abc"] "500" f500 []
                eq_refl
                (Forall_cons _ (eq_refl : not_a_float "abc") (Forall_nil _)))
      as (w' & E & Hdb & _).
    + vm_compute. reflexivity.
    + reflexivity.
    + exists w'. split; [exact E|]. rewrite Hdb. reflexivity.
Defined.

(** ** Rates and quantities of any sign *)

(** C10, as amended. [add_hire] checks no sign: for every rate other than
    NaN, be it zero, negative or infinite, and every quantity that fits a
    signed 64-bit integer, be it zero or negative, once the references
    pass with a hire type among the four, the quantity converts to a float
    and, unless the product is NaN, a hire is persisted with that product
    as its total and with status Open. The rate and the total are read
    back from their REAL columns: a negative zero, typed as the rate or
    obtained as the product of a negative rate and the quantity 0, is
    stored as zero. *)
Theorem no_positivity_check :
  forall d lines fleet driver customer supplier lines' t rest out,
    references_pass d lines fleet driver customer supplier lines' ->
    terms_typed lines' t rest ->
    hire_type_ok (typed_hire_type t) = true ->
    opt_fits_int64 supplier = true ->
    fits_int64 (typed_quantity t) = true ->
    Py.is_nan (typed_rate t) = false ->
    exists q,
      Py.float_of_int (typed_quantity t) = Some q
      /\ (Py.is_nan (Py.fmul (typed_rate t) q) = false ->
          exists w' h,
            add_hire (mkworld d lines out) = Returned tt w'
            /\ db w' = set_tblHire (tblHire d ++ [h]) d
            /\ Hire.Rate h = real_column (typed_rate t)
            /\ Hire.Quantity h = typed_quantity t
            /\ Hire.TotalAmount h = real_column (Py.fmul (typed_rate t) q)
            /\ Hire.Status h = Some "Open").
Proof.
  intros d lines fleet driver customer supplier lines' t rest out
    Hr Ht Hok Hs Hq Hrate.
  destruct (add_hire_persists d lines fleet driver customer supplier lines'
              t rest out Hr Ht Hok Hs Hq Hrate) as (q & Eq & H).
  exists q. split; [exact Eq|]. intro Hnan.
  destruct (H Hnan) as (w' & E & Hdb).
  exists w', (hire_record d fleet driver customer supplier t
                (Py.fmul (typed_rate t) q)).
  repeat split; auto.
Qed.

(** A negative rate and a negative quantity: -2.5 times -4 is stored as 10.
    The same rate with the quantity 0: the product is a negative zero,
    and the total stored is zero. *)
Lemma no_positivity_check_witness :
  let lines := ["F1"; "1"; "1"; "1"; "Trip"; "2024-01-01"; ""; "-2.5"; "-4"] in
  let lines0 := ["F1"; "1"; "1"; "1"; "Trip"; "2024-01-01"; ""; "-2.5"; "0"] in
  Py.float_of_str "-2.5" = Some f_minus_2_5
  /\ Py.int "-4" = Some (-4)
  /\ (exists w' h,
        add_hire (console sample_db lines) = Returned tt w'
        /\ tblHire (db w') = [h]
        /\ Hire.Rate h = f_minus_2_5
        /\ Hire.Quantity h = -4
        /\ Hire.TotalAmount h = f10
        /\ Hire.Status h = Some "Open")
  /\ Py.fmul f_minus_2_5 (S754_zero false) = S754_zero true
  /\ exists w' h,
       add_hire (console sample_db lines0) = Returned tt w'
       /\ tblHire (db w') = [h]
       /\ Hire.Rate h = f_minus_2_5
       /\ Hire.Quantity h = 0
       /\ Hire.TotalAmount h = S754_zero false
       /\ Hire.Status h = Some "Open".
Proof.
  intros lines lines0.
  split; [vm_compute; reflexivity|]. split; [reflexivity|].
  split; [|split; [reflexivity|]].
  - destruct (no_positivity_check sample_db lines "F1" 1 1 (Some 1)
                ["Trip"; "2024-01-01"; ""; "-2.5"; "-4"]
                (mkterms "Trip" "2024-01-01" None f_minus_2_5 (-4)) [] [])
      as (q & Eq & H).
    + apply sample_references_rented.
    + apply (sample_terms "Trip" "2024-01-01" "-2.5" f_minus_2_5 "-4" (-4) []);
        vm_compute; reflexivity.
    + reflexivity.
    + reflexivity.
    + reflexivity.
    + reflexivity.
    + assert (Eq' : q = f_minus_4).
      { vm_compute in Eq. now inversion Eq. }
      subst q.
      destruct H as (w' & h & E & Hdb & Hr & Hq & Ht & Hs);
        [vm_compute; reflexivity|].
      exists w', h. split; [exact E|].
      split; [rewrite Hdb; reflexivity|].
      split; [exact Hr|]. split; [exact Hq|].
      split; [rewrite Ht; vm_compute; reflexivity|exact Hs].
  - destruct (no_positivity_check sample_db lines0 "F1" 1 1 (Some 1)
                ["Trip"; "2024-01-01"; ""; "-2.5"; "0"]
                (mkterms "Trip" "2024-01-01" None f_minus_2_5 0) [] [])
      as (q & Eq & H).
    + apply sample_references_rented.
    + apply (sample_terms "Trip" "2024-01-01" "-2.5" f_minus_2_5 "0" 0 []);
        vm_compute; reflexivity.
    + reflexivity.
    + reflexivity.
    + reflexivity.
    + reflexivity.
    + assert (Eq' : q = S754_zero false).
      { vm_compute in Eq. now inversion Eq. }
      subst q.
      destruct H as (w' & h & E & Hdb & Hr & Hq & Ht & Hs);
        [vm_compute; reflexivity|].
      exists w', h. split; [exact E|].
      split; [rewrite Hdb; reflexivity|].
      split; [exact Hr|]. split; [exact Hq|].
      split; [rewrite Ht; vm_compute; reflexivity|exact Hs].
Defined.

(** C10 as stated fails at three kinds of input, each with the reference
    checks passed: a quantity beyond the signed 64-bit integers, a rate
    that is NaN, and a hire type outside the four. Each run ends in an
    exception and persists nothing. *)
Lemma some_rates_and_quantities_are_refused :
  (Py.int "9223372036854775808" = Some (2 ^ 63)
   /\ exists w',
        add_hire (console sample_db
                    ["F2"; "1"; "1"; ""; "Daily"; "2024-01-01"; "";
                     "100"; "9223372036854775808"])
        = Raised OverflowError w'
        /\ db w' = sample_db)
  /\ (Py.float_of_str "nan" = Some S754_nan
      /\ exists w',
           add_hire (console sample_db
                       ["F2"; "1"; "1"; ""; "Daily"; "2024-01-01"; "";
                        "nan"; "5"])
           = Raised (IntegrityError "NOT NULL constraint failed: tblHire.Rate")
               w'
           /\ db w' = sample_db)
  /\ (exists w',
        add_hire (console sample_db
                    ["F2"; "1"; "1"; ""; "Hourly"; "2024-01-01"; "";
                     "100"; "5"])
        = Raised (IntegrityError
                 "CHECK constraint failed: HireType IN ('Daily','Weekly','Monthly','Trip')") w'
        /\ db w' = sample_db).
Proof.
  repeat split; try (vm_compute; reflexivity);
    eexists; split; vm_compute; reflexivity.
Qed.

(** * Further properties

    The rest of the program: the prompt loops at the end of the input, the
    menus, the listings and searches, the status updates and the master
    data, with the properties that the code shows for them. *)

(** ** What a computation may do to the console input *)

(** A computation reads lines from the front of the pending input and
    never puts a line back. *)
Definition reads {A} (m : M A) : Prop :=
  forall w, (List.length (stdin (world_of (m w))) <= List.length (stdin w))%nat.

Lemma reads_ret {A} (a : A) : reads (ret a).
Proof. intro w. simpl. lia. Qed.

Lemma reads_raise {A} e : reads (@raise A e).
Proof. intro w. simpl. lia. Qed.

Lemma reads_bind {A B} (m : M A) (k : A -> M B) :
  reads m -> (forall a, reads (k a)) -> reads (bind m k).
Proof.
  intros Hm Hk w. unfold bind. specialize (Hm w).
  destruct (m w) as [a w'|e w']; simpl in *; auto.
  specialize (Hk a w'). lia.
Qed.

Lemma reads_print parts : reads (print parts).
Proof. intro w. simpl. lia. Qed.

Lemma reads_print_row r : reads (print_row r).
Proof. intro w. simpl. lia. Qed.

Lemma reads_input message : reads (input message).
Proof. intro w. unfold input. destruct (stdin w); simpl; lia. Qed.

Lemma reads_query {A} (q : database -> sqlresult A) : reads (db_query q).
Proof. intro w. unfold db_query. destruct (q (db w)); simpl; lia. Qed.

Lemma reads_execute stmt : reads (db_execute stmt).
Proof. intro w. unfold db_execute. destruct (stmt (db w)); simpl; lia. Qed.

Lemma reads_for_each {A} (l : list A) body :
  (forall x, reads (body x)) -> reads (for_each l body).
Proof.
  intro H. induction l as [|x l IH]; simpl; [apply reads_ret|].
  apply reads_bind; auto.
Qed.

Lemma reads_prompt message default : reads (prompt message default).
Proof.
  apply reads_bind; [apply reads_input|]. intro v.
  destruct default; [destruct (String.eqb v "")|]; apply reads_ret.
Qed.

Lemma reads_prompt_int_loop fuel message default :
  reads (prompt_int_loop fuel message default).
Proof.
  induction fuel; simpl; [apply reads_raise|].
  apply reads_bind; [apply reads_prompt|].
  intro v. destruct (Py.int v); [apply reads_ret|].
  apply reads_bind; [apply reads_print|auto].
Qed.

Lemma reads_prompt_int message default : reads (prompt_int message default).
Proof. intro w. apply reads_prompt_int_loop. Qed.

Lemma reads_prompt_float_loop fuel message :
  reads (prompt_float_loop fuel message).
Proof.
  induction fuel; simpl; [apply reads_raise|].
  apply reads_bind; [apply reads_prompt|].
  intro v. destruct (Py.float_of_str v); [apply reads_ret|].
  apply reads_bind; [apply reads_print|auto].
Qed.

Lemma reads_prompt_float message : reads (prompt_float message).
Proof. intro w. apply reads_prompt_float_loop. Qed.

Lemma reads_float_times_int rate quantity :
  reads (float_times_int rate quantity).
Proof.
  unfold float_times_int.
  destruct (Py.float_of_int quantity); [apply reads_ret|apply reads_raise].
Qed.

Lemma reads_record_exists table key_field v :
  reads (record_exists table key_field v).
Proof.
  apply reads_bind; [apply reads_query|]. intro. apply reads_ret.
Qed.

Lemma reads_choose_from_table table id_field label_field :
  reads (choose_from_table table id_field label_field).
Proof.
  apply reads_bind; [apply reads_query|]. intros [|r rows].
  - apply reads_bind; [apply reads_print|]. intro; apply reads_ret.
  - apply reads_bind; [apply reads_for_each; intro; apply reads_print|].
    intros _. apply reads_bind; [apply reads_input|]. intro line.
    destruct (Py.int line).
    + apply reads_bind; [apply reads_record_exists|].
      intros []; [apply reads_ret|].
      apply reads_bind; [apply reads_print|]. intro; apply reads_ret.
    + apply reads_bind; [apply reads_print|]. intro; apply reads_ret.
Qed.

Ltac reads_step :=
  first
    [ apply reads_ret | apply reads_raise | apply reads_print
    | apply reads_print_row | apply reads_input | apply reads_query
    | apply reads_execute | apply reads_prompt | apply reads_prompt_int
    | apply reads_prompt_float | apply reads_float_times_int
    | apply reads_record_exists | apply reads_choose_from_table
    | apply reads_for_each | apply reads_bind ].

Ltac reads_auto :=
  repeat (reads_step
          || match goal with
             | |- forall _, reads _ => intro
             | |- reads (match ?x with _ => _ end) => destruct x
             | |- reads (if ?x then _ else _) => destruct x
             end).

Lemma reads_add_hire : reads add_hire.
Proof. unfold add_hire, add_hire_supplier, add_hire_record. reads_auto. Qed.

Lemma reads_update_hire_status : reads update_hire_status.
Proof. unfold update_hire_status. reads_auto. Qed.

Lemma reads_list_hires : reads list_hires.
Proof. unfold list_hires. reads_auto. Qed.

Lemma reads_search_hires : reads search_hires.
Proof. unfold search_hires. reads_auto. Qed.

Lemma reads_create_invoice_from_hire : reads create_invoice_from_hire.
Proof. unfold create_invoice_from_hire, generate_invoice_no. reads_auto. Qed.

Lemma reads_update_invoice_status : reads update_invoice_status.
Proof. unfold update_invoice_status. reads_auto. Qed.

Lemma reads_list_invoices : reads list_invoices.
Proof. unfold list_invoices. reads_auto. Qed.

Lemma reads_search_invoices : reads search_invoices.
Proof. unfold search_invoices. reads_auto. Qed.

Lemma reads_add_supplier_payment : reads add_supplier_payment.
Proof. unfold add_supplier_payment. reads_auto. Qed.

Lemma reads_update_supplier_payment_status :
  reads update_supplier_payment_status.
Proof. unfold update_supplier_payment_status. reads_auto. Qed.

Lemma reads_list_supplier_payments : reads list_supplier_payments.
Proof. unfold list_supplier_payments. reads_auto. Qed.

Lemma reads_search_supplier_payments : reads search_supplier_payments.
Proof. unfold search_supplier_payments. reads_auto. Qed.

(** ** The menu loop *)

Definition options_read (options : list (string * M unit)) : Prop :=
  forall key func, In (key, func) options -> reads func.

Lemma lookup_option_in choice options func :
  lookup_option choice options = Some func -> In (choice, func) options.
Proof.
  induction options as [|[key f] options IH]; simpl; [discriminate|].
  destruct (String.eqb key choice) eqn:E.
  - apply String.eqb_eq in E. subst key. intro H. inversion H. now left.
  - intro H. right. auto.
Qed.

(** One turn of the loop. *)
Lemma menu_loop_step fuel text options d lines out :
  menu_loop (S fuel) text options (mkworld d lines out)
  = match lines with
    | [] =>
        Raised EOFError
          (mkworld d [] (out ++ [Printed [Text text]; Asked "Choose: "]))
    | choice :: rest =>
        let w := mkworld d rest
                   (out ++ [Printed [Text text]; Asked "Choose: "]) in
        if String.eqb choice "0" then Returned tt w
        else
          match lookup_option choice options with
          | Some func => (func ;; menu_loop fuel text options) w
          | None =>
              (print [Text "Invalid choice."] ;;
               menu_loop fuel text options) w
          end
    end.
Proof.
  cbn [menu_loop]. unfold bind at 1. rewrite print_eq.
  unfold bind at 1. unfold wrote. cbn [db stdin stdout].
  destruct lines as [|choice rest].
  - rewrite input_eof, <- List.app_assoc. reflexivity.
  - rewrite input_line, <- List.app_assoc. cbn [app].
    destruct (String.eqb choice "0"); [reflexivity|].
    destruct (lookup_option choice options); reflexivity.
Qed.

(** Fuel above the number of pending lines is as good as any more. *)
Lemma menu_loop_fuel text options :
  options_read options ->
  forall fuel fuel' w,
    (List.length (stdin w) < fuel)%nat -> (List.length (stdin w) < fuel')%nat ->
    menu_loop fuel text options w = menu_loop fuel' text options w.
Proof.
  intros Hopt fuel. induction fuel as [|fuel IH]; intros fuel' w H H';
    [inversion H|].
  destruct fuel' as [|fuel']; [inversion H'|].
  destruct w as [d lines out]. rewrite !menu_loop_step.
  cbn [stdin] in *.
  destruct lines as [|choice rest]; [reflexivity|].
  cbn [List.length] in *. cbv zeta.
  destruct (String.eqb choice "0"); [reflexivity|].
  destruct (lookup_option choice options) as [func|] eqn:E.
  - apply lookup_option_in in E. apply Hopt in E.
    unfold bind.
    specialize (E (mkworld d rest
                     (out ++ [Printed [Text text]; Asked "Choose: "]))).
    destruct (func _) as [[] w'|e w']; [|reflexivity].
    cbn [world_of stdin] in E. apply IH; lia.
  - unfold bind. rewrite print_eq. unfold wrote. cbn [db stdin stdout].
    apply IH; cbn [stdin]; lia.
Qed.

(** What a menu does with the choice it has read. *)
Definition menu_turn (again : M unit) (options : list (string * M unit))
  (choice : string) : M unit :=
  if String.eqb choice "0" then ret tt
  else
    match lookup_option choice options with
    | Some func => func ;; again
    | None => print [Text "Invalid choice."] ;; again
    end.

Lemma menu_choice text options d choice rest out :
  options_read options ->
  menu text options (mkworld d (choice :: rest) out)
  = menu_turn (menu text options) options choice
      (mkworld d rest (out ++ [Printed [Text text]; Asked "Choose: "])).
Proof.
  intro Hopt. unfold menu at 1. cbn [stdin List.length].
  rewrite menu_loop_step. cbv zeta. unfold menu_turn.
  destruct (String.eqb choice "0"); [reflexivity|].
  destruct (lookup_option choice options) as [func|] eqn:E.
  - apply lookup_option_in in E. apply Hopt in E.
    unfold bind.
    specialize (E (mkworld d rest
                     (out ++ [Printed [Text text]; Asked "Choose: "]))).
    destruct (func _) as [[] w'|e w']; [|reflexivity].
    cbn [world_of stdin] in E. unfold menu.
    apply menu_loop_fuel; auto; lia.
  - unfold bind. rewrite print_eq. reflexivity.
Qed.

Lemma menu_eof text options d out :
  menu text options (mkworld d [] out)
  = Raised EOFError
      (mkworld d [] (out ++ [Printed [Text text]; Asked "Choose: "])).
Proof. unfold menu. cbn [stdin List.length]. now rewrite menu_loop_step. Qed.

Lemma reads_menu_loop text options :
  options_read options ->
  forall fuel, reads (menu_loop fuel text options).
Proof.
  intros Hopt fuel. induction fuel as [|fuel IH]; cbn [menu_loop];
    [apply reads_raise|].
  apply reads_bind; [apply reads_print|]. intros _.
  apply reads_bind; [apply reads_input|]. intro choice.
  destruct (String.eqb choice "0"); [apply reads_ret|].
  destruct (lookup_option choice options) as [func|] eqn:E.
  - apply lookup_option_in in E. apply Hopt in E.
    apply reads_bind; auto.
  - apply reads_bind; [apply reads_print|auto].
Qed.

Lemma reads_menu text options : options_read options -> reads (menu text options).
Proof. intros H w. now apply reads_menu_loop. Qed.

Lemma changes_menu R `{!PreOrder R} text options :
  (forall key func, In (key, func) options -> changes R func) ->
  changes R (menu text options).
Proof.
  intros Hopt w. unfold menu. generalize (S (List.length (stdin w))).
  intro fuel. revert w.
  change (changes R (menu_loop fuel text options)).
  induction fuel as [|fuel IH]; cbn [menu_loop];
    [apply changes_raise; exact _|].
  apply changes_bind; try exact _; [apply changes_print; exact _|]. intros _.
  apply changes_bind; try exact _; [apply changes_input; exact _|].
  intro choice.
  destruct (String.eqb choice "0"); [apply changes_ret; exact _|].
  destruct (lookup_option choice options) as [func|] eqn:E.
  - apply lookup_option_in in E. apply Hopt in E.
    apply changes_bind; try exact _; auto.
  - apply changes_bind; try exact _; [apply changes_print; exact _|auto].
Qed.

Ltac each_option :=
  intros ? ? H; simpl in H;
  repeat (destruct H as [H|H]; [inversion H; subst; clear H|]);
  [..|destruct H].

Lemma hire_options_read : options_read hire_options.
Proof.
  each_option;
    [apply reads_add_hire | apply reads_update_hire_status
    | apply reads_list_hires | apply reads_search_hires].
Qed.

Lemma invoice_options_read : options_read invoice_options.
Proof.
  each_option;
    [apply reads_create_invoice_from_hire | apply reads_update_invoice_status
    | apply reads_list_invoices | apply reads_search_invoices].
Qed.

Lemma supplier_payment_options_read : options_read supplier_payment_options.
Proof.
  each_option;
    [apply reads_add_supplier_payment
    | apply reads_update_supplier_payment_status
    | apply reads_list_supplier_payments
    | apply reads_search_supplier_payments].
Qed.

(** ** The prompt loops *)

Lemma prompt_int_loop_eof fuel message default d bad out :
  Forall (not_an_int default) bad ->
  (List.length bad < fuel)%nat ->
  prompt_int_loop fuel message default (mkworld d bad out)
  = Raised EOFError
      (mkworld d []
         (out ++ retries message "Please enter a valid integer." bad)).
Proof.
  revert fuel out. induction bad as [|b bad IH]; intros fuel out Hbad Hfuel;
    (destruct fuel as [|fuel]; [inversion Hfuel|]); cbn [prompt_int_loop].
  - unfold bind. now rewrite prompt_eof.
  - inversion Hbad as [|? ? Hb Hbad']; subst.
    unfold bind at 1. rewrite prompt_line.
    unfold not_an_int in Hb. rewrite Hb.
    unfold bind at 1. rewrite print_eq. unfold wrote. cbn [db stdin stdout].
    rewrite IH; [|assumption|simpl in *; lia].
    unfold retries. cbn [flat_map]. now rewrite <- !List.app_assoc.
Qed.

Lemma prompt_float_loop_eof fuel message d bad out :
  Forall not_a_float bad ->
  (List.length bad < fuel)%nat ->
  prompt_float_loop fuel message (mkworld d bad out)
  = Raised EOFError
      (mkworld d []
         (out ++ retries message "Please enter a valid number." bad)).
Proof.
  revert fuel out. induction bad as [|b bad IH]; intros fuel out Hbad Hfuel;
    (destruct fuel as [|fuel]; [inversion Hfuel|]); cbn [prompt_float_loop].
  - unfold bind. now rewrite prompt_eof.
  - inversion Hbad as [|? ? Hb Hbad']; subst.
    unfold bind at 1. rewrite prompt_line.
    unfold not_a_float in Hb. cbn [entered]. rewrite Hb.
    unfold bind at 1. rewrite print_eq. unfold wrote. cbn [db stdin stdout].
    rewrite IH; [|assumption|simpl in *; lia].
    unfold retries. cbn [flat_map]. now rewrite <- !List.app_assoc.
Qed.

(** A sign in front of digits is not skipped. *)
Lemma strip_sign_digits l :
  l <> [] -> forallb Py.isdigit l = true ->
  Py.skip_chars ("-"%char :: l) = "-"%char :: l.
Proof.
  intros Hne Hd. unfold Py.skip_chars.
  change (Py.lskip_chars ("-"%char :: l)) with ("-"%char :: l).
  cbn [rev].
  assert (H : Py.lskip_chars (rev l ++ ["-"%char]) = rev l ++ ["-"%char]).
  { destruct (rev l) as [|c r] eqn:E.
    - apply (f_equal (@rev ascii)) in E. rewrite rev_involutive in E.
      now subst l.
    - cbn [app Py.lskip_chars].
      assert (Hc : Py.isdigit c = true).
      { apply forallb_rev in Hd. rewrite E in Hd. cbn [forallb] in Hd.
        now apply andb_prop in Hd. }
      now rewrite (not_space_not_literal c (digit_not_space c Hc)). }
  rewrite H, rev_app_distr, rev_involutive. reflexivity.
Qed.

(** [int(str(n))] is [n]. *)
Lemma int_str_of_int n : Py.int (Py.str_of_int n) = Some n.
Proof.
  destruct n as [|p|p].
  - reflexivity.
  - change (Py.str_of_int (Zpos p)) with (Py.str_of_N (Npos p)).
    rewrite <- (string_of_chars (Py.str_of_N (Npos p))).
    rewrite int_of_digits.
    + now rewrite str_of_N_value.
    + apply str_of_N_nonempty.
    + apply str_of_N_digits.
  - unfold Py.str_of_int, Py.int.
    change (list_ascii_of_string ("-" ++ Py.str_of_N (Npos p))%string)
      with ("-"%char :: Py.chars (Py.str_of_N (Npos p))).
    rewrite strip_sign_digits
      by (apply str_of_N_nonempty || apply str_of_N_digits).
    cbn [Py.take_sign Ascii.eqb Bool.eqb].
    rewrite drop_underscores_digits by apply str_of_N_digits.
    unfold Py.all_digits.
    pose proof (str_of_N_nonempty (Npos p)) as Hne.
    destruct (Py.chars (Py.str_of_N (Npos p))) as [|c l] eqn:E;
      [congruence|].
    rewrite <- E, str_of_N_digits, str_of_N_value. reflexivity.
Qed.

(** X1. [prompt_int] asks again after every line that is not an integer,
    with one complaint per such line, and returns the first integer typed,
    leaving the lines after it unread. An empty line stands for the
    default when there is one, whatever integer the default is. When the
    input ends before an integer was typed, EOFError escapes. *)
Theorem prompt_int_asks_until_an_integer :
  forall message default d bad out,
    Forall (not_an_int default) bad ->
    let asked :=
      out ++ retries message "Please enter a valid integer." bad in
    (forall good n rest,
        Py.int (entered (option_map Py.str_of_int default) good) = Some n ->
        prompt_int message default (mkworld d (bad ++ good :: rest) out)
        = Returned n (mkworld d rest asked))
    /\ (forall n rest,
           default = Some n ->
           prompt_int message default (mkworld d (bad ++ "" :: rest) out)
           = Returned n (mkworld d rest asked))
    /\ prompt_int message default (mkworld d bad out)
       = Raised EOFError (mkworld d [] asked).
Proof.
  intros message default d bad out Hbad asked. split; [|split].
  - intros good n rest Hgood. now apply prompt_int_accepts.
  - intros n rest ->. apply prompt_int_accepts; [assumption|].
    cbn [option_map entered String.eqb]. apply int_str_of_int.
  - unfold prompt_int. cbn [stdin]. apply prompt_int_loop_eof; auto.
Qed.

Lemma two_bad_integers : Forall (not_an_int (Some (-12))) ["x"; "2.5"].
Proof. repeat constructor. Qed.

Lemma prompt_int_asks_until_an_integer_witness :
  let asked :=
    retries "Quantity" "Please enter a valid integer." ["x"; "2.5"] in
  prompt_int "Quantity" (Some (-12))
    (console sample_db ["x"; "2.5"; " 7 "; "next"])
  = Returned 7 (mkworld sample_db ["next"] asked)
  /\ prompt_int "Quantity" (Some (-12))
       (console sample_db ["x"; "2.5"; ""; "next"])
     = Returned (-12) (mkworld sample_db ["next"] asked)
  /\ prompt_int "Quantity" (Some (-12)) (console sample_db ["x"; "2.5"])
     = Raised EOFError (mkworld sample_db [] asked).
Proof.
  intro asked.
  destruct (prompt_int_asks_until_an_integer "Quantity" (Some (-12))
              sample_db ["x"; "2.5"] [] two_bad_integers)
    as (Hgood & Hdefault & Heof).
  split; [|split].
  - exact (Hgood " 7 " 7 ["next"] eq_refl).
  - exact (Hdefault (-12) ["next"] eq_refl).
  - exact Heof.
Defined.

(** X2. [prompt_float] asks again after every line that is not a number,
    with one complaint per such line, and returns the first number typed;
    when the input ends before that, EOFError escapes. *)
Theorem prompt_float_asks_until_a_number :
  forall message d bad out,
    Forall not_a_float bad ->
    let asked := out ++ retries message "Please enter a valid number." bad in
    (forall good x rest,
        Py.float_of_str (Py.strip good) = Some x ->
        prompt_float message (mkworld d (bad ++ good :: rest) out)
        = Returned x (mkworld d rest asked))
    /\ prompt_float message (mkworld d bad out)
       = Raised EOFError (mkworld d [] asked).
Proof.
  intros message d bad out Hbad asked. split.
  - intros good x rest Hgood. now apply prompt_float_accepts.
  - unfold prompt_float. cbn [stdin]. apply prompt_float_loop_eof; auto.
Qed.

Lemma two_bad_numbers : Forall not_a_float ["abc"; "1,5"].
Proof. repeat constructor. Qed.

Lemma prompt_float_asks_until_a_number_witness :
  let asked := retries "Rate" "Please enter a valid number." ["abc"; "1,5"] in
  prompt_float "Rate" (console sample_db ["abc"; "1,5"; " 150.00"; "next"])
  = Returned f150 (mkworld sample_db ["next"] asked)
  /\ prompt_float "Rate" (console sample_db ["abc"; "1,5"])
     = Raised EOFError (mkworld sample_db [] asked).
Proof.
  intro asked.
  destruct (prompt_float_asks_until_a_number "Rate" sample_db ["abc"; "1,5"]
              [] two_bad_numbers) as (Hgood & Heof).
  split; [|exact Heof].
  apply (Hgood " 150.00" f150 ["next"]). vm_compute. reflexivity.
Defined.

(** ** Choosing from a table *)

(** X3. [choose_from_table] never changes the database, whether it
    returns an id, returns without one or ends in an exception. When it
    returns an id, that id is the integer read from the one line it
    consumed and it is the id of a row of the table. *)
Theorem choose_from_table_returns_a_listed_id :
  forall table id_field label_field w,
    db (world_of (choose_from_table table id_field label_field w)) = db w
    /\ forall rows c w',
         table_rows (db w) table = Some rows ->
         has_column table id_field = true ->
         has_column table label_field = true ->
         choose_from_table table id_field label_field w
         = Returned (Some c) w' ->
         In (Int c) (map (field id_field) rows)
         /\ exists line, stdin w = line :: stdin w' /\ Py.int line = Some c.
Proof.
  intros table id_field label_field w. split.
  { symmetry. exact (changes_choose_from_table eq table id_field label_field w). }
  intros rows c w' Hrows Hid Hlabel E.
  destruct (choose_from_table_returned table id_field label_field rows w c w'
              Hrows Hid Hlabel E) as (Hk & Hfit & Hdb).
  split.
  - unfold known_id in Hk. rewrite Hrows in Hk.
    apply existsb_exists in Hk as (r & Hin & Hr).
    apply in_map_iff. exists r. split; [|exact Hin].
    destruct (field id_field r); try discriminate Hr.
    cbn [Sql.eqb] in Hr. apply Z.eqb_eq in Hr. now subst.
  - destruct w as [d lines out]. cbn [db stdin] in *.
    destruct rows as [|r0 rows'].
    { rewrite (choose_from_empty table id_field label_field d [])
        in E by auto. discriminate E. }
    destruct lines as [|line rest].
    { unfold choose_from_table, bind at 1, db_query in E. cbn [db] in E.
      rewrite (select_id_label_eq table id_field label_field d (r0 :: rows'))
        in E by auto.
      cbn [map] in E. unfold bind at 1 in E. rewrite for_each_print in E.
      unfold bind at 1, wrote in E. cbn [db stdin stdout] in E.
      rewrite input_eof in E. discriminate E. }
    rewrite (choose_from_table_asks table id_field label_field d (r0 :: rows'))
      in E by (auto; discriminate).
    destruct (Py.int line) as [choice|] eqn:Hline; [|discriminate E].
    destruct (fits_int64 choice); [|discriminate E].
    destruct (known_id table id_field d choice); [|discriminate E].
    inversion E. subst. cbn [stdin]. now exists line.
Qed.

(** The driver 1 is chosen with spaces around the number; an id beyond
    the 64-bit integers ends in OverflowError, the store being as it was. *)
Lemma choose_from_table_returns_a_listed_id_witness :
  (exists w',
     choose_from_table "tblDriver" "DriverID" "Name"
       (console sample_db [" 1 "; "next"])
     = Returned (Some 1) w'
     /\ In (Int 1) (map (field "DriverID")
                      (map Driver.cols (tblDriver sample_db)))
     /\ db w' = sample_db
     /\ exists line, [" 1 "; "next"] = line :: stdin w'
                     /\ Py.int line = Some 1)
  /\ exists w',
       choose_from_table "tblDriver" "DriverID" "Name"
         (console sample_db ["9223372036854775808"])
       = Raised OverflowError w'
       /\ db w' = sample_db.
Proof.
  split.
  - eexists. split; [reflexivity|].
    destruct (choose_from_table_returns_a_listed_id "tblDriver" "DriverID"
                "Name" (console sample_db [" 1 "; "next"])) as [Hdb H].
    destruct (H (map Driver.cols (tblDriver sample_db)) 1 _
                eq_refl eq_refl eq_refl eq_refl) as [Hin Hline].
    split; [exact Hin|]. split; [exact Hdb|exact Hline].
  - eexists. split; [reflexivity|].
    exact (proj1 (choose_from_table_returns_a_listed_id "tblDriver"
                    "DriverID" "Name"
                    (console sample_db ["9223372036854775808"]))).
Defined.

(** ** Creating a hire: what is turned down, and a blank quantity *)

Lemma add_hire_fleet_not_found d line rest out :
  fleet_of d (Py.strip line) = None ->
  add_hire (mkworld d (line :: rest) out)
  = Returned tt
      (mkworld d rest
         (out ++ [Asked "Fleet ID: "; Printed [Text "Fleet not found."]])).
Proof.
  intro Hf. unfold add_hire.
  unfold bind at 1. rewrite prompt_line. cbn [entered].
  unfold bind at 1. rewrite record_exists_fleet. cbn [db]. rewrite Hf.
  cbn [negb]. rewrite print_eq. unfold wrote. cbn [db stdin stdout].
  now rewrite <- List.app_assoc.
Qed.

(** X4. When no fleet carries the id typed, compared character for
    character after stripping, [add_hire] says so and returns: nothing
    else is asked, the lines after the id stay unread and the store is as
    before. *)
Theorem add_hire_unknown_fleet :
  forall d line rest out,
    ~ In (Py.strip line) (map Fleet.FleetID (tblFleet d)) ->
    add_hire (mkworld d (line :: rest) out)
    = Returned tt
        (mkworld d rest
           (out ++ [Asked "Fleet ID: "; Printed [Text "Fleet not found."]])).
Proof.
  intros d line rest out Hnot. apply add_hire_fleet_not_found.
  unfold fleet_of. destruct (find _ (tblFleet d)) as [f|] eqn:E;
    [|reflexivity].
  apply find_some in E as [Hin Hid]. apply String.eqb_eq in Hid.
  exfalso. apply Hnot. rewrite <- Hid. now apply in_map.
Qed.

(** The store has the fleets F1 and F2; the id f1 is neither. *)
Lemma add_hire_unknown_fleet_witness :
  map Fleet.FleetID (tblFleet sample_db) = ["F1"; "F2"]
  /\ add_hire (console sample_db ["f1"; "1"; "1"])
     = Returned tt
         (mkworld sample_db ["1"; "1"]
            [Asked "Fleet ID: "; Printed [Text "Fleet not found."]]).
Proof.
  split; [reflexivity|].
  apply (add_hire_unknown_fleet sample_db "f1" ["1"; "1"] []).
  cbn. intros [H|[H|[]]]; discriminate H.
Defined.

(** X5. For a fleet that is not Rented-in, a supplier text that is
    neither blank nor an integer ends [add_hire] with the message Invalid
    supplier ID.: the terms are not asked for and no hire is stored. *)
Theorem add_hire_supplier_not_an_integer :
  forall d fleet_line driver_line customer_line supplier_line rest out f
         driver customer,
    fleet_of d (Py.strip fleet_line) = Some f ->
    requires_supplier d (Py.strip fleet_line) = false ->
    names (map Driver.DriverID (tblDriver d)) driver_line driver ->
    names (map Customer.CustomerID (tblCustomer d)) customer_line customer ->
    Py.strip supplier_line <> "" ->
    Py.int (Py.strip supplier_line) = None ->
    exists out',
      add_hire
        (mkworld d
           (fleet_line :: driver_line :: customer_line :: supplier_line
              :: rest) out)
      = Returned tt
          (mkworld d rest
             (out' ++ [Asked "Enter Supplier ID (optional): ";
                       Printed [Text "Invalid supplier ID."]])).
Proof.
  intros d fleet_line driver_line customer_line supplier_line rest out f
    driver customer Hf Hreq Hd Hc Hne Hbad.
  destruct (add_hire_fleet_driver_customer d fleet_line driver_line
              customer_line (supplier_line :: rest) out f driver customer
              Hf Hd Hc) as [out' ->].
  exists out'. unfold bind at 1. rewrite add_hire_supplier_query. cbn [db].
  rewrite Hreq. unfold bind at 1. rewrite prompt_line. cbn [entered].
  apply String.eqb_neq in Hne. rewrite Hne, Hbad.
  unfold bind. rewrite print_eq. unfold wrote, ret. cbn [db stdin stdout].
  now rewrite <- List.app_assoc.
Qed.

Lemma add_hire_supplier_not_an_integer_witness :
  exists out',
    add_hire (console sample_db ["F2"; "1"; "1"; "Acme"; "Daily"])
    = Returned tt
        (mkworld sample_db ["Daily"]
           (out' ++ [Asked "Enter Supplier ID (optional): ";
                     Printed [Text "Invalid supplier ID."]])).
Proof.
  apply (add_hire_supplier_not_an_integer sample_db "F2" "1" "1" "Acme"
           ["Daily"] []
           (Fleet.mk "F2" (Some "S-2") (Some "Truck") (Some "Owned") None
              (Some "Active")) 1 1).
  - reflexivity.
  - reflexivity.
  - repeat split; try reflexivity. now left.
  - repeat split; try reflexivity. now left.
  - discriminate.
  - reflexivity.
Defined.

Definition one : Py.float := S754_finite false 4503599627370496 (-52).

Lemma float_of_int_one : Py.float_of_int 1 = Some one.
Proof. vm_compute. reflexivity. Qed.

(** Multiplying a float by 1.0 gives the float back. *)
Lemma fmul_one r :
  Py.is_nan r = false ->
  valid_binary Py.prec Py.emax r = true ->
  Py.fmul r one = r.
Proof.
  destruct r as [s|s| |s m e]; cbn [Py.is_nan valid_binary]; intros Hn Hv.
  - now destruct s.
  - now destruct s.
  - discriminate Hn.
  - destruct (float_product_exact s m e 1 m 0) as (qf & Hq & Hmul).
    + cbn. lia.
    + cbn [Z.abs Z.of_N]. lia.
    + now rewrite Z.add_0_r.
    + rewrite float_of_int_one in Hq. inversion Hq. subst qf.
      rewrite Hmul. cbn [Z.of_N]. rewrite Z.add_0_r.
      now destruct s.
Qed.

(** X6. An empty line at the quantity prompt stands for the default 1:
    the hire is stored with quantity 1 and with a total equal to the rate,
    for every rate that is a binary64 number other than NaN. Both are the
    rate typed as its REAL column gives it back, a negative zero as
    zero. *)
Theorem blank_quantity_is_one :
  forall d lines fleet driver customer supplier ht sd ed bad_rates rl r rest
         out,
    references_pass d lines fleet driver customer supplier
      (ht :: sd :: ed :: bad_rates ++ rl :: "" :: rest) ->
    Forall not_a_float bad_rates ->
    Py.float_of_str (Py.strip rl) = Some r ->
    hire_type_ok (Py.strip ht) = true ->
    opt_fits_int64 supplier = true ->
    Py.is_nan r = false ->
    valid_binary Py.prec Py.emax r = true ->
    exists w' h,
      add_hire (mkworld d lines out) = Returned tt w'
      /\ tblHire (db w') = tblHire d ++ [h]
      /\ Hire.Quantity h = 1
      /\ Hire.Rate h = real_column r
      /\ Hire.TotalAmount h = Hire.Rate h.
Proof.
  intros d lines fleet driver customer supplier ht sd ed bad_rates rl r rest
    out Hr Hbad Hrate Hok Hs Hnan Hv.
  pose (t := mkterms (Py.strip ht) (Py.strip sd)
               (if String.eqb (entered (Some "") ed) "" then None
                else Some (entered (Some "") ed)) r 1).
  assert (Ht : terms_typed (ht :: sd :: ed :: bad_rates ++ rl :: "" :: rest)
                 t rest).
  { apply (terms_lines ht sd ed bad_rates rl r [] "" 1 rest); auto. }
  destruct (add_hire_persists d lines fleet driver customer supplier _ t rest
              out Hr Ht Hok Hs eq_refl Hnan) as (q & Hq & H).
  cbn [typed_quantity t] in Hq. rewrite float_of_int_one in Hq.
  inversion Hq. subst q. cbn [typed_rate t] in H.
  rewrite (fmul_one r Hnan Hv) in H.
  destruct (H Hnan) as (w' & E & Hdb).
  exists w', (hire_record d fleet driver customer supplier t r).
  split; [exact E|]. rewrite Hdb. repeat split.
Qed.

Lemma blank_quantity_is_one_witness :
  exists w' h,
    add_hire
      (console sample_db
         ["F1"; "1"; "1"; "1"; "Daily"; "2024-01-01"; ""; "150.00"; ""])
    = Returned tt w'
    /\ tblHire (db w') = [] ++ [h]
    /\ Hire.Quantity h = 1
    /\ Hire.Rate h = f150
    /\ Hire.TotalAmount h = Hire.Rate h.
Proof.
  apply (blank_quantity_is_one sample_db
           ["F1"; "1"; "1"; "1"; "Daily"; "2024-01-01"; ""; "150.00"; ""]
           "F1" 1 1 (Some 1) "Daily" "2024-01-01" "" [] "150.00" f150 [] []).
  - apply sample_references_rented.
  - constructor.
  - vm_compute. reflexivity.
  - reflexivity.
  - reflexivity.
  - reflexivity.
  - reflexivity.
Defined.

(** ** Updating the status of a hire *)

Lemma record_exists_hire hire_id w :
  fits_int64 hire_id = true ->
  record_exists "tblHire" "HireID" (Int hire_id) w
  = Returned (existsb (fun h => Hire.HireID h =? hire_id) (tblHire (db w))) w.
Proof.
  intro Hf.
  rewrite (record_exists_int "tblHire" "HireID" (map Hire.cols (tblHire (db w))))
    by (reflexivity || assumption).
  unfold known_id. cbn [table_rows String.eqb Ascii.eqb Bool.eqb].
  now rewrite existsb_map.
Qed.

Lemma update_hire_status_run d bad good hire_id line rest out :
  Forall (not_an_int None) bad ->
  Py.int (Py.strip good) = Some hire_id ->
  fits_int64 hire_id = true ->
  let out' := out ++ retries "Hire ID" "Please enter a valid integer." bad in
  update_hire_status (mkworld d (bad ++ good :: line :: rest) out)
  = if existsb (fun h => Hire.HireID h =? hire_id) (tblHire d)
    then
      Returned tt
        (mkworld
           (set_tblHire
              (map (fun h => if Hire.HireID h =? hire_id
                             then Hire.set_Status (Some (Py.strip line)) h
                             else h) (tblHire d)) d)
           rest
           (out' ++ [Asked "New Status (Open/Completed/Cancelled): ";
                     Printed [Text "Hire status updated."]]))
    else
      Returned tt
        (mkworld d (line :: rest)
           (out' ++ [Printed [Text "Hire not found."]])).
Proof.
  intros Hbad Hgood Hfit out'.
  unfold update_hire_status.
  rewrite (bind_returned _ _ _ _ _
             (prompt_int_accepts "Hire ID" None d bad good hire_id
                (line :: rest) out Hbad Hgood)).
  rewrite (bind_returned _ _ _ _ _ (record_exists_hire hire_id _ Hfit)).
  cbn [db]. fold out'.
  destruct (existsb _ (tblHire d)); cbn [negb].
  - rewrite (bind_returned _ _ _ _ _ (prompt_line _ None d line rest out')).
    unfold bind, db_execute, update_status_of_hire. cbn [db stdin stdout entered].
    rewrite Hfit. rewrite print_eq. unfold wrote. cbn [db stdin stdout].
    now rewrite <- List.app_assoc.
  - now rewrite print_eq.
Qed.

Lemma update_hire_status_overflow d bad good hire_id lines out :
  Forall (not_an_int None) bad ->
  Py.int (Py.strip good) = Some hire_id ->
  fits_int64 hire_id = false ->
  update_hire_status (mkworld d (bad ++ good :: lines) out)
  = Raised OverflowError
      (mkworld d lines
         (out ++ retries "Hire ID" "Please enter a valid integer." bad)).
Proof.
  intros Hbad Hgood Hfit. unfold update_hire_status.
  rewrite (bind_returned _ _ _ _ _
             (prompt_int_accepts "Hire ID" None d bad good hire_id lines out
                Hbad Hgood)).
  apply bind_raised.
  now apply (record_exists_overflow "tblHire" "HireID"
               (map Hire.cols (tblHire d))).
Qed.

(** X7. [update_hire_status] stores the text typed, stripped, as the
    status of the hire with the id given and touches no other column and
    no other hire. No status is turned down: a text other than Open,
    Completed and Cancelled is stored like them, and a hire that is
    Completed or Cancelled takes a new status like an Open one. For an id
    within the signed 64-bit integers that no hire carries the function
    says Hire not found. and leaves the status line unread. For an id
    beyond them the lookup ends in OverflowError, which escapes: nothing
    is said, the status line is unread and the store is as before. *)
Theorem update_hire_status_stores_any_status :
  forall d bad good hire_id line rest out,
    Forall (not_an_int None) bad ->
    Py.int (Py.strip good) = Some hire_id ->
    let run :=
      update_hire_status (mkworld d (bad ++ good :: line :: rest) out) in
    (fits_int64 hire_id = true ->
     exists w',
       run = Returned tt w'
       /\ (In hire_id (map Hire.HireID (tblHire d)) ->
           stdin w' = rest
           /\ db w'
              = set_tblHire
                  (map (fun h => if Hire.HireID h =? hire_id
                                 then Hire.set_Status (Some (Py.strip line)) h
                                 else h) (tblHire d)) d)
       /\ (~ In hire_id (map Hire.HireID (tblHire d)) ->
           stdin w' = line :: rest
           /\ db w' = d
           /\ gave_up_with ["Hire not found."] w'))
    /\ (fits_int64 hire_id = false ->
        run = Raised OverflowError
                (mkworld d (line :: rest)
                   (out ++ retries "Hire ID" "Please enter a valid integer."
                             bad))).
Proof.
  intros d bad good hire_id line rest out Hbad Hgood run. subst run. split.
  - intro Hfit.
    rewrite (update_hire_status_run d bad good hire_id line rest out)
      by assumption.
    cbv zeta.
    destruct (existsb _ (tblHire d)) eqn:E.
    + apply existsb_ids in E. eexists. split; [reflexivity|]. split.
      * intros _. split; reflexivity.
      * intro Hnot. contradiction.
    + eexists. split; [reflexivity|]. split.
      * intro Hin. apply existsb_ids in Hin. congruence.
      * intros _. split; [reflexivity|]. split; [reflexivity|].
        eexists _, _. split; [reflexivity|]. now left.
  - intro Hfit. now apply (update_hire_status_overflow d bad good hire_id).
Qed.

(** The completed hire 1 of [two_hires_db] is given a status that is none
    of the three offered; no hire has the id 7; the id 2^63 cannot be
    looked up. *)
Lemma update_hire_status_stores_any_status_witness :
  (exists w',
     update_hire_status (console two_hires_db ["1"; " on hold "])
     = Returned tt w'
     /\ map Hire.Status (tblHire (db w'))
        = [Some "on hold"; Some "Completed"])
  /\ (exists w',
        update_hire_status (console two_hires_db ["7"; "Completed"])
        = Returned tt w'
        /\ db w' = two_hires_db
        /\ stdin w' = ["Completed"])
  /\ update_hire_status
       (console two_hires_db ["9223372036854775808"; "Completed"])
     = Raised OverflowError
         (mkworld two_hires_db ["Completed"] [Asked "Hire ID: "]).
Proof.
  split; [|split].
  - destruct (proj1 (update_hire_status_stores_any_status two_hires_db [] "1"
                       1 " on hold " [] [] (Forall_nil _) eq_refl) eq_refl)
      as (w' & E & Hknown & _).
    exists w'. split; [exact E|].
    destruct Hknown as [_ Hdb]; [cbn; auto|]. rewrite Hdb. reflexivity.
  - destruct (proj1 (update_hire_status_stores_any_status two_hires_db [] "7"
                       7 "Completed" [] [] (Forall_nil _) eq_refl) eq_refl)
      as (w' & E & _ & Hunknown).
    exists w'. split; [exact E|].
    destruct Hunknown as (Hin & Hdb & _).
    + cbn. intros [H|[H|[]]]; discriminate H.
    + now split.
  - exact (proj2 (update_hire_status_stores_any_status two_hires_db []
                    "9223372036854775808" (2 ^ 63) "Completed" [] []
                    (Forall_nil _) eq_refl) eq_refl).
Defined.

(** ** ORDER BY *)

Lemma insert_by_perm {K A} (ltb : K -> K -> bool) (key : A -> K) x l :
  Permutation (insert_by ltb key x l) (x :: l).
Proof.
  induction l as [|y l IH]; cbn [insert_by]; [reflexivity|].
  destruct (ltb (key y) (key x)); [|reflexivity].
  rewrite IH. apply perm_swap.
Qed.

Lemma order_by_perm {K A} (ltb : K -> K -> bool) (key : A -> K) l :
  Permutation (order_by ltb key l) l.
Proof.
  induction l as [|x l IH]; cbn [order_by]; [reflexivity|].
  rewrite insert_by_perm. now constructor.
Qed.

(** Every row has a key no greater than the keys of the rows after it. *)
Definition ascending {A} (key : A -> Z) : list A -> Prop :=
  StronglySorted (fun a b => key a <= key b).

Lemma insert_by_ascending {A} (key : A -> Z) x l :
  ascending key l -> ascending key (insert_by Z.ltb key x l).
Proof.
  unfold ascending. induction 1 as [|y l Hl IH Hy]; cbn [insert_by].
  - repeat constructor.
  - destruct (key y <? key x) eqn:E.
    + apply Z.ltb_lt in E. constructor; [exact IH|].
      apply Forall_forall. intros z Hz.
      apply (Permutation_in _ (insert_by_perm Z.ltb key x l)) in Hz.
      destruct Hz as [<-|Hz]; [lia|].
      rewrite Forall_forall in Hy. now apply Hy.
    + apply Z.ltb_ge in E. constructor; [now constructor|].
      constructor; [exact E|].
      apply Forall_forall. intros z Hz. rewrite Forall_forall in Hy.
      specialize (Hy z Hz). lia.
Qed.

Lemma order_by_ascending {A} (key : A -> Z) l :
  ascending key (order_by Z.ltb key l).
Proof.
  induction l as [|x l IH]; cbn [order_by]; [constructor|].
  now apply insert_by_ascending.
Qed.

(** ** Listings *)

(** What a listing writes: the rows, or the message for none. *)
Definition rows_listed (rows : list sqlite_row) (nothing : string)
  : list output :=
  map PrintedRow rows
  ++ match rows with
     | [] => [Printed [Text nothing]]
     | _ :: _ => []
     end.

Lemma for_each_print_rows rows w :
  for_each rows print_row w = Returned tt (wrote w (map PrintedRow rows)).
Proof. exact (for_each_print_row rows (fun r => r) w). Qed.

Lemma listing_run (q : database -> sqlresult (list sqlite_row)) rows
  (nothing : string) d lines out :
  q d = inr rows ->
  (rows <- db_query q ;;
   for_each rows print_row ;;
   match rows with
   | [] => print [Text nothing]
   | _ :: _ => ret tt
   end) (mkworld d lines out)
  = Returned tt (mkworld d lines (out ++ rows_listed rows nothing)).
Proof.
  intro E. unfold bind at 1, db_query. cbn [db]. rewrite E.
  unfold bind. rewrite for_each_print_rows. unfold wrote, rows_listed.
  cbn [db stdin stdout].
  destruct rows as [|r rows].
  - rewrite print_eq. unfold wrote. cbn [db stdin stdout map app].
    now rewrite List.app_nil_r.
  - unfold ret. now rewrite List.app_nil_r.
Qed.

Lemma typed_listing_run {A} (q : database -> sqlresult (list A))
  (cols : A -> sqlite_row) rows (nothing : string) d lines out :
  q d = inr rows ->
  (rows <- db_query q ;;
   for_each rows (fun row => print_row (cols row)) ;;
   match rows with
   | [] => print [Text nothing]
   | _ :: _ => ret tt
   end) (mkworld d lines out)
  = Returned tt
      (mkworld d lines (out ++ rows_listed (map cols rows) nothing)).
Proof.
  intro E. unfold bind at 1, db_query. cbn [db]. rewrite E.
  unfold bind. rewrite for_each_print_row. unfold wrote, rows_listed.
  cbn [db stdin stdout]. rewrite map_map.
  destruct rows as [|r rows].
  - rewrite print_eq. unfold wrote. cbn [db stdin stdout map app].
    now rewrite List.app_nil_r.
  - unfold ret. cbn [map]. now rewrite List.app_nil_r.
Qed.

Lemma filter_none {A} (p : A -> bool) l :
  (forall x, In x l -> p x = false) -> filter p l = [].
Proof.
  induction l as [|x l IH]; [reflexivity|]. intro H. cbn [filter].
  rewrite (H x) by now left. apply IH. intros y Hy. apply H. now right.
Qed.

Lemma filter_all {A} (p : A -> bool) l :
  (forall x, p x = true) -> filter p l = l.
Proof.
  intro H. induction l as [|x l IH]; [reflexivity|].
  cbn [filter]. now rewrite H, IH.
Qed.

Lemma filter_filter_out {A} (p q : A -> bool) l :
  (forall x, p x = true -> q x = true) ->
  filter p (filter q l) = filter p l.
Proof.
  intro H. induction l as [|x l IH]; [reflexivity|]. cbn [filter].
  destruct (q x) eqn:Eq; cbn [filter].
  - now rewrite IH.
  - destruct (p x) eqn:Ep; [|exact IH].
    apply H in Ep. congruence.
Qed.

(** The rows that the join of [list_hires] gives for some hires. *)
Definition hires_joined (d : database) (hires : list Hire.row)
  : list sqlite_row :=
  flat_map (fun h => map (hire_with_customer h)
                       (customers_with d (Hire.CustomerID h))) hires.

Lemma customers_with_none d customer_id :
  ~ In customer_id (map Customer.CustomerID (tblCustomer d)) ->
  customers_with d customer_id = [].
Proof.
  unfold customers_with. intro H. apply filter_none. intros c Hc.
  apply Z.eqb_neq. intro E. apply H. rewrite <- E. now apply in_map.
Qed.

(** X8. [list_hires] prints the hires by ascending id, each with the name
    of its customer, and changes nothing. A hire whose customer id has no
    row in tblCustomer gives no row: it is left out of the listing without
    a word. *)
Theorem list_hires_joins_the_customers :
  forall d lines out,
    exists hires,
      Permutation hires (tblHire d)
      /\ ascending Hire.HireID hires
      /\ list_hires (mkworld d lines out)
         = Returned tt
             (mkworld d lines
                (out ++ rows_listed (hires_joined d hires) "No hires found."))
      /\ forall h,
           ~ In (Hire.CustomerID h)
               (map Customer.CustomerID (tblCustomer d)) ->
           hires_joined d [h] = [].
Proof.
  intros d lines out. exists (order_by Z.ltb Hire.HireID (tblHire d)).
  split; [apply order_by_perm|]. split; [apply order_by_ascending|].
  split.
  - unfold list_hires. now apply listing_run.
  - intros h Hh. unfold hires_joined. cbn [flat_map].
    now rewrite customers_with_none.
Qed.

(** A hire of customer 9, whom the sample store does not know. *)
Definition orphan_hire : Hire.row :=
  Hire.mk 3 "F1" 1 9 (Some 1) (Some "Daily") "2024-01-01" None f500 1 f500
    (Some "Open").

Lemma list_hires_joins_the_customers_witness :
  exists hires,
    Permutation hires (tblHire two_hires_db)
    /\ list_hires (console two_hires_db [])
       = Returned tt
           (mkworld two_hires_db []
              ([] ++ rows_listed (hires_joined two_hires_db hires)
                       "No hires found."))
    /\ hires_joined two_hires_db [orphan_hire] = [].
Proof.
  destruct (list_hires_joins_the_customers two_hires_db [] [])
    as (hires & Hp & _ & E & Hnone).
  exists hires. split; [exact Hp|]. split; [exact E|].
  apply Hnone. cbn. intros [H|[]]. discriminate H.
Defined.

(** ** Searching hires with a blank filter *)

Lemma like_anything s : Sql.like s "%%" = true.
Proof.
  unfold Sql.like.
  change (until_nul (list_ascii_of_string "%%")) with ["%"%char; "%"%char].
  generalize (until_nul (list_ascii_of_string s)). intro l.
  rewrite like_percent, like_trailing_percent. reflexivity.
Qed.

Definition has_status (h : Hire.row) : bool :=
  match Hire.Status h with Some _ => true | None => false end.

(** X9. A filter line that is empty or all white space makes
    [search_hires] list every hire whose status is not NULL, in table
    order. *)
Theorem search_hires_blank_filter :
  forall d line rest out,
    Py.strip line = "" ->
    search_hires (mkworld d (line :: rest) out)
    = Returned tt
        (mkworld d rest
           (out ++ Asked "Filter by Status: "
                :: search_output (filter has_status (tblHire d)))).
Proof.
  intros d line rest out Hblank. rewrite search_hires_line, Hblank.
  unfold hires_like. do 5 f_equal. apply filter_ext. intro h.
  change ("%" ++ "" ++ "%")%string with "%%".
  unfold has_status, like_opt. destruct (Hire.Status h); [|reflexivity].
  apply like_anything.
Qed.

Lemma search_hires_blank_filter_witness :
  Py.strip "  " = ""
  /\ search_hires (console two_hires_db ["  "])
     = Returned tt
         (mkworld two_hires_db []
            ([] ++ Asked "Filter by Status: "
                :: search_output (filter has_status (tblHire two_hires_db)))).
Proof.
  split; [reflexivity|].
  exact (search_hires_blank_filter two_hires_db "  " [] [] eq_refl).
Defined.

(** ** The number of the next invoice *)

Definition no_hyphen (l : list ascii) : bool :=
  forallb (fun c => negb (Ascii.eqb c "-")) l.

Lemma split_chars_pieces sep l :
  Forall (fun piece => forallb (fun c => negb (Ascii.eqb c sep)) piece = true)
    (Py.split_chars sep l).
Proof.
  induction l as [|c l IH]; cbn [Py.split_chars].
  - constructor; [reflexivity|constructor].
  - destruct (Ascii.eqb c sep) eqn:E.
    + constructor; [reflexivity|exact IH].
    + destruct (Py.split_chars sep l) as [|piece pieces].
      * constructor; [|constructor]. cbn [forallb]. now rewrite E.
      * inversion IH as [|? ? Hp Hps]; subst.
        constructor; [|exact Hps]. cbn [forallb]. now rewrite E, Hp.
Qed.

Lemma last_piece_no_hyphen s :
  no_hyphen (Py.chars (Py.last_piece (Py.split "-" s))) = true.
Proof.
  unfold Py.last_piece, Py.split.
  pose proof (split_chars_pieces "-" (list_ascii_of_string s)) as H.
  induction H as [|piece pieces Hp Hps IH]; [reflexivity|].
  cbn [map last].
  destruct pieces as [|p' ps']; [|exact IH].
  cbn [map]. now rewrite chars_of_list.
Qed.

Lemma lstrip_forallb (p : ascii -> bool) l :
  forallb p l = true -> forallb p (Py.lskip_chars l) = true.
Proof.
  induction l as [|c l IH]; [reflexivity|]. intro H.
  cbn [Py.lskip_chars]. destruct (Py.isspace_literal c); [|exact H].
  cbn [forallb] in H. apply andb_prop in H. now apply IH.
Qed.

Lemma strip_forallb (p : ascii -> bool) l :
  forallb p l = true -> forallb p (Py.skip_chars l) = true.
Proof.
  intro H. unfold Py.skip_chars.
  apply forallb_rev, lstrip_forallb, forallb_rev, lstrip_forallb, H.
Qed.

(** A text without a hyphen is not read as a negative integer. *)
Lemma int_no_hyphen s n :
  no_hyphen (Py.chars s) = true -> Py.int s = Some n -> 0 <= n.
Proof.
  intros Hs. unfold Py.int.
  apply strip_forallb in Hs. unfold Py.chars in Hs.
  destruct (Py.skip_chars (list_ascii_of_string s)) as [|c l];
    cbn [Py.take_sign].
  - cbn. discriminate.
  - cbn [forallb] in Hs. apply andb_prop in Hs as [Hc _].
    apply negb_true_iff in Hc. rewrite Hc.
    destruct (Ascii.eqb c "+");
      (destruct (Py.drop_underscores false _) as [ds|]; [|discriminate]);
      (destruct (Py.all_digits ds); [|discriminate]);
      intro E; inversion E; lia.
Qed.

Lemma next_number_positive last : 1 <= next_number last.
Proof.
  unfold next_number, suffix_number.
  destruct (Py.int _) as [n|] eqn:E; [|lia].
  apply int_no_hyphen in E; [lia|apply last_piece_no_hyphen].
Qed.

(** X10. Whatever the invoice table holds, [generate_invoice_no] returns
    INV- followed by a number that is at least 1, raises nothing and
    changes nothing: the suffix read after the last hyphen has no sign
    left, so the next number is never zero or negative. *)
Theorem generate_invoice_no_is_positive :
  forall w,
    exists n,
      1 <= n /\ generate_invoice_no w = Returned (invoice_no_of n) w.
Proof.
  intro w. rewrite generate_invoice_no_eq. unfold next_invoice_no.
  destruct (newest_invoice _) as [r|].
  - exists (next_number (InvoiceNo r)).
    split; [apply next_number_positive|reflexivity].
  - exists 1. split; [lia|reflexivity].
Qed.

(** ** Completing a hire, then invoicing it *)

(** What [update_hire_status] does to a row when Completed is typed. *)
Definition complete (hire_id : Z) (h : Hire.row) : Hire.row :=
  if Hire.HireID h =? hire_id then Hire.set_Status (Some "Completed") h else h.

Lemma selected_after_completion l hire_id :
  selected_hire (filter is_completed (map (complete hire_id) l)) hire_id
  = option_map (Hire.set_Status (Some "Completed"))
      (find (fun h => Hire.HireID h =? hire_id) l).
Proof.
  unfold selected_hire.
  induction l as [|h l IH]; [reflexivity|]. cbn [map filter find].
  destruct (Hire.HireID h =? hire_id) eqn:E.
  - assert (Hc : complete hire_id h = Hire.set_Status (Some "Completed") h)
      by (unfold complete; now rewrite E).
    rewrite Hc. unfold is_completed at 1.
    cbn [Hire.set_Status Hire.Status String.eqb Ascii.eqb Bool.eqb find].
    change (Hire.HireID (Hire.set_Status (Some "Completed") h))
      with (Hire.HireID h).
    now rewrite E.
  - assert (Hc : complete hire_id h = h) by (unfold complete; now rewrite E).
    rewrite Hc. destruct (is_completed h); [|exact IH].
    cbn [find]. now rewrite E.
Qed.

Lemma hire_of_known d hire_id h :
  hire_of d hire_id = Some h ->
  existsb (fun h => Hire.HireID h =? hire_id) (tblHire d) = true.
Proof.
  unfold hire_of. intro H. apply find_some in H as [Hin E].
  apply existsb_exists. now exists h.
Qed.

(** X11. Setting a hire to Completed and then creating an invoice for it
    works in one go: the hire shows up among the completed hires, and the
    invoice carries the next number of the sequence, the hire's id, its
    customer and its total amount, the date typed and the status Unpaid.
    The total is read from a REAL column and stored in one, which leaves
    it as it is ([real_column_stored]). *)
Theorem completed_hire_is_invoiced :
  forall d hire_id h line1 status_line line2 date rest out,
    hire_of d hire_id = Some h ->
    in_sequence (tblCustomerInvoice d) ->
    Py.int (Py.strip line1) = Some hire_id ->
    Py.strip status_line = "Completed" ->
    Py.int (Py.strip line2) = Some hire_id ->
    fits_int64 hire_id = true ->
    fits_int64 (Hire.CustomerID h) = true ->
    Py.is_nan (Hire.TotalAmount h) = false ->
    let n := Z.of_nat (List.length (tblCustomerInvoice d)) in
    exists w',
      (update_hire_status ;; create_invoice_from_hire)
        (mkworld d (line1 :: status_line :: line2 :: date :: rest) out)
      = Returned tt w'
      /\ stdin w' = rest
      /\ tblHire (db w') = map (complete hire_id) (tblHire d)
      /\ tblCustomerInvoice (db w')
         = tblCustomerInvoice d ++
           [CustomerInvoice.mk (n + 1) (invoice_no_of (n + 1)) hire_id
              (Hire.CustomerID h) (Py.strip date)
              (real_column (Hire.TotalAmount h)) (Some "Unpaid")].
Proof.
  intros d hire_id h line1 status_line line2 date rest out Hh Hseq H1 Hst H2
    Hfit Hfc Hnan n.
  pose proof (update_hire_status_run d [] line1 hire_id status_line
                (line2 :: date :: rest) out (Forall_nil _) H1 Hfit) as E1.
  cbn [app] in E1. cbv zeta in E1.
  rewrite (hire_of_known d hire_id h Hh), Hst in E1.
  unfold bind. rewrite E1.
  match goal with
  | |- context [create_invoice_from_hire (mkworld ?d1 _ ?o)] =>
      set (d' := d1); set (out1 := o)
  end.
  assert (Hseq' : in_sequence (tblCustomerInvoice d')) by exact Hseq.
  assert (Hsel : selected_hire (completed_hires d') hire_id
                 = Some (Hire.set_Status (Some "Completed") h)).
  { unfold completed_hires, d'. cbn [tblHire set_tblHire].
    change (fun h0 => if Hire.HireID h0 =? hire_id
                      then Hire.set_Status (Some "Completed") h0 else h0)
      with (complete hire_id).
    rewrite selected_after_completion. unfold hire_of in Hh. now rewrite Hh. }
  destruct (create_invoice_creates d' [] line2 hire_id _ date rest out1
              Hseq' Hsel (Forall_nil _) H2 Hfit Hfc Hnan)
    as (w2 & E2 & Hin2 & Hdb2).
  cbn [app] in E2. exists w2. split; [exact E2|]. split; [exact Hin2|].
  rewrite Hdb2. split; [reflexivity|].
  cbn [tblCustomerInvoice set_tblCustomerInvoice d' set_tblHire].
  unfold d'. cbn [tblCustomerInvoice set_tblHire].
  replace (Z.of_nat (S (List.length (tblCustomerInvoice d)))) with (n + 1)
    by (subst n; lia).
  reflexivity.
Qed.

Lemma completed_hire_is_invoiced_witness :
  exists w',
    (update_hire_status ;; create_invoice_from_hire)
      (console one_hire_db ["1"; "Completed"; "1"; "2024-03-01"])
    = Returned tt w'
    /\ stdin w' = []
    /\ tblHire (db w') = map (complete 1) (tblHire one_hire_db)
    /\ tblCustomerInvoice (db w')
       = [] ++
         [CustomerInvoice.mk (0 + 1) (invoice_no_of (0 + 1)) 1 1
            (Py.strip "2024-03-01") f500 (Some "Unpaid")].
Proof.
  exact (completed_hire_is_invoiced one_hire_db 1 open_hire
           "1" "Completed" "1" "2024-03-01" [] [] eq_refl in_sequence_nil
           eq_refl eq_refl eq_refl eq_refl eq_refl eq_refl).
Defined.

(** ** Invoicing a hire more than once, and a number already in use *)

(** X12. Nothing keeps a completed hire from being invoiced again: two
    runs of [create_invoice_from_hire] for the same hire store two
    invoices for it, with consecutive numbers and the same customer and
    amount, the hire's total as a REAL column holds it. *)
Theorem hire_can_be_invoiced_twice :
  forall d hire_id h line1 date1 line2 date2 rest out,
    in_sequence (tblCustomerInvoice d) ->
    selected_hire (completed_hires d) hire_id = Some h ->
    Py.int (Py.strip line1) = Some hire_id ->
    Py.int (Py.strip line2) = Some hire_id ->
    fits_int64 hire_id = true ->
    fits_int64 (Hire.CustomerID h) = true ->
    Py.is_nan (Hire.TotalAmount h) = false ->
    let n := Z.of_nat (List.length (tblCustomerInvoice d)) in
    exists w',
      (create_invoice_from_hire ;; create_invoice_from_hire)
        (mkworld d (line1 :: date1 :: line2 :: date2 :: rest) out)
      = Returned tt w'
      /\ stdin w' = rest
      /\ db w'
         = set_tblCustomerInvoice
             (tblCustomerInvoice d ++
              [CustomerInvoice.mk (n + 1) (invoice_no_of (n + 1)) hire_id
                 (Hire.CustomerID h) (Py.strip date1)
                 (real_column (Hire.TotalAmount h)) (Some "Unpaid");
               CustomerInvoice.mk (n + 2) (invoice_no_of (n + 2)) hire_id
                 (Hire.CustomerID h) (Py.strip date2)
                 (real_column (Hire.TotalAmount h)) (Some "Unpaid")]) d.
Proof.
  intros d hire_id h line1 date1 line2 date2 rest out Hseq Hsel H1 H2 Hfit
    Hfc Hnan n.
  destruct (create_invoice_creates d [] line1 hire_id h date1
              (line2 :: date2 :: rest) out Hseq Hsel (Forall_nil _) H1 Hfit
              Hfc Hnan) as (w1 & E1 & Hin1 & Hdb1).
  cbn [app] in E1. unfold bind. rewrite E1.
  destruct w1 as [d1 lines1 out1]. cbn [stdin db] in Hin1, Hdb1. subst lines1.
  assert (Hseq1 : in_sequence (tblCustomerInvoice d1)).
  { subst d1. cbn [tblCustomerInvoice set_tblCustomerInvoice].
    now apply in_sequence_snoc. }
  assert (Hsel1 : selected_hire (completed_hires d1) hire_id = Some h).
  { subst d1. exact Hsel. }
  destruct (create_invoice_creates d1 [] line2 hire_id h date2 rest out1
              Hseq1 Hsel1 (Forall_nil _) H2 Hfit Hfc Hnan)
    as (w2 & E2 & Hin2 & Hdb2).
  cbn [app] in E2. exists w2. split; [exact E2|]. split; [exact Hin2|].
  rewrite Hdb2, Hdb1. unfold set_tblCustomerInvoice.
  cbn [tblFleet tblDriver tblSupplier tblCustomer tblHire tblCustomerInvoice
       tblSupplierPayment].
  rewrite List.length_app. cbn [List.length].
  rewrite <- List.app_assoc. cbn [app].
  replace (Z.of_nat (S (List.length (tblCustomerInvoice d)))) with (n + 1)
    by (subst n; lia).
  replace (Z.of_nat (S (List.length (tblCustomerInvoice d) + 1)))
    with (n + 2) by (subst n; lia).
  reflexivity.
Qed.

Lemma hire_can_be_invoiced_twice_witness :
  exists w',
    (create_invoice_from_hire ;; create_invoice_from_hire)
      (console two_hires_db ["1"; "2024-03-01"; "1"; "2024-03-02"])
    = Returned tt w'
    /\ stdin w' = []
    /\ db w'
       = set_tblCustomerInvoice
           ([] ++
            [CustomerInvoice.mk (0 + 1) (invoice_no_of (0 + 1)) 1 1
               (Py.strip "2024-03-01") f500 (Some "Unpaid");
             CustomerInvoice.mk (0 + 2) (invoice_no_of (0 + 2)) 1 1
               (Py.strip "2024-03-02") f500 (Some "Unpaid")]) two_hires_db.
Proof.
  exact (hire_can_be_invoiced_twice two_hires_db 1 completed_hire
           "1" "2024-03-01" "1" "2024-03-02" [] [] in_sequence_nil
           eq_refl eq_refl eq_refl eq_refl eq_refl eq_refl).
Defined.

(** X13. The next number is computed from the newest invoice alone. When
    an invoice of the table already carries that number, the INSERT fails
    on the UNIQUE constraint of InvoiceNo: sqlite3.IntegrityError escapes
    [create_invoice_from_hire] after the date was read, and no invoice is
    stored. *)
Theorem invoice_number_in_use_is_refused :
  forall d hire_id h bad good date rest out,
    selected_hire (completed_hires d) hire_id = Some h ->
    Forall (not_an_int None) bad ->
    Py.int (Py.strip good) = Some hire_id ->
    fits_int64 hire_id = true ->
    fits_int64 (Hire.CustomerID h) = true ->
    Py.is_nan (Hire.TotalAmount h) = false ->
    existsb (fun i => String.eqb (InvoiceNo i) (next_invoice_no d))
      (tblCustomerInvoice d) = true ->
    exists w',
      create_invoice_from_hire (mkworld d (bad ++ good :: date :: rest) out)
      = Raised
          (IntegrityError
             "UNIQUE constraint failed: tblCustomerInvoice.InvoiceNo") w'
      /\ db w' = d
      /\ stdin w' = rest.
Proof.
  intros d hire_id h bad good date rest out Hsel Hbad Hgood Hfit Hfc Hnan
    Hused.
  rewrite create_invoice_choice with (hire_id := hire_id); auto.
  2:{ intro E. rewrite E in Hsel. discriminate Hsel. }
  rewrite Hsel. unfold bind at 1. rewrite generate_invoice_no_eq. cbn [db].
  unfold bind at 1. rewrite prompt_line. cbn [entered].
  unfold bind, db_execute, insert_invoice. cbn [db stdin stdout].
  rewrite Hfit, Hfc. cbn [andb]. unfold bind_real. rewrite Hnan, Hused.
  eexists. split; [reflexivity|]. split; reflexivity.
Qed.

(** The newest invoice has an unreadable number, so the next number is
    INV-0001, which the first invoice carries. *)
Definition restarted_db : database :=
  set_tblCustomerInvoice
    [CustomerInvoice.mk 1 "INV-0001" 1 1 "2024-01-01" f500 (Some "Unpaid");
     CustomerInvoice.mk 2 "INV-ABC" 1 1 "2024-01-02" f500 (Some "Unpaid")]
    two_hires_db.

Lemma invoice_number_in_use_is_refused_witness :
  next_invoice_no restarted_db = "INV-0001"
  /\ exists w',
       create_invoice_from_hire (console restarted_db ["1"; "2024-03-01"])
       = Raised
           (IntegrityError
              "UNIQUE constraint failed: tblCustomerInvoice.InvoiceNo") w'
       /\ db w' = restarted_db
       /\ stdin w' = [].
Proof.
  split; [reflexivity|].
  exact (invoice_number_in_use_is_refused restarted_db 1 completed_hire
           [] "1" "2024-03-01" [] [] eq_refl (Forall_nil _) eq_refl eq_refl
           eq_refl eq_refl eq_refl).
Defined.

(** ** Updating the status of an invoice *)

Lemma record_exists_invoice invoice_id w :
  fits_int64 invoice_id = true ->
  record_exists "tblCustomerInvoice" "InvoiceID" (Int invoice_id) w
  = Returned (existsb (fun i => CustomerInvoice.InvoiceID i =? invoice_id)
                (tblCustomerInvoice (db w))) w.
Proof.
  intro Hf.
  rewrite (record_exists_int "tblCustomerInvoice" "InvoiceID"
             (map CustomerInvoice.cols (tblCustomerInvoice (db w))))
    by (reflexivity || assumption).
  unfold known_id. cbn [table_rows String.eqb Ascii.eqb Bool.eqb].
  now rewrite existsb_map.
Qed.

(** X14. [update_invoice_status] stores the text typed, stripped, as the
    payment status of the invoice with the id given and touches nothing
    else; a text other than Unpaid, Partially Paid and Paid is stored like
    them. For an id within the signed 64-bit integers that no invoice
    carries it says Invoice not found. and leaves the status line unread.
    For an id beyond them the lookup ends in OverflowError, which escapes:
    nothing is said, the status line is unread and the store is as
    before. *)
Theorem update_invoice_status_stores_any_status :
  forall d bad good invoice_id line rest out,
    Forall (not_an_int None) bad ->
    Py.int (Py.strip good) = Some invoice_id ->
    let out' :=
      out ++ retries "Invoice ID" "Please enter a valid integer." bad in
    update_invoice_status (mkworld d (bad ++ good :: line :: rest) out)
    = if fits_int64 invoice_id then
        if existsb (fun i => CustomerInvoice.InvoiceID i =? invoice_id)
             (tblCustomerInvoice d)
        then
          Returned tt
            (mkworld
               (set_tblCustomerInvoice
                  (map (fun i => if CustomerInvoice.InvoiceID i =? invoice_id
                                 then CustomerInvoice.set_PaymentStatus
                                        (Some (Py.strip line)) i
                                 else i) (tblCustomerInvoice d)) d)
               rest
               (out' ++ [Asked "Payment Status (Unpaid/Partially Paid/Paid): ";
                         Printed [Text "Invoice status updated."]]))
        else
          Returned tt
            (mkworld d (line :: rest)
               (out' ++ [Printed [Text "Invoice not found."]]))
      else Raised OverflowError (mkworld d (line :: rest) out').
Proof.
  intros d bad good invoice_id line rest out Hbad Hgood out'.
  unfold update_invoice_status.
  rewrite (bind_returned _ _ _ _ _
             (prompt_int_accepts "Invoice ID" None d bad good invoice_id
                (line :: rest) out Hbad Hgood)).
  fold out'. destruct (fits_int64 invoice_id) eqn:Hfit.
  - rewrite (bind_returned _ _ _ _ _
               (record_exists_invoice invoice_id _ Hfit)).
    cbn [db].
    destruct (existsb _ (tblCustomerInvoice d)); cbn [negb].
    + rewrite (bind_returned _ _ _ _ _ (prompt_line _ None d line rest out')).
      unfold bind, db_execute, update_status_of_invoice.
      cbn [db stdin stdout entered].
      rewrite Hfit. rewrite print_eq. unfold wrote. cbn [db stdin stdout].
      now rewrite <- List.app_assoc.
    + now rewrite print_eq.
  - apply bind_raised.
    now apply (record_exists_overflow "tblCustomerInvoice" "InvoiceID"
                 (map CustomerInvoice.cols (tblCustomerInvoice d))).
Qed.

(** The invoice 2 is given a status that is none of the three offered; no
    invoice has the id 7; the id 2^63 cannot be looked up. *)
Lemma update_invoice_status_stores_any_status_witness :
  (exists w',
     update_invoice_status (console restarted_db ["2"; "Refunded"])
     = Returned tt w'
     /\ map PaymentStatus (tblCustomerInvoice (db w'))
        = [Some "Unpaid"; Some "Refunded"])
  /\ update_invoice_status (console restarted_db ["x"; "7"; "Paid"])
     = Returned tt
         (mkworld restarted_db ["Paid"]
            (([] ++ retries "Invoice ID" "Please enter a valid integer." ["x"])
             ++ [Printed [Text "Invoice not found."]]))
  /\ update_invoice_status
       (console restarted_db ["9223372036854775808"; "Paid"])
     = Raised OverflowError
         (mkworld restarted_db ["Paid"]
            ([] ++ retries "Invoice ID" "Please enter a valid integer." [])).
Proof.
  split; [|split].
  - eexists. split.
    + exact (update_invoice_status_stores_any_status restarted_db [] "2" 2
               "Refunded" [] [] (Forall_nil _) eq_refl).
    + reflexivity.
  - exact (update_invoice_status_stores_any_status restarted_db ["x"] "7" 7
             "Paid" [] []
             (Forall_cons _ (eq_refl : not_an_int None "x") (Forall_nil _))
             eq_refl).
  - exact (update_invoice_status_stores_any_status restarted_db []
             "9223372036854775808" (2 ^ 63) "Paid" [] [] (Forall_nil _)
             eq_refl).
Defined.

(** ** Listing and searching invoices *)

(** The rows that the join of the two invoice listings gives for some
    invoices; the customer's name goes under [name_key]. *)
Definition invoices_joined (name_key : string) (d : database)
  (invoices : list CustomerInvoice.row) : list sqlite_row :=
  flat_map (fun i => map (invoice_with_customer name_key i)
                       (customers_with d (CustomerInvoice.CustomerID i)))
    invoices.

Lemma select_invoices_unfiltered d :
  select_invoices_filtered "" "" d
  = inr (invoices_joined "Name" d (tblCustomerInvoice d)).
Proof.
  unfold select_invoices_filtered, invoices_joined. f_equal.
  rewrite (filter_all _ (tblCustomerInvoice d)) by reflexivity.
  apply flat_map_ext. intro i. now rewrite filter_all by reflexivity.
Qed.

(** X15. With both filter lines blank (empty, or white space only),
    [search_invoices] lists the same invoices in the same order as
    [list_invoices], the customer's name under the key Name instead of
    Customer. In both an invoice whose customer id has no row in
    tblCustomer gives no row. *)
Theorem search_invoices_without_filters :
  forall d line1 line2 rest out,
    entered (Some "") line1 = "" ->
    entered (Some "") line2 = "" ->
    search_invoices (mkworld d (line1 :: line2 :: rest) out)
    = Returned tt
        (mkworld d rest
           (out ++ [Asked "Filter by Payment Status (leave blank for all): ";
                    Asked "Filter by Customer Name (leave blank for all): "]
                ++ rows_listed
                     (invoices_joined "Name" d (tblCustomerInvoice d))
                     "No matches."))
    /\ list_invoices (mkworld d rest out)
       = Returned tt
           (mkworld d rest
              (out ++ rows_listed
                        (invoices_joined "Customer" d (tblCustomerInvoice d))
                        "No invoices found."))
    /\ forall key i,
         ~ In (CustomerInvoice.CustomerID i)
             (map Customer.CustomerID (tblCustomer d)) ->
         invoices_joined key d [i] = [].
Proof.
  intros d line1 line2 rest out H1 H2. split; [|split].
  - unfold search_invoices.
    unfold bind at 1. rewrite prompt_line, H1.
    unfold bind at 1. rewrite prompt_line, H2.
    rewrite (listing_run _ _ "No matches." d rest _
               (select_invoices_unfiltered d)).
    now rewrite <- !List.app_assoc.
  - unfold list_invoices. now apply listing_run.
  - intros key i Hi. unfold invoices_joined. cbn [flat_map].
    now rewrite customers_with_none.
Qed.

Lemma search_invoices_without_filters_witness :
  search_invoices (console restarted_db [""; "  "; "next"])
  = Returned tt
      (mkworld restarted_db ["next"]
         ([] ++ [Asked "Filter by Payment Status (leave blank for all): ";
                 Asked "Filter by Customer Name (leave blank for all): "]
             ++ rows_listed
                  (invoices_joined "Name" restarted_db
                     (tblCustomerInvoice restarted_db))
                  "No matches.")).
Proof.
  exact (proj1 (search_invoices_without_filters restarted_db "" "  "
                  ["next"] [] eq_refl eq_refl)).
Defined.

(** ** Recording a supplier payment *)

(** X16. For an id within the signed 64-bit integers that no hire
    carries, [add_supplier_payment] says Hire not found. and returns: no
    date and no amount are asked for, and the store is as before. For an
    id beyond them the SELECT ends in OverflowError, which escapes;
    nothing is said and the store is as before. *)
Theorem add_supplier_payment_unknown_hire :
  forall d bad good hire_id rest out,
    Forall (not_an_int None) bad ->
    Py.int (Py.strip good) = Some hire_id ->
    hire_of d hire_id = None ->
    let out' := out ++ retries "Hire ID" "Please enter a valid integer." bad in
    add_supplier_payment (mkworld d (bad ++ good :: rest) out)
    = if fits_int64 hire_id
      then Returned tt
             (mkworld d rest (out' ++ [Printed [Text "Hire not found."]]))
      else Raised OverflowError (mkworld d rest out').
Proof.
  intros d bad good hire_id rest out Hbad Hgood Hh out'.
  unfold add_supplier_payment.
  rewrite (bind_returned _ _ _ _ _
             (prompt_int_accepts "Hire ID" None d bad good hire_id rest out
                Hbad Hgood)).
  fold out'. unfold bind, db_query. cbn [db].
  destruct (fits_int64 hire_id) eqn:Hfit.
  - rewrite select_supplier_of_hire_eq by assumption. rewrite Hh.
    now rewrite print_eq.
  - unfold select_supplier_of_hire. now rewrite Hfit.
Qed.

(** No hire has the id 7, and the id -2^63 - 1 cannot be looked up. *)
Lemma add_supplier_payment_unknown_hire_witness :
  add_supplier_payment (console two_hires_db ["7"; "2024-03-01"])
  = Returned tt
      (mkworld two_hires_db ["2024-03-01"]
         [Asked "Hire ID: "; Printed [Text "Hire not found."]])
  /\ add_supplier_payment
       (console two_hires_db ["-9223372036854775809"; "2024-03-01"])
     = Raised OverflowError
         (mkworld two_hires_db ["2024-03-01"] [Asked "Hire ID: "]).
Proof.
  split.
  - exact (add_supplier_payment_unknown_hire two_hires_db [] "7" 7
             ["2024-03-01"] [] (Forall_nil _) eq_refl eq_refl).
  - exact (add_supplier_payment_unknown_hire two_hires_db []
             "-9223372036854775809" (- 2 ^ 63 - 1) ["2024-03-01"] []
             (Forall_nil _) eq_refl eq_refl).
Defined.

Lemma add_supplier_payment_records
  d bad good hire_id h s date bad_amounts al a rest out :
  Forall (not_an_int None) bad ->
  Py.int (Py.strip good) = Some hire_id ->
  fits_int64 hire_id = true ->
  hire_of d hire_id = Some h ->
  Hire.SupplierID h = Some s ->
  s <> 0 ->
  fits_int64 s = true ->
  Forall not_a_float bad_amounts ->
  Py.float_of_str (Py.strip al) = Some a ->
  Py.is_nan a = false ->
  exists w',
    add_supplier_payment
      (mkworld d (bad ++ good :: date :: bad_amounts ++ al :: rest) out)
    = Returned tt w'
    /\ stdin w' = rest
    /\ db w' = set_tblSupplierPayment
                 (tblSupplierPayment d ++
                  [payment_record d s hire_id (Py.strip date) a]) d.
Proof.
  intros Hbad Hgood Hfit Hh Hs Hs0 Hfs Hba Ha Hnan.
  rewrite (add_supplier_payment_hire d bad good hire_id h) by assumption.
  cbv zeta. rewrite Hs. cbn [truthy]. apply Z.eqb_neq in Hs0. rewrite Hs0.
  unfold bind at 1. rewrite prompt_line. cbn [entered].
  unfold bind at 1. rewrite prompt_float_accepts with (x := a); auto.
  unfold bind at 1, db_execute. cbn [db stdin stdout].
  unfold insert_payment, bind_real. rewrite Hfs, Hfit, Hnan. cbn [andb].
  rewrite print_eq. eexists. split; [reflexivity|]. split; reflexivity.
Qed.

(** The rows that the join of [list_supplier_payments] gives for some
    payments. *)
Definition payments_joined (d : database) (ps : list SupplierPayment.row)
  : list sqlite_row :=
  flat_map (fun p => map (payment_with_supplier p)
                       (suppliers_with d (SupplierPayment.SupplierID p))) ps.

Lemma suppliers_with_none d supplier_id :
  ~ In supplier_id (map Supplier.SupplierID (tblSupplier d)) ->
  suppliers_with d supplier_id = [].
Proof.
  unfold suppliers_with. intro H. apply filter_none. intros s Hs.
  apply Z.eqb_neq. intro E. apply H. rewrite <- E. now apply in_map.
Qed.

(** X17. [add_supplier_payment] does not look the supplier up. When the
    supplier id of the hire has no row in tblSupplier (the supplier was
    deleted, or the id was typed for an Owned fleet), the payment is stored
    all the same, with the amount as its REAL column gives it back (a
    negative zero as zero), and [list_supplier_payments] prints what it
    printed before: the new payment is in the table and in no listing. *)
Theorem payment_to_a_missing_supplier :
  forall d bad good hire_id h s date bad_amounts al a rest out,
    Forall (not_an_int None) bad ->
    Py.int (Py.strip good) = Some hire_id ->
    fits_int64 hire_id = true ->
    hire_of d hire_id = Some h ->
    Hire.SupplierID h = Some s ->
    s <> 0 ->
    fits_int64 s = true ->
    ~ In s (map Supplier.SupplierID (tblSupplier d)) ->
    Forall not_a_float bad_amounts ->
    Py.float_of_str (Py.strip al) = Some a ->
    Py.is_nan a = false ->
    exists w',
      add_supplier_payment
        (mkworld d (bad ++ good :: date :: bad_amounts ++ al :: rest) out)
      = Returned tt w'
      /\ tblSupplierPayment (db w')
         = tblSupplierPayment d
           ++ [payment_record d s hire_id (Py.strip date) a]
      /\ SupplierPayment.Amount (payment_record d s hire_id (Py.strip date) a)
         = real_column a
      /\ forall lines out',
           list_supplier_payments (mkworld (db w') lines out')
           = Returned tt
               (mkworld (db w') lines
                  (out' ++ rows_listed
                             (payments_joined d (tblSupplierPayment d))
                             "No payments found.")).
Proof.
  intros d bad good hire_id h s date bad_amounts al a rest out Hbad Hgood
    Hfit Hh Hs Hs0 Hfs Hmiss Hba Ha Hnan.
  destruct (add_supplier_payment_records d bad good hire_id h s date
              bad_amounts al a rest out Hbad Hgood Hfit Hh Hs Hs0 Hfs Hba Ha
              Hnan) as (w' & E & _ & Hdb).
  exists w'. split; [exact E|]. rewrite Hdb. split; [reflexivity|].
  split; [reflexivity|].
  intros lines out'. unfold list_supplier_payments. apply listing_run.
  unfold select_payments_with_supplier. f_equal.
  cbn [tblSupplierPayment set_tblSupplierPayment].
  rewrite flat_map_app. cbn [flat_map payment_record SupplierPayment.SupplierID].
  change (suppliers_with (set_tblSupplierPayment _ d)) with (suppliers_with d).
  rewrite (suppliers_with_none d s Hmiss). cbn [map app].
  now rewrite List.app_nil_r.
Qed.

(** A hire on an Owned fleet for which supplier 999 was typed. *)
Definition dangling_hire : Hire.row :=
  Hire.mk 1 "F2" 1 1 (Some 999) (Some "Daily") "2024-01-01" None f500 1 f500
    (Some "Open").

Definition dangling_db : database := set_tblHire [dangling_hire] sample_db.

Lemma payment_to_a_missing_supplier_witness :
  exists w',
    add_supplier_payment (console dangling_db ["1"; "2024-03-01"; "500"])
    = Returned tt w'
    /\ tblSupplierPayment (db w')
       = [SupplierPayment.mk 1 999 1 "2024-03-01" f500 (Some "Pending")]
    /\ list_supplier_payments (mkworld (db w') [] [])
       = Returned tt
           (mkworld (db w') [] [Printed [Text "No payments found."]]).
Proof.
  assert (H0 : 999 <> 0) by discriminate.
  assert (Hm : ~ In 999 (map Supplier.SupplierID (tblSupplier dangling_db))).
  { cbn. intros [H|[]]. discriminate H. }
  assert (Hf : Py.float_of_str (Py.strip "500") = Some f500).
  { vm_compute. reflexivity. }
  destruct (payment_to_a_missing_supplier dangling_db [] "1" 1 dangling_hire
              999 "2024-03-01" [] "500" f500 [] [] (Forall_nil _) eq_refl
              eq_refl eq_refl eq_refl H0 eq_refl Hm (Forall_nil _) Hf eq_refl)
    as (w' & E & Hp & _ & Hl).
  exists w'. split; [exact E|]. split; [exact Hp|]. exact (Hl [] []).
Defined.

Lemma record_exists_payment payment_id w :
  fits_int64 payment_id = true ->
  record_exists "tblSupplierPayment" "PaymentID" (Int payment_id) w
  = Returned (existsb (fun p => SupplierPayment.PaymentID p =? payment_id)
                (tblSupplierPayment (db w))) w.
Proof.
  intro Hf.
  rewrite (record_exists_int "tblSupplierPayment" "PaymentID"
             (map SupplierPayment.cols (tblSupplierPayment (db w))))
    by (reflexivity || assumption).
  unfold known_id. cbn [table_rows String.eqb Ascii.eqb Bool.eqb].
  now rewrite existsb_map.
Qed.

(** X18. [update_supplier_payment_status] stores the text typed, stripped,
    as the status of the payment with the id given and touches nothing
    else; a text other than Pending and Paid is stored like them. For an
    id within the signed 64-bit integers that no payment carries it says
    Payment not found. and leaves the status line unread. For an id
    beyond them the lookup ends in OverflowError, which escapes: nothing
    is said, the status line is unread and the store is as before. *)
Theorem update_supplier_payment_status_stores_any_status :
  forall d bad good payment_id line rest out,
    Forall (not_an_int None) bad ->
    Py.int (Py.strip good) = Some payment_id ->
    let out' :=
      out ++ retries "Payment ID" "Please enter a valid integer." bad in
    update_supplier_payment_status
      (mkworld d (bad ++ good :: line :: rest) out)
    = if fits_int64 payment_id then
        if existsb (fun p => SupplierPayment.PaymentID p =? payment_id)
             (tblSupplierPayment d)
        then
          Returned tt
            (mkworld
               (set_tblSupplierPayment
                  (map (fun p => if SupplierPayment.PaymentID p =? payment_id
                                 then set_payment_status
                                        (Some (Py.strip line)) p
                                 else p) (tblSupplierPayment d)) d)
               rest
               (out' ++ [Asked "Payment Status (Pending/Paid): ";
                         Printed [Text "Payment status updated."]]))
        else
          Returned tt
            (mkworld d (line :: rest)
               (out' ++ [Printed [Text "Payment not found."]]))
      else Raised OverflowError (mkworld d (line :: rest) out').
Proof.
  intros d bad good payment_id line rest out Hbad Hgood out'.
  unfold update_supplier_payment_status.
  rewrite (bind_returned _ _ _ _ _
             (prompt_int_accepts "Payment ID" None d bad good payment_id
                (line :: rest) out Hbad Hgood)).
  fold out'. destruct (fits_int64 payment_id) eqn:Hfit.
  - rewrite (bind_returned _ _ _ _ _
               (record_exists_payment payment_id _ Hfit)).
    cbn [db].
    destruct (existsb _ (tblSupplierPayment d)); cbn [negb].
    + rewrite (bind_returned _ _ _ _ _ (prompt_line _ None d line rest out')).
      unfold bind, db_execute, update_status_of_payment.
      cbn [db stdin stdout entered].
      rewrite Hfit. rewrite print_eq. unfold wrote. cbn [db stdin stdout].
      now rewrite <- List.app_assoc.
    + now rewrite print_eq.
  - apply bind_raised.
    now apply (record_exists_overflow "tblSupplierPayment" "PaymentID"
                 (map SupplierPayment.cols (tblSupplierPayment d))).
Qed.

Definition paid_db : database :=
  set_tblSupplierPayment
    [SupplierPayment.mk 1 1 1 "2024-03-01" f500 (Some "Pending")]
    two_hires_db.

(** The payment 1 is given an empty status; no payment has the id 2; the
    id 2^63 cannot be looked up. *)
Lemma update_supplier_payment_status_stores_any_status_witness :
  (exists w',
     update_supplier_payment_status (console paid_db ["1"; ""])
     = Returned tt w'
     /\ tblSupplierPayment (db w')
        = [SupplierPayment.mk 1 1 1 "2024-03-01" f500 (Some "")])
  /\ update_supplier_payment_status (console paid_db ["2"; "Paid"])
     = Returned tt
         (mkworld paid_db ["Paid"]
            (([] ++ retries "Payment ID" "Please enter a valid integer." [])
             ++ [Printed [Text "Payment not found."]]))
  /\ update_supplier_payment_status
       (console paid_db ["9223372036854775808"; "Paid"])
     = Raised OverflowError
         (mkworld paid_db ["Paid"]
            ([] ++ retries "Payment ID" "Please enter a valid integer." [])).
Proof.
  split; [|split].
  - eexists. split.
    + exact (update_supplier_payment_status_stores_any_status paid_db [] "1"
               1 "" [] [] (Forall_nil _) eq_refl).
    + reflexivity.
  - exact (update_supplier_payment_status_stores_any_status paid_db [] "2" 2
             "Paid" [] [] (Forall_nil _) eq_refl).
  - exact (update_supplier_payment_status_stores_any_status paid_db []
             "9223372036854775808" (2 ^ 63) "Paid" [] [] (Forall_nil _)
             eq_refl).
Defined.

(** ** The menus, turn by turn *)

(** X19. Each of the three menus prints its text, reads a choice as it is
    typed, without stripping, and then: 0 returns to the caller; the key
    of an option runs that operation on the lines that follow and shows
    the menu again on what the operation left unread, unless an exception
    escaped the operation, which then escapes the menu; any other text,
    the empty line included, gets Invalid choice. and the menu again. At
    the end of the input EOFError escapes. *)
Theorem menus_turn_by_turn :
  forall d out,
    let shown text := out ++ [Printed [Text text]; Asked "Choose: "] in
    (forall choice rest,
        hire_menu (mkworld d (choice :: rest) out)
        = menu_turn hire_menu hire_options choice
            (mkworld d rest (shown hire_menu_text))
        /\ invoice_menu (mkworld d (choice :: rest) out)
           = menu_turn invoice_menu invoice_options choice
               (mkworld d rest (shown invoice_menu_text))
        /\ supplier_payment_menu (mkworld d (choice :: rest) out)
           = menu_turn supplier_payment_menu supplier_payment_options choice
               (mkworld d rest (shown supplier_payment_menu_text)))
    /\ hire_menu (mkworld d [] out)
       = Raised EOFError (mkworld d [] (shown hire_menu_text))
    /\ invoice_menu (mkworld d [] out)
       = Raised EOFError (mkworld d [] (shown invoice_menu_text))
    /\ supplier_payment_menu (mkworld d [] out)
       = Raised EOFError (mkworld d [] (shown supplier_payment_menu_text)).
Proof.
  intros d out shown. split; [|repeat split; apply menu_eof].
  intros choice rest. repeat split.
  - apply (menu_choice hire_menu_text hire_options), hire_options_read.
  - apply (menu_choice invoice_menu_text invoice_options),
      invoice_options_read.
  - apply (menu_choice supplier_payment_menu_text supplier_payment_options),
      supplier_payment_options_read.
Qed.

(** ** What the three menus leave untouched *)

(** Only tblHire differs; no hire is removed and no column of a stored
    hire but Status is changed. *)
Definition hires_kept (d d' : database) : Prop :=
  d' = set_tblHire (tblHire d') d
  /\ exists added,
       map (Hire.set_Status None) (tblHire d')
       = map (Hire.set_Status None) (tblHire d) ++ added.

(** The same for tblCustomerInvoice and PaymentStatus. *)
Definition invoices_kept (d d' : database) : Prop :=
  d' = set_tblCustomerInvoice (tblCustomerInvoice d') d
  /\ exists added,
       map (CustomerInvoice.set_PaymentStatus None) (tblCustomerInvoice d')
       = map (CustomerInvoice.set_PaymentStatus None) (tblCustomerInvoice d)
         ++ added.

(** The same for tblSupplierPayment and PaymentStatus. *)
Definition payments_kept (d d' : database) : Prop :=
  d' = set_tblSupplierPayment (tblSupplierPayment d') d
  /\ exists added,
       map (set_payment_status None) (tblSupplierPayment d')
       = map (set_payment_status None) (tblSupplierPayment d) ++ added.

#[local] Instance hires_kept_preorder : PreOrder hires_kept.
Proof.
  split.
  - intros [f dr s c h i p]. split; [reflexivity|].
    exists []. now rewrite List.app_nil_r.
  - intros d1 d2 d3 [E12 [a12 M12]] [E23 [a23 M23]]. split.
    + rewrite E23, E12. reflexivity.
    + exists (a12 ++ a23). now rewrite M23, M12, List.app_assoc.
Qed.

#[local] Instance invoices_kept_preorder : PreOrder invoices_kept.
Proof.
  split.
  - intros [f dr s c h i p]. split; [reflexivity|].
    exists []. now rewrite List.app_nil_r.
  - intros d1 d2 d3 [E12 [a12 M12]] [E23 [a23 M23]]. split.
    + rewrite E23, E12. reflexivity.
    + exists (a12 ++ a23). now rewrite M23, M12, List.app_assoc.
Qed.

#[local] Instance payments_kept_preorder : PreOrder payments_kept.
Proof.
  split.
  - intros [f dr s c h i p]. split; [reflexivity|].
    exists []. now rewrite List.app_nil_r.
  - intros d1 d2 d3 [E12 [a12 M12]] [E23 [a23 M23]]. split.
    + rewrite E23, E12. reflexivity.
    + exists (a12 ++ a23). now rewrite M23, M12, List.app_assoc.
Qed.

Lemma keeps_db_kept {A} (R : database -> database -> Prop) `{!PreOrder R}
  (m : M A) : keeps_db m -> changes R m.
Proof.
  apply changes_weaken. intros d d' <-. reflexivity.
Qed.

Lemma list_hires_keeps_db : keeps_db list_hires.
Proof. unfold keeps_db, list_hires. changes_auto. Qed.

Lemma list_invoices_keeps_db : keeps_db list_invoices.
Proof. unfold keeps_db, list_invoices. changes_auto. Qed.

Lemma search_invoices_keeps_db : keeps_db search_invoices.
Proof. unfold keeps_db, search_invoices. changes_auto. Qed.

Lemma list_supplier_payments_keeps_db : keeps_db list_supplier_payments.
Proof. unfold keeps_db, list_supplier_payments. changes_auto. Qed.

Lemma search_supplier_payments_keeps_db : keeps_db search_supplier_payments.
Proof. unfold keeps_db, search_supplier_payments. changes_auto. Qed.

Lemma add_hire_hires_kept : changes hires_kept add_hire.
Proof.
  unfold add_hire, add_hire_supplier, add_hire_record.
  changes_auto.
  apply changes_execute; try exact _.
  intros d d' E. apply insert_hire_stored in E as [_ ->]. split.
  - reflexivity.
  - cbn [tblHire set_tblHire]. rewrite map_app. eexists. reflexivity.
Qed.

Lemma update_hire_status_hires_kept : changes hires_kept update_hire_status.
Proof.
  unfold update_hire_status. changes_auto.
  apply changes_execute; try exact _.
  intros d d'. unfold update_status_of_hire.
  destruct (fits_int64 _); [|discriminate].
  intro E. inversion E. split; [reflexivity|].
  exists []. cbn [tblHire set_tblHire]. rewrite List.app_nil_r, map_map.
  apply map_ext. intro h. destruct (Hire.HireID h =? _); reflexivity.
Qed.

Lemma create_invoice_invoices_kept :
  changes invoices_kept create_invoice_from_hire.
Proof.
  unfold create_invoice_from_hire, generate_invoice_no. changes_auto.
  apply changes_execute; try exact _.
  intros d d' E. apply insert_invoice_stored in E as (a' & _ & ->). split.
  - reflexivity.
  - cbn [tblCustomerInvoice set_tblCustomerInvoice]. rewrite map_app.
    eexists. reflexivity.
Qed.

Lemma update_invoice_status_invoices_kept :
  changes invoices_kept update_invoice_status.
Proof.
  unfold update_invoice_status. changes_auto.
  apply changes_execute; try exact _.
  intros d d'. unfold update_status_of_invoice.
  destruct (fits_int64 _); [|discriminate].
  intro E. inversion E. split; [reflexivity|].
  exists []. cbn [tblCustomerInvoice set_tblCustomerInvoice].
  rewrite List.app_nil_r, map_map.
  apply map_ext. intro i. destruct (InvoiceID i =? _); reflexivity.
Qed.

Lemma add_supplier_payment_payments_kept :
  changes payments_kept add_supplier_payment.
Proof.
  unfold add_supplier_payment. changes_auto.
  apply changes_execute; try exact _.
  intros d d' E. apply insert_payment_stored in E as (_ & ->). split.
  - reflexivity.
  - cbn [tblSupplierPayment set_tblSupplierPayment]. rewrite map_app.
    eexists. reflexivity.
Qed.

Lemma update_payment_status_payments_kept :
  changes payments_kept update_supplier_payment_status.
Proof.
  unfold update_supplier_payment_status. changes_auto.
  apply changes_execute; try exact _.
  intros d d'. unfold update_status_of_payment.
  destruct (fits_int64 _); [|discriminate].
  intro E. inversion E. split; [reflexivity|].
  exists []. cbn [tblSupplierPayment set_tblSupplierPayment].
  rewrite List.app_nil_r, map_map.
  apply map_ext. intro p.
  destruct (SupplierPayment.PaymentID p =? _); reflexivity.
Qed.

Lemma hire_menu_hires_kept : changes hires_kept hire_menu.
Proof.
  apply changes_menu; [exact _|]. each_option.
  - apply add_hire_hires_kept.
  - apply update_hire_status_hires_kept.
  - apply keeps_db_kept; [exact _|apply list_hires_keeps_db].
  - apply keeps_db_kept; [exact _|apply search_hires_keeps_db].
Qed.

Lemma invoice_menu_invoices_kept : changes invoices_kept invoice_menu.
Proof.
  apply changes_menu; [exact _|]. each_option.
  - apply create_invoice_invoices_kept.
  - apply update_invoice_status_invoices_kept.
  - apply keeps_db_kept; [exact _|apply list_invoices_keeps_db].
  - apply keeps_db_kept; [exact _|apply search_invoices_keeps_db].
Qed.

Lemma payment_menu_payments_kept :
  changes payments_kept supplier_payment_menu.
Proof.
  apply changes_menu; [exact _|]. each_option.
  - apply add_supplier_payment_payments_kept.
  - apply update_payment_status_payments_kept.
  - apply keeps_db_kept; [exact _|apply list_supplier_payments_keeps_db].
  - apply keeps_db_kept; [exact _|apply search_supplier_payments_keeps_db].
Qed.

(** X20. Whatever is typed in the hire menu, the invoice menu and the
    supplier payment menu, also when the input ends or an exception
    escapes: each menu changes its own table only, no row of that table is
    removed or reordered, and no column of a stored row other than its
    status is changed. Rates, quantities, totals, invoice numbers and
    amounts stay as they were stored. *)
Theorem menus_keep_the_records :
  forall w,
    hires_kept (db w) (db (world_of (hire_menu w)))
    /\ invoices_kept (db w) (db (world_of (invoice_menu w)))
    /\ payments_kept (db w) (db (world_of (supplier_payment_menu w))).
Proof.
  intro w. split; [|split].
  - apply hire_menu_hires_kept.
  - apply invoice_menu_invoices_kept.
  - apply payment_menu_payments_kept.
Qed.

Lemma update_payment_status_only_payments :
  changes only_payments update_supplier_payment_status.
Proof.
  unfold update_supplier_payment_status. changes_auto.
  apply changes_execute; try exact _.
  intros d d'. unfold update_status_of_payment.
  destruct (fits_int64 _); [|discriminate].
  intro E. inversion E. reflexivity.
Qed.

(** X21. From a store whose invoices carry INV-0001, INV-0002, ... in
    order, the store after any session in the hire menu, the invoice menu
    or the supplier payment menu has its invoices numbered in that way
    too, whatever was typed and however the session ended. *)
Theorem menus_keep_the_invoice_sequence :
  forall w,
    in_sequence (tblCustomerInvoice (db w)) ->
    in_sequence (tblCustomerInvoice (db (world_of (hire_menu w))))
    /\ in_sequence (tblCustomerInvoice (db (world_of (invoice_menu w))))
    /\ in_sequence
         (tblCustomerInvoice (db (world_of (supplier_payment_menu w)))).
Proof.
  intros w H. split; [|split]; revert H.
  - apply (changes_menu keeps_sequence); each_option.
    + apply (perform_keeps_sequence AddHire).
    + apply (perform_keeps_sequence UpdateHireStatus).
    + apply keeps_db_kept; [exact _|apply list_hires_keeps_db].
    + apply (perform_keeps_sequence SearchHires).
  - apply (changes_menu keeps_sequence); each_option.
    + apply create_invoice_from_hire_sequence.
    + apply update_invoice_status_sequence.
    + apply keeps_db_kept; [exact _|apply list_invoices_keeps_db].
    + apply keeps_db_kept; [exact _|apply search_invoices_keeps_db].
  - apply (changes_menu keeps_sequence); each_option.
    + apply (perform_keeps_sequence AddSupplierPayment).
    + apply (changes_weaken only_payments);
        [apply only_payments_keeps_sequence
        |apply update_payment_status_only_payments].
    + apply keeps_db_kept; [exact _|apply list_supplier_payments_keeps_db].
    + apply keeps_db_kept; [exact _|apply search_supplier_payments_keeps_db].
Qed.

Lemma menus_keep_the_invoice_sequence_witness :
  in_sequence
    (tblCustomerInvoice
       (db (world_of
              (invoice_menu
                 (console two_hires_db
                    ["1"; "1"; "2024-03-01"; "2"; "1"; "Paid"; "9"]))))).
Proof.
  exact (proj1 (proj2
           (menus_keep_the_invoice_sequence
              (console two_hires_db
                 ["1"; "1"; "2024-03-01"; "2"; "1"; "Paid"; "9"])
              in_sequence_nil))).
Defined.

(** ** An exception in a menu *)

(** X22. The menus catch nothing. In the hire menu, option 1 with
    references that pass and a hire type outside Daily, Weekly, Monthly
    and Trip ends the menu, and with it the program, in the exception of
    [add_hire]; the store is as before. *)
Theorem invalid_hire_type_ends_the_menu :
  forall d lines fleet driver customer supplier lines' t rest out,
    references_pass d lines fleet driver customer supplier lines' ->
    terms_typed lines' t rest ->
    hire_type_ok (typed_hire_type t) = false ->
    exists e w',
      hire_menu (mkworld d ("1" :: lines) out) = Raised e w'
      /\ db w' = d.
Proof.
  intros d lines fleet driver customer supplier lines' t rest out Hr Ht Hbad.
  unfold hire_menu. rewrite menu_choice by apply hire_options_read.
  unfold menu_turn. cbn [String.eqb Ascii.eqb Bool.eqb lookup_option
                         hire_options].
  destruct (add_hire_references d lines fleet driver customer supplier
              lines' (out ++ [Printed [Text hire_menu_text]; Asked "Choose: "])
              Hr) as [out' E].
  destruct (add_hire_record_checks_type fleet driver customer supplier d
              lines' t rest out' Ht Hbad) as (e & w' & E' & Hdb & _).
  exists e, w'. unfold bind. rewrite E, E'. now split.
Qed.

Lemma invalid_hire_type_ends_the_menu_witness :
  exists e w',
    hire_menu
      (console sample_db
         ["1"; "F1"; "1"; "1"; "1"; "Hourly"; "2024-01-01"; ""; "100"; "5";
          "0"])
    = Raised e w'
    /\ db w' = sample_db.
Proof.
  apply (invalid_hire_type_ends_the_menu sample_db
           ["F1"; "1"; "1"; "1"; "Hourly"; "2024-01-01"; ""; "100"; "5"; "0"]
           "F1" 1 1 (Some 1)
           ["Hourly"; "2024-01-01"; ""; "100"; "5"; "0"]
           (mkterms "Hourly" "2024-01-01" None
              (S754_finite false 7036874417766400 (-46)) 5) ["0"] []).
  - apply sample_references_rented.
  - apply (sample_terms "Hourly" "2024-01-01" "100"
             (S754_finite false 7036874417766400 (-46)) "5" 5 ["0"]);
      vm_compute; reflexivity.
  - reflexivity.
Defined.

(** ** Adding a fleet *)

Lemma has_fleet_of d fleet_id :
  has_fleet fleet_id d
  = match fleet_of d fleet_id with Some _ => true | None => false end.
Proof.
  unfold has_fleet, fleet_of.
  induction (tblFleet d) as [|f l IH]; [reflexivity|]. cbn [existsb find].
  destruct (String.eqb (Fleet.FleetID f) fleet_id); [reflexivity|exact IH].
Qed.

Definition fleet_entered (id_line serial fleet_type ownership : string)
  (capacity : Py.float) (status : string) : Fleet.row :=
  Fleet.mk (Py.strip id_line) (Some (Py.strip serial))
    (Some (Py.strip fleet_type)) (Some (Py.strip ownership))
    (bind_real capacity) (Some (Py.strip status)).

Lemma add_fleet_known d id_line rest out f :
  fleet_of d (Py.strip id_line) = Some f ->
  add_fleet (mkworld d (id_line :: rest) out)
  = Returned tt
      (mkworld d rest
         (out ++ [Printed [Text (Py.nl ++ "Add Fleet")]; Asked "Fleet ID: ";
                  Printed [Text "Fleet ID already exists."]])).
Proof.
  intro Hf. unfold add_fleet.
  unfold bind at 1. rewrite print_eq. unfold wrote. cbn [db stdin stdout].
  unfold bind at 1. rewrite prompt_line. cbn [entered].
  unfold bind at 1. rewrite record_exists_fleet. cbn [db]. rewrite Hf.
  rewrite print_eq. unfold wrote. cbn [db stdin stdout].
  now rewrite <- !List.app_assoc.
Qed.

Lemma add_fleet_asks d id_line serial fleet_type ownership bad cap x status
  rest out :
  fleet_of d (Py.strip id_line) = None ->
  Forall not_a_float bad ->
  Py.float_of_str (Py.strip cap) = Some x ->
  exists out',
    add_fleet
      (mkworld d
         (id_line :: serial :: fleet_type :: ownership
            :: bad ++ cap :: status :: rest) out)
    = (db_execute
         (insert_fleet (Py.strip id_line) (Py.strip serial)
            (Py.strip fleet_type) (Py.strip ownership) x (Py.strip status)) ;;
       print [Text "Fleet added successfully."]) (mkworld d rest out').
Proof.
  intros Hf Hbad Hx. unfold add_fleet.
  unfold bind at 1. rewrite print_eq. unfold wrote. cbn [db stdin stdout].
  unfold bind at 1. rewrite prompt_line. cbn [entered].
  unfold bind at 1. rewrite record_exists_fleet. cbn [db]. rewrite Hf.
  unfold bind at 1. rewrite prompt_line. cbn [entered].
  unfold bind at 1. rewrite prompt_line. cbn [entered].
  unfold bind at 1. rewrite prompt_line. cbn [entered].
  unfold bind at 1. rewrite prompt_float_accepts with (x := x); auto.
  unfold bind at 1. rewrite prompt_line. cbn [entered].
  eexists. reflexivity.
Qed.

Lemma find_snoc {A} (p : A -> bool) l x :
  find p (l ++ [x])
  = match find p l with
    | Some y => Some y
    | None => if p x then Some x else None
    end.
Proof.
  induction l as [|y l IH]; [reflexivity|]. cbn [app find].
  destruct (p y); [reflexivity|exact IH].
Qed.

(** X23. For an id that no fleet carries and an ownership that is Owned or
    Rented-in, [add_fleet] stores the fleet with the texts typed, stripped,
    and with the capacity as its REAL column gives it back: NaN as NULL, a
    negative zero as zero, any other number as it is. The fleet is then
    found under its id, a hire on it needs a supplier exactly when the
    ownership typed is Rented-in, and every fleet that was found before
    is found as before. *)
Theorem add_fleet_stores_a_new_fleet :
  forall d id_line serial fleet_type ownership bad cap x status rest out,
    fleet_of d (Py.strip id_line) = None ->
    ownership_ok (Py.strip ownership) = true ->
    Forall not_a_float bad ->
    Py.float_of_str (Py.strip cap) = Some x ->
    let f := fleet_entered id_line serial fleet_type ownership x status in
    exists w',
      add_fleet
        (mkworld d
           (id_line :: serial :: fleet_type :: ownership
              :: bad ++ cap :: status :: rest) out)
      = Returned tt w'
      /\ stdin w' = rest
      /\ db w' = set_tblFleet (tblFleet d ++ [f]) d
      /\ Fleet.Capacity f
         = (if Py.is_nan x then None else Some (real_column x))
      /\ fleet_of (db w') (Py.strip id_line) = Some f
      /\ requires_supplier (db w') (Py.strip id_line)
         = String.eqb (Py.strip ownership) "Rented-in"
      /\ forall other g,
           fleet_of d other = Some g -> fleet_of (db w') other = Some g.
Proof.
  intros d id_line serial fleet_type ownership bad cap x status rest out
    Hf Hown Hbad Hx f.
  destruct (add_fleet_asks d id_line serial fleet_type ownership bad cap x
              status rest out Hf Hbad Hx) as [out' ->].
  unfold bind, db_execute, insert_fleet. cbn [db stdin stdout].
  rewrite Hown, has_fleet_of, Hf. rewrite print_eq.
  eexists. split; [reflexivity|]. cbn [stdin db wrote].
  split; [reflexivity|]. split; [reflexivity|]. split; [reflexivity|].
  change (Fleet.mk (Py.strip id_line) (Some (Py.strip serial))
            (Some (Py.strip fleet_type)) (Some (Py.strip ownership))
            (bind_real x) (Some (Py.strip status))) with f.
  assert (Hfound : fleet_of (set_tblFleet (tblFleet d ++ [f]) d)
                     (Py.strip id_line) = Some f).
  { unfold fleet_of in *. cbn [tblFleet set_tblFleet].
    rewrite find_snoc, Hf.
    change (Fleet.FleetID f) with (Py.strip id_line).
    now rewrite String.eqb_refl. }
  split; [exact Hfound|]. split.
  - unfold requires_supplier. rewrite Hfound. reflexivity.
  - intros other g Hg. unfold fleet_of in *. cbn [tblFleet set_tblFleet].
    now rewrite find_snoc, Hg.
Qed.

(** The fleet F3 is added with the capacity 2.5 and, in a second run, with
    the capacity -0, which is stored as 0.0. *)
Lemma add_fleet_stores_a_new_fleet_witness :
  (exists w',
     add_fleet
       (console sample_db
          [" F3 "; "S-3"; "Van"; "Rented-in"; "heavy"; "2.5"; "Active"; "F3"])
     = Returned tt w'
     /\ stdin w' = ["F3"]
     /\ map Fleet.FleetID (tblFleet (db w')) = ["F1"; "F2"; "F3"]
     /\ requires_supplier (db w') "F3" = true)
  /\ Py.float_of_str "-0" = Some (S754_zero true)
  /\ exists w',
       add_fleet
         (console sample_db ["F3"; "S-3"; "Van"; "Owned"; "-0"; "Active"])
       = Returned tt w'
       /\ map Fleet.Capacity (tblFleet (db w'))
          = [None; None; Some (S754_zero false)].
Proof.
  split; [|split; [reflexivity|]].
  - destruct (add_fleet_stores_a_new_fleet sample_db " F3 " "S-3" "Van"
                "Rented-in" ["heavy"] "2.5"
                (S754_finite false 5629499534213120 (-51)) "Active" ["F3"] [])
      as (w' & E & Hin & Hdb & _ & _ & Hreq & _).
    + reflexivity.
    + reflexivity.
    + repeat constructor.
    + vm_compute. reflexivity.
    + exists w'. split; [exact E|]. split; [exact Hin|].
      split; [rewrite Hdb; reflexivity|exact Hreq].
  - destruct (add_fleet_stores_a_new_fleet sample_db "F3" "S-3" "Van"
                "Owned" [] "-0" (S754_zero true) "Active" [] [])
      as (w' & E & _ & Hdb & _).
    + reflexivity.
    + reflexivity.
    + constructor.
    + reflexivity.
    + exists w'. split; [exact E|]. rewrite Hdb. reflexivity.
Defined.

(** X24. [add_fleet] stores nothing in two cases. For an id that a fleet
    carries it says Fleet ID already exists. right after the id and leaves
    the other lines unread. For a new id with an ownership other than
    Owned and Rented-in, compared character for character, the INSERT
    fails on the CHECK constraint after all six answers were read:
    sqlite3.IntegrityError escapes. *)
Theorem add_fleet_turns_down :
  forall d id_line rest out,
    (forall f,
        fleet_of d (Py.strip id_line) = Some f ->
        add_fleet (mkworld d (id_line :: rest) out)
        = Returned tt
            (mkworld d rest
               (out ++ [Printed [Text (Py.nl ++ "Add Fleet")];
                        Asked "Fleet ID: ";
                        Printed [Text "Fleet ID already exists."]])))
    /\ (forall serial fleet_type ownership bad cap x status rest',
           fleet_of d (Py.strip id_line) = None ->
           rest = serial :: fleet_type :: ownership
                    :: bad ++ cap :: status :: rest' ->
           Forall not_a_float bad ->
           Py.float_of_str (Py.strip cap) = Some x ->
           ownership_ok (Py.strip ownership) = false ->
           exists w',
             add_fleet (mkworld d (id_line :: rest) out)
             = Raised (IntegrityError
                 "CHECK constraint failed: Ownership IN ('Owned','Rented-in')") w'
             /\ db w' = d
             /\ stdin w' = rest').
Proof.
  intros d id_line rest out. split.
  - intros f Hf. now apply add_fleet_known with (f := f).
  - intros serial fleet_type ownership bad cap x status rest' Hf -> Hbad Hx
      Hown.
    destruct (add_fleet_asks d id_line serial fleet_type ownership bad cap x
                status rest' out Hf Hbad Hx) as [out' ->].
    unfold bind, db_execute, insert_fleet. cbn [db stdin stdout].
    rewrite Hown. eexists. split; [reflexivity|]. split; reflexivity.
Qed.

Lemma add_fleet_turns_down_witness :
  add_fleet (console sample_db ["F1"; "S-9"])
  = Returned tt
      (mkworld sample_db ["S-9"]
         ([] ++ [Printed [Text (Py.nl ++ "Add Fleet")]; Asked "Fleet ID: ";
                 Printed [Text "Fleet ID already exists."]]))
  /\ exists w',
       add_fleet
         (console sample_db ["F3"; "S-3"; "Van"; "owned"; "2.5"; "Active"])
       = Raised (IntegrityError
                 "CHECK constraint failed: Ownership IN ('Owned','Rented-in')") w'
       /\ db w' = sample_db
       /\ stdin w' = [].
Proof.
  split.
  - exact (proj1 (add_fleet_turns_down sample_db "F1" ["S-9"] []) _ eq_refl).
  - apply (proj2 (add_fleet_turns_down sample_db "F3"
                    ["S-3"; "Van"; "owned"; "2.5"; "Active"] [])
             "S-3" "Van" "owned" [] "2.5"
             (S754_finite false 5629499534213120 (-51)) "Active" []).
    + reflexivity.
    + reflexivity.
    + constructor.
    + vm_compute. reflexivity.
    + reflexivity.
Defined.

(** ** Deleting

    The four delete functions ask for the word YES and compare its upper
    case with YES. *)

Lemma codes_eqb_eq a b : Py.codes_eqb a b = true <-> a = b.
Proof.
  revert b. induction a as [|x a IH]; intros [|y b]; cbn [Py.codes_eqb];
    try (split; (discriminate || reflexivity)).
  rewrite andb_true_iff, N.eqb_eq, IH. split.
  - intros [-> ->]. reflexivity.
  - intro E. inversion E. auto.
Qed.

Lemma upper_char_cases c :
  (exists n, Py.upper_char c = [n]
             /\ (n = 89%N -> c = "Y"%char \/ c = "y"%char)
             /\ (n = 69%N -> c = "E"%char \/ c = "e"%char)
             /\ (n = 83%N -> c = "S"%char \/ c = "s"%char))
  \/ Py.upper_char c = [83%N; 83%N].
Proof.
  destruct c as [[] [] [] [] [] [] [] []];
    first
      [ right; reflexivity
      | left; eexists; split; [reflexivity|];
        repeat split; intro H; first [discriminate H | now left | now right] ].
Qed.

Definition yes_spellings : list string :=
  ["YES"; "YEs"; "YeS"; "Yes"; "yES"; "yEs"; "yeS"; "yes"].

Lemma confirmed_iff s : confirmed s = true <-> In s yes_spellings.
Proof.
  split.
  - unfold confirmed. rewrite codes_eqb_eq. unfold Py.upper.
    change (Py.codes "YES") with [89%N; 69%N; 83%N].
    destruct s as [|c1 s]; [discriminate|]. cbn [list_ascii_of_string flat_map].
    destruct (upper_char_cases c1) as [(n1 & -> & H1 & _)| ->];
      [|discriminate].
    cbn [app]. intro E. inversion E as [[E1 E']]. clear E.
    destruct s as [|c2 s]; [discriminate|].
    cbn [list_ascii_of_string flat_map] in E'.
    destruct (upper_char_cases c2) as [(n2 & E2 & _ & H2 & _)|E2];
      rewrite E2 in E'; [|discriminate].
    cbn [app] in E'. inversion E' as [[E2' E'']]. clear E'.
    destruct s as [|c3 s]; [discriminate|].
    cbn [list_ascii_of_string flat_map] in E''.
    destruct (upper_char_cases c3) as [(n3 & E3 & _ & _ & H3)|E3];
      rewrite E3 in E''; [|discriminate].
    cbn [app] in E''. inversion E'' as [[E3' E''']]. clear E''.
    destruct s as [|c4 s].
    + destruct (H1 E1) as [-> | ->], (H2 E2') as [-> | ->],
        (H3 E3') as [-> | ->]; cbn; auto 10.
    + cbn [list_ascii_of_string flat_map] in E'''.
      destruct (upper_char_cases c4) as [(n4 & E4 & _)|E4];
        rewrite E4 in E'''; discriminate.
  - intro H. cbn in H.
    repeat (destruct H as [<-|H]; [reflexivity|]). destruct H.
Qed.

Lemma delete_fleet_run d id_line confirm rest out :
  delete_fleet (mkworld d (id_line :: confirm :: rest) out)
  = let asked := out ++ [Asked "Enter Fleet ID to delete: ";
                         Asked "Type YES to confirm: "] in
    if confirmed (Py.strip confirm) then
      Returned tt
        (mkworld
           (set_tblFleet
              (filter (fun r => negb (String.eqb (Fleet.FleetID r)
                                        (Py.strip id_line)))
                 (tblFleet d)) d)
           rest (asked ++ [Printed [Text "Fleet deleted (if existed)."]]))
    else
      Returned tt
        (mkworld d rest (asked ++ [Printed [Text "Deletion cancelled."]])).
Proof.
  unfold delete_fleet.
  unfold bind at 1. rewrite prompt_line.
  unfold bind at 1. rewrite prompt_line. cbn [entered]. cbv zeta.
  rewrite <- List.app_assoc. cbn [app].
  destruct (confirmed (Py.strip confirm)); cbn [negb].
  - unfold bind, db_execute, delete_fleet_where. cbn [db stdin stdout].
    now rewrite print_eq.
  - now rewrite print_eq.
Qed.

Section DeleteById.
Variables (message cancelled deleted : string).
Variable where_id : Z -> database -> sqlresult database.
Variable remove : Z -> database -> database.
Hypothesis where_id_eq :
  forall id d,
    where_id id d
    = if fits_int64 id then inr (remove id d) else inl OverflowError.

Lemma delete_by_id_run d bad good id confirm rest out :
  Forall (not_an_int None) bad ->
  Py.int (Py.strip good) = Some id ->
  (id <- prompt_int message None ;;
   confirm <- prompt "Type YES to confirm" None ;;
   if negb (confirmed confirm) then print [Text cancelled]
   else db_execute (where_id id) ;; print [Text deleted])
    (mkworld d (bad ++ good :: confirm :: rest) out)
  = let asked := out ++ retries message "Please enter a valid integer." bad
                     ++ [Asked "Type YES to confirm: "] in
    if confirmed (Py.strip confirm) then
      if fits_int64 id then
        Returned tt
          (mkworld (remove id d) rest (asked ++ [Printed [Text deleted]]))
      else Raised OverflowError (mkworld d rest asked)
    else
      Returned tt (mkworld d rest (asked ++ [Printed [Text cancelled]])).
Proof.
  intros Hbad Hgood.
  rewrite (bind_returned _ _ _ _ _
             (prompt_int_accepts message None d bad good id
                (confirm :: rest) out Hbad Hgood)).
  unfold bind at 1. rewrite prompt_line. cbn [entered]. cbv zeta.
  destruct (confirmed (Py.strip confirm)); cbn [negb].
  - unfold bind, db_execute. cbn [db stdin stdout].
    rewrite where_id_eq. destruct (fits_int64 id).
    + rewrite print_eq. unfold wrote.
      cbn [db stdin stdout]. now rewrite <- !List.app_assoc.
    + now rewrite <- !List.app_assoc.
  - rewrite print_eq. unfold wrote.
    cbn [db stdin stdout]. now rewrite <- !List.app_assoc.
Qed.
End DeleteById.

Definition without_driver (id : Z) (d : database) : database :=
  set_tblDriver
    (filter (fun r => negb (Driver.DriverID r =? id)) (tblDriver d)) d.

Definition without_supplier (id : Z) (d : database) : database :=
  set_tblSupplier
    (filter (fun r => negb (Supplier.SupplierID r =? id)) (tblSupplier d)) d.

Definition without_customer (id : Z) (d : database) : database :=
  set_tblCustomer
    (filter (fun r => negb (Customer.CustomerID r =? id)) (tblCustomer d)) d.

Lemma delete_driver_run d bad good id confirm rest out :
  Forall (not_an_int None) bad ->
  Py.int (Py.strip good) = Some id ->
  delete_driver (mkworld d (bad ++ good :: confirm :: rest) out)
  = let asked := out ++ retries "Driver ID" "Please enter a valid integer." bad
                     ++ [Asked "Type YES to confirm: "] in
    if confirmed (Py.strip confirm) then
      if fits_int64 id then
        Returned tt
          (mkworld (without_driver id d) rest
             (asked ++ [Printed [Text "Driver deleted (if existed)."]]))
      else Raised OverflowError (mkworld d rest asked)
    else
      Returned tt (mkworld d rest (asked ++ [Printed [Text "Cancelled."]])).
Proof.
  apply (delete_by_id_run "Driver ID" "Cancelled."
           "Driver deleted (if existed)." delete_driver_where without_driver).
  reflexivity.
Qed.

Lemma delete_supplier_run d bad good id confirm rest out :
  Forall (not_an_int None) bad ->
  Py.int (Py.strip good) = Some id ->
  delete_supplier (mkworld d (bad ++ good :: confirm :: rest) out)
  = let asked := out ++ retries "Supplier ID" "Please enter a valid integer."
                          bad
                     ++ [Asked "Type YES to confirm: "] in
    if confirmed (Py.strip confirm) then
      if fits_int64 id then
        Returned tt
          (mkworld (without_supplier id d) rest
             (asked ++ [Printed [Text "Supplier deleted (if existed)."]]))
      else Raised OverflowError (mkworld d rest asked)
    else
      Returned tt (mkworld d rest (asked ++ [Printed [Text "Cancelled."]])).
Proof.
  apply (delete_by_id_run "Supplier ID" "Cancelled."
           "Supplier deleted (if existed)." delete_supplier_where
           without_supplier).
  reflexivity.
Qed.

Lemma delete_customer_run d bad good id confirm rest out :
  Forall (not_an_int None) bad ->
  Py.int (Py.strip good) = Some id ->
  delete_customer (mkworld d (bad ++ good :: confirm :: rest) out)
  = let asked := out ++ retries "Customer ID" "Please enter a valid integer."
                          bad
                     ++ [Asked "Type YES to confirm: "] in
    if confirmed (Py.strip confirm) then
      if fits_int64 id then
        Returned tt
          (mkworld (without_customer id d) rest
             (asked ++ [Printed [Text "Customer deleted (if existed)."]]))
      else Raised OverflowError (mkworld d rest asked)
    else
      Returned tt (mkworld d rest (asked ++ [Printed [Text "Cancelled."]])).
Proof.
  apply (delete_by_id_run "Customer ID" "Cancelled."
           "Customer deleted (if existed)." delete_customer_where
           without_customer).
  reflexivity.
Qed.

Lemma fleet_of_deleted d fleet_id :
  fleet_of
    (set_tblFleet
       (filter (fun r => negb (String.eqb (Fleet.FleetID r) fleet_id))
          (tblFleet d)) d) fleet_id = None.
Proof.
  unfold fleet_of. cbn [tblFleet set_tblFleet].
  induction (tblFleet d) as [|f l IH]; [reflexivity|]. cbn [filter].
  destruct (String.eqb (Fleet.FleetID f) fleet_id) eqn:E; cbn [negb];
    [exact IH|].
  cbn [find]. now rewrite E.
Qed.

(** X25. [delete_fleet], once confirmed, removes the fleet with the id
    typed and nothing else: the hires on that fleet stay in tblHire with its
    id, and a new hire on it is turned down with Fleet not found. *)
Theorem deleted_fleet_leaves_its_hires :
  forall d id_line confirm rest out,
    In (Py.strip confirm) yes_spellings ->
    exists w',
      delete_fleet (mkworld d (id_line :: confirm :: rest) out)
      = Returned tt w'
      /\ stdin w' = rest
      /\ db w'
         = set_tblFleet
             (filter (fun r => negb (String.eqb (Fleet.FleetID r)
                                       (Py.strip id_line))) (tblFleet d)) d
      /\ tblHire (db w') = tblHire d
      /\ forall lines out',
           add_hire (mkworld (db w') (id_line :: lines) out')
           = Returned tt
               (mkworld (db w') lines
                  (out' ++ [Asked "Fleet ID: ";
                            Printed [Text "Fleet not found."]])).
Proof.
  intros d id_line confirm rest out Hyes.
  rewrite delete_fleet_run. cbv zeta.
  apply confirmed_iff in Hyes. rewrite Hyes.
  eexists. split; [reflexivity|]. cbn [stdin db].
  split; [reflexivity|]. split; [reflexivity|]. split; [reflexivity|].
  intros lines out'. apply add_hire_fleet_not_found. apply fleet_of_deleted.
Qed.

Lemma deleted_fleet_leaves_its_hires_witness :
  exists w',
    delete_fleet (console one_hire_db [" F1"; "Yes"]) = Returned tt w'
    /\ map Fleet.FleetID (tblFleet (db w')) = ["F2"]
    /\ map Hire.FleetID (tblHire (db w')) = ["F1"].
Proof.
  destruct (deleted_fleet_leaves_its_hires one_hire_db " F1" "Yes" [] [])
    as (w' & E & _ & Hdb & Hh & _).
  - cbn. auto 10.
  - exists w'. split; [exact E|]. rewrite Hh, Hdb. split; reflexivity.
Defined.

Lemma not_confirmed s : ~ In s yes_spellings -> confirmed s = false.
Proof.
  intro H. destruct (confirmed s) eqn:E; [|reflexivity].
  apply confirmed_iff in E. contradiction.
Qed.

(** X26. [delete_driver], [delete_supplier] and [delete_customer] go on to
    their DELETE when the confirmation, stripped, is one of the eight
    spellings of yes in upper and lower case, and among the answers
    written in Latin-1 only then: any other such answer, a blank one
    included, leaves the store as it is and the function says Cancelled.
    (Text beyond Latin-1 is not represented here; there the long s,
    U+017F, is one more way to write the last letter.) After a yes, an id
    within the signed 64-bit integers has its rows deleted, and an id
    beyond them makes the DELETE end in OverflowError, which escapes with
    the store as it was. *)
Theorem deleting_takes_a_yes :
  forall d bad good id confirm rest out,
    Forall (not_an_int None) bad ->
    Py.int (Py.strip good) = Some id ->
    let lines := bad ++ good :: confirm :: rest in
    let asked message :=
      out ++ retries message "Please enter a valid integer." bad
          ++ [Asked "Type YES to confirm: "] in
    (In (Py.strip confirm) yes_spellings ->
     (fits_int64 id = true ->
      db (world_of (delete_driver (mkworld d lines out)))
      = without_driver id d
      /\ db (world_of (delete_supplier (mkworld d lines out)))
         = without_supplier id d
      /\ db (world_of (delete_customer (mkworld d lines out)))
         = without_customer id d)
     /\ (fits_int64 id = false ->
         delete_driver (mkworld d lines out)
         = Raised OverflowError (mkworld d rest (asked "Driver ID"))
         /\ delete_supplier (mkworld d lines out)
            = Raised OverflowError (mkworld d rest (asked "Supplier ID"))
         /\ delete_customer (mkworld d lines out)
            = Raised OverflowError (mkworld d rest (asked "Customer ID"))))
    /\ (~ In (Py.strip confirm) yes_spellings ->
        let cancelled message :=
          Returned tt
            (mkworld d rest (asked message ++ [Printed [Text "Cancelled."]])) in
        delete_driver (mkworld d lines out) = cancelled "Driver ID"
        /\ delete_supplier (mkworld d lines out) = cancelled "Supplier ID"
        /\ delete_customer (mkworld d lines out) = cancelled "Customer ID").
Proof.
  intros d bad good id confirm rest out Hbad Hgood lines asked.
  subst lines asked.
  rewrite (delete_driver_run d bad good id confirm rest out),
    (delete_supplier_run d bad good id confirm rest out),
    (delete_customer_run d bad good id confirm rest out) by assumption.
  cbv zeta. split; intro H.
  - apply confirmed_iff in H. rewrite H.
    split; intro Hfit; rewrite Hfit; repeat split.
  - rewrite (not_confirmed _ H). repeat split.
Qed.

(** The driver 1 goes after yEs; the answer y cancels; after yes, the id
    2^63 ends in OverflowError. *)
Lemma deleting_takes_a_yes_witness :
  db (world_of (delete_driver (console sample_db ["x"; "1"; "yEs"])))
  = without_driver 1 sample_db
  /\ delete_supplier (console sample_db ["1"; "y"; "next"])
     = Returned tt
         (mkworld sample_db ["next"]
            (([] ++ retries "Supplier ID" "Please enter a valid integer." []
                 ++ [Asked "Type YES to confirm: "])
             ++ [Printed [Text "Cancelled."]]))
  /\ delete_customer
       (console sample_db ["9223372036854775808"; "yes"; "next"])
     = Raised OverflowError
         (mkworld sample_db ["next"]
            ([] ++ retries "Customer ID" "Please enter a valid integer." []
                ++ [Asked "Type YES to confirm: "])).
Proof.
  split; [|split].
  - apply (proj1 (deleting_takes_a_yes sample_db ["x"] "1" 1 "yEs" [] []
             (Forall_cons _ (eq_refl : not_an_int None "x") (Forall_nil _))
             eq_refl)).
    + cbn. auto 10.
    + reflexivity.
  - apply (proj2 (deleting_takes_a_yes sample_db [] "1" 1 "y" ["next"] []
             (Forall_nil _) eq_refl)).
    cbn. intros H.
    repeat (destruct H as [H|H]; [discriminate H|]). exact H.
  - apply (proj1 (deleting_takes_a_yes sample_db [] "9223372036854775808"
             (2 ^ 63) "yes" ["next"] [] (Forall_nil _) eq_refl)).
    + cbn. auto 10.
    + reflexivity.
Defined.

Lemma customers_with_deleted d id customer_id :
  customers_with (without_customer id d) customer_id
  = if customer_id =? id then [] else customers_with d customer_id.
Proof.
  unfold customers_with, without_customer. cbn [tblCustomer set_tblCustomer].
  destruct (customer_id =? id) eqn:E.
  - apply Z.eqb_eq in E. subst. apply filter_none. intros c Hc.
    apply filter_In in Hc as [_ Hc]. apply negb_true_iff in Hc. exact Hc.
  - apply filter_filter_out. intros c Hc. apply Z.eqb_eq in Hc.
    rewrite Hc, E. reflexivity.
Qed.

(** X27. Deleting a customer removes the row of tblCustomer only: the
    customer's hires and invoices stay stored. From then on [list_hires]
    prints what it printed before without the hires of that customer. *)
Theorem deleted_customer_hides_the_hires :
  forall d bad good customer_id confirm rest out,
    Forall (not_an_int None) bad ->
    Py.int (Py.strip good) = Some customer_id ->
    fits_int64 customer_id = true ->
    In (Py.strip confirm) yes_spellings ->
    exists w',
      delete_customer (mkworld d (bad ++ good :: confirm :: rest) out)
      = Returned tt w'
      /\ stdin w' = rest
      /\ db w' = without_customer customer_id d
      /\ tblHire (db w') = tblHire d
      /\ tblCustomerInvoice (db w') = tblCustomerInvoice d
      /\ select_hires_with_customer (db w')
         = inr (hires_joined d
                  (filter (fun h => negb (Hire.CustomerID h =? customer_id))
                     (order_by Z.ltb Hire.HireID (tblHire d)))).
Proof.
  intros d bad good customer_id confirm rest out Hbad Hgood Hfit Hyes.
  rewrite (delete_customer_run d bad good customer_id confirm rest out)
    by assumption.
  cbv zeta.
  apply confirmed_iff in Hyes. rewrite Hyes, Hfit.
  eexists. split; [reflexivity|]. cbn [stdin db].
  split; [reflexivity|]. split; [reflexivity|]. split; [reflexivity|].
  split; [reflexivity|].
  unfold select_hires_with_customer. f_equal.
  change (tblHire (without_customer customer_id d)) with (tblHire d).
  unfold hires_joined.
  induction (order_by Z.ltb Hire.HireID (tblHire d)) as [|h l IH];
    [reflexivity|].
  cbn [flat_map filter]. rewrite IH, customers_with_deleted.
  destruct (Hire.CustomerID h =? customer_id); reflexivity.
Qed.

Definition customer_dave : Customer.row :=
  Customer.mk 2 "Dave" None None None.

Lemma deleted_customer_hides_the_hires_witness :
  let d := set_tblCustomer [Customer.mk 1 "Carol" None None None;
                            customer_dave] two_hires_db in
  exists w',
    delete_customer (console d ["1"; "yes"]) = Returned tt w'
    /\ tblCustomer (db w') = [customer_dave]
    /\ tblHire (db w') = tblHire two_hires_db
    /\ select_hires_with_customer (db w') = inr [].
Proof.
  intro d.
  destruct (deleted_customer_hides_the_hires d [] "1" 1 "yes" [] []
              (Forall_nil _) eq_refl eq_refl)
    as (w' & E & _ & Hdb & Hh & _ & Hl).
  - cbn. auto 10.
  - exists w'. split; [exact E|]. rewrite Hl, Hdb. repeat split.
Defined.

(** ** Updating a driver, a supplier or a customer *)

Definition customer_of (d : database) (customer_id : Z)
  : option Customer.row :=
  find (fun r => Customer.CustomerID r =? customer_id) (tblCustomer d).

Lemma select_customer_eq d customer_id :
  fits_int64 customer_id = true ->
  select_customer customer_id d
  = inr (match customer_of d customer_id with
         | Some c =>
             c :: tl (filter (fun r => Customer.CustomerID r =? customer_id)
                        (tblCustomer d))
         | None => []
         end).
Proof.
  intro Hf. unfold select_customer, customer_of. rewrite Hf. f_equal.
  induction (tblCustomer d) as [|c l IH]; [reflexivity|]. cbn [filter find].
  destruct (Customer.CustomerID c =? customer_id); [reflexivity|exact IH].
Qed.

(** The text that [prompt] returns for an empty line when the default is
    the stored value: a NULL has no default and gives the empty text. *)
Definition kept (stored : option string) : string :=
  match stored with Some s => s | None => "" end.

Lemma entered_empty stored : entered stored "" = kept stored.
Proof. destruct stored; reflexivity. Qed.

Definition customer_entered (c : Customer.row) (l1 l2 l3 l4 : string)
  (r : Customer.row) : Customer.row :=
  Customer.mk (Customer.CustomerID r)
    (entered (Some (Customer.Name c)) l1)
    (Some (entered (Customer.PhoneNo c) l2))
    (Some (entered (Customer.Email c) l3))
    (Some (entered (Customer.Address c) l4)).

(** An id that no customer carries: the function says so when the id can
    be bound, and ends in the OverflowError of the SELECT when it cannot. *)
Lemma update_customer_not_found d bad good customer_id rest out :
  Forall (not_an_int None) bad ->
  Py.int (Py.strip good) = Some customer_id ->
  customer_of d customer_id = None ->
  let out' :=
    out ++ retries "Customer ID" "Please enter a valid integer." bad in
  update_customer (mkworld d (bad ++ good :: rest) out)
  = if fits_int64 customer_id
    then Returned tt
           (mkworld d rest (out' ++ [Printed [Text "Customer not found."]]))
    else Raised OverflowError (mkworld d rest out').
Proof.
  intros Hbad Hgood Hc out'. unfold update_customer.
  rewrite (bind_returned _ _ _ _ _
             (prompt_int_accepts "Customer ID" None d bad good customer_id
                rest out Hbad Hgood)).
  fold out'. unfold bind at 1, db_query. cbn [db].
  destruct (fits_int64 customer_id) eqn:Hfit.
  - rewrite select_customer_eq by assumption. now rewrite Hc, print_eq.
  - unfold select_customer. now rewrite Hfit.
Qed.

Lemma update_customer_run d bad good customer_id c l1 l2 l3 l4 rest out :
  Forall (not_an_int None) bad ->
  Py.int (Py.strip good) = Some customer_id ->
  fits_int64 customer_id = true ->
  customer_of d customer_id = Some c ->
  update_customer
    (mkworld d (bad ++ good :: l1 :: l2 :: l3 :: l4 :: rest) out)
  = Returned tt
      (mkworld
         (set_tblCustomer
            (map (fun r => if Customer.CustomerID r =? customer_id
                           then customer_entered c l1 l2 l3 l4 r
                           else r) (tblCustomer d)) d)
         rest
         (out ++ retries "Customer ID" "Please enter a valid integer." bad
              ++ [Asked "Name: "; Asked "Phone: "; Asked "Email: ";
                  Asked "Address: "; Printed [Text "Customer updated."]])).
Proof.
  intros Hbad Hgood Hfit Hc. unfold update_customer.
  rewrite (bind_returned _ _ _ _ _
             (prompt_int_accepts "Customer ID" None d bad good customer_id
                (l1 :: l2 :: l3 :: l4 :: rest) out Hbad Hgood)).
  unfold bind at 1, db_query. cbn [db].
  rewrite select_customer_eq by assumption. rewrite Hc.
  unfold bind at 1. rewrite prompt_line.
  unfold bind at 1. rewrite prompt_line.
  unfold bind at 1. rewrite prompt_line.
  unfold bind at 1. rewrite prompt_line.
  unfold bind, db_execute, update_customer_where. cbn [db stdin stdout].
  rewrite Hfit, print_eq. unfold wrote. cbn [db stdin stdout].
  now rewrite <- !List.app_assoc.
Qed.


Definition driver_of (d : database) (driver_id : Z) : option Driver.row :=
  find (fun r => Driver.DriverID r =? driver_id) (tblDriver d).

Definition supplier_of (d : database) (supplier_id : Z)
  : option Supplier.row :=
  find (fun r => Supplier.SupplierID r =? supplier_id) (tblSupplier d).

Lemma select_driver_eq d driver_id :
  fits_int64 driver_id = true ->
  select_driver driver_id d
  = inr (match driver_of d driver_id with
         | Some c =>
             c :: tl (filter (fun r => Driver.DriverID r =? driver_id)
                        (tblDriver d))
         | None => []
         end).
Proof.
  intro Hf. unfold select_driver, driver_of. rewrite Hf. f_equal.
  induction (tblDriver d) as [|c l IH]; [reflexivity|]. cbn [filter find].
  destruct (Driver.DriverID c =? driver_id); [reflexivity|exact IH].
Qed.

Lemma select_supplier_eq d supplier_id :
  fits_int64 supplier_id = true ->
  select_supplier supplier_id d
  = inr (match supplier_of d supplier_id with
         | Some c =>
             c :: tl (filter (fun r => Supplier.SupplierID r =? supplier_id)
                        (tblSupplier d))
         | None => []
         end).
Proof.
  intro Hf. unfold select_supplier, supplier_of. rewrite Hf. f_equal.
  induction (tblSupplier d) as [|c l IH]; [reflexivity|]. cbn [filter find].
  destruct (Supplier.SupplierID c =? supplier_id); [reflexivity|exact IH].
Qed.

Lemma update_driver_not_found d bad good driver_id rest out :
  Forall (not_an_int None) bad ->
  Py.int (Py.strip good) = Some driver_id ->
  driver_of d driver_id = None ->
  let out' := out ++ retries "Driver ID" "Please enter a valid integer." bad in
  update_driver (mkworld d (bad ++ good :: rest) out)
  = if fits_int64 driver_id
    then Returned tt
           (mkworld d rest (out' ++ [Printed [Text "Driver not found."]]))
    else Raised OverflowError (mkworld d rest out').
Proof.
  intros Hbad Hgood Hc out'. unfold update_driver.
  rewrite (bind_returned _ _ _ _ _
             (prompt_int_accepts "Driver ID" None d bad good driver_id
                rest out Hbad Hgood)).
  fold out'. unfold bind at 1, db_query. cbn [db].
  destruct (fits_int64 driver_id) eqn:Hfit.
  - rewrite select_driver_eq by assumption. now rewrite Hc, print_eq.
  - unfold select_driver. now rewrite Hfit.
Qed.

Lemma update_supplier_not_found d bad good supplier_id rest out :
  Forall (not_an_int None) bad ->
  Py.int (Py.strip good) = Some supplier_id ->
  supplier_of d supplier_id = None ->
  let out' :=
    out ++ retries "Supplier ID" "Please enter a valid integer." bad in
  update_supplier (mkworld d (bad ++ good :: rest) out)
  = if fits_int64 supplier_id
    then Returned tt
           (mkworld d rest (out' ++ [Printed [Text "Supplier not found."]]))
    else Raised OverflowError (mkworld d rest out').
Proof.
  intros Hbad Hgood Hc out'. unfold update_supplier.
  rewrite (bind_returned _ _ _ _ _
             (prompt_int_accepts "Supplier ID" None d bad good supplier_id
                rest out Hbad Hgood)).
  fold out'. unfold bind at 1, db_query. cbn [db].
  destruct (fits_int64 supplier_id) eqn:Hfit.
  - rewrite select_supplier_eq by assumption. now rewrite Hc, print_eq.
  - unfold select_supplier. now rewrite Hfit.
Qed.

Definition driver_entered (c : Driver.row) (l1 l2 l3 l4 : string)
  (r : Driver.row) : Driver.row :=
  Driver.mk (Driver.DriverID r)
    (entered (Some (Driver.Name c)) l1)
    (Some (entered (Driver.PhoneNo c) l2))
    (Some (entered (Driver.Status c) l3))
    (Some (entered (Driver.Notes c) l4)).

Definition supplier_entered (c : Supplier.row) (l1 l2 l3 l4 : string)
  (r : Supplier.row) : Supplier.row :=
  Supplier.mk (Supplier.SupplierID r)
    (entered (Some (Supplier.CompanyName c)) l1)
    (Some (entered (Supplier.ContactPerson c) l2))
    (Some (entered (Supplier.PhoneNo c) l3))
    (Some (entered (Supplier.Email c) l4)).

Lemma update_driver_run d bad good driver_id c l1 l2 l3 l4 rest out :
  Forall (not_an_int None) bad ->
  Py.int (Py.strip good) = Some driver_id ->
  fits_int64 driver_id = true ->
  driver_of d driver_id = Some c ->
  update_driver
    (mkworld d (bad ++ good :: l1 :: l2 :: l3 :: l4 :: rest) out)
  = Returned tt
      (mkworld
         (set_tblDriver
            (map (fun r => if Driver.DriverID r =? driver_id
                           then driver_entered c l1 l2 l3 l4 r
                           else r) (tblDriver d)) d)
         rest
         (out ++ retries "Driver ID" "Please enter a valid integer." bad
              ++ [Asked "Name: "; Asked "Phone: "; Asked "Status: ";
                  Asked "Notes: "; Printed [Text "Driver updated."]])).
Proof.
  intros Hbad Hgood Hfit Hc. unfold update_driver.
  rewrite (bind_returned _ _ _ _ _
             (prompt_int_accepts "Driver ID" None d bad good driver_id
                (l1 :: l2 :: l3 :: l4 :: rest) out Hbad Hgood)).
  unfold bind at 1, db_query. cbn [db].
  rewrite select_driver_eq by assumption. rewrite Hc.
  unfold bind at 1. rewrite prompt_line.
  unfold bind at 1. rewrite prompt_line.
  unfold bind at 1. rewrite prompt_line.
  unfold bind at 1. rewrite prompt_line.
  unfold bind, db_execute, update_driver_where. cbn [db stdin stdout].
  rewrite Hfit, print_eq. unfold wrote. cbn [db stdin stdout].
  now rewrite <- !List.app_assoc.
Qed.

Lemma update_supplier_run d bad good supplier_id c l1 l2 l3 l4 rest out :
  Forall (not_an_int None) bad ->
  Py.int (Py.strip good) = Some supplier_id ->
  fits_int64 supplier_id = true ->
  supplier_of d supplier_id = Some c ->
  update_supplier
    (mkworld d (bad ++ good :: l1 :: l2 :: l3 :: l4 :: rest) out)
  = Returned tt
      (mkworld
         (set_tblSupplier
            (map (fun r => if Supplier.SupplierID r =? supplier_id
                           then supplier_entered c l1 l2 l3 l4 r
                           else r) (tblSupplier d)) d)
         rest
         (out ++ retries "Supplier ID" "Please enter a valid integer." bad
              ++ [Asked "Company Name: "; Asked "Contact Person: ";
                  Asked "Phone: "; Asked "Email: ";
                  Printed [Text "Supplier updated."]])).
Proof.
  intros Hbad Hgood Hfit Hc. unfold update_supplier.
  rewrite (bind_returned _ _ _ _ _
             (prompt_int_accepts "Supplier ID" None d bad good supplier_id
                (l1 :: l2 :: l3 :: l4 :: rest) out Hbad Hgood)).
  unfold bind at 1, db_query. cbn [db].
  rewrite select_supplier_eq by assumption. rewrite Hc.
  unfold bind at 1. rewrite prompt_line.
  unfold bind at 1. rewrite prompt_line.
  unfold bind at 1. rewrite prompt_line.
  unfold bind at 1. rewrite prompt_line.
  unfold bind, db_execute, update_supplier_where. cbn [db stdin stdout].
  rewrite Hfit, print_eq. unfold wrote. cbn [db stdin stdout].
  now rewrite <- !List.app_assoc.
Qed.

(** X28. [update_driver], [update_supplier] and [update_customer] store, in
    every row with the id given, what was entered for each of the four
    columns: for an empty line the value of the first row found, and the
    empty text where that value is NULL; for any other line the text
    stripped, which is the empty text for a line of white space, the NOT
    NULL name included. An id that no row of the table carries ends in
    Driver, Supplier or Customer not found. with the store unchanged when
    it is within the signed 64-bit integers; beyond them the SELECT ends
    in OverflowError, which escapes with the store unchanged. *)
Theorem updates_keep_what_is_left_blank :
  forall d bad good id l1 l2 l3 l4 rest out,
    Forall (not_an_int None) bad ->
    Py.int (Py.strip good) = Some id ->
    let lines := bad ++ good :: l1 :: l2 :: l3 :: l4 :: rest in
    let said table reason :=
      if fits_int64 id
      then Returned tt
             (mkworld d rest
                ((out ++ retries table "Please enter a valid integer." bad)
                 ++ [Printed [Text reason]]))
      else Raised OverflowError
             (mkworld d rest
                (out ++ retries table "Please enter a valid integer." bad)) in
    (fits_int64 id = true ->
     (forall r,
         driver_of d id = Some r ->
         db (world_of (update_driver (mkworld d lines out)))
         = set_tblDriver
             (map (fun x => if Driver.DriverID x =? id
                            then driver_entered r l1 l2 l3 l4 x else x)
                (tblDriver d)) d)
     /\ (forall r,
            supplier_of d id = Some r ->
            db (world_of (update_supplier (mkworld d lines out)))
            = set_tblSupplier
                (map (fun x => if Supplier.SupplierID x =? id
                               then supplier_entered r l1 l2 l3 l4 x else x)
                   (tblSupplier d)) d)
     /\ (forall r,
            customer_of d id = Some r ->
            db (world_of (update_customer (mkworld d lines out)))
            = set_tblCustomer
                (map (fun x => if Customer.CustomerID x =? id
                               then customer_entered r l1 l2 l3 l4 x else x)
                   (tblCustomer d)) d))
    /\ (forall stored, entered stored "" = kept stored)
    /\ (driver_of d id = None ->
        update_driver (mkworld d (bad ++ good :: rest) out)
        = said "Driver ID" "Driver not found.")
    /\ (supplier_of d id = None ->
        update_supplier (mkworld d (bad ++ good :: rest) out)
        = said "Supplier ID" "Supplier not found.")
    /\ (customer_of d id = None ->
        update_customer (mkworld d (bad ++ good :: rest) out)
        = said "Customer ID" "Customer not found.").
Proof.
  intros d bad good id l1 l2 l3 l4 rest out Hbad Hgood lines said.
  subst lines said. split; [|split; [|split; [|split]]].
  - intro Hfit. split; [|split].
    + intros r Hr. now rewrite (update_driver_run d bad good id r).
    + intros r Hr. now rewrite (update_supplier_run d bad good id r).
    + intros r Hr. now rewrite (update_customer_run d bad good id r).
  - apply entered_empty.
  - intro Hc. now apply (update_driver_not_found d bad good id).
  - intro Hc. now apply (update_supplier_not_found d bad good id).
  - intro Hc. now apply (update_customer_not_found d bad good id).
Qed.

(** Carol's phone number is entered and the other lines are left empty; no
    customer has the id 7; the id 2^63 cannot be looked up. *)
Lemma updates_keep_what_is_left_blank_witness :
  tblCustomer
    (db (world_of (update_customer
                     (console sample_db ["1"; ""; " 555 "; ""; ""]))))
  = [Customer.mk 1 "Carol" (Some "555") (Some "") (Some "")]
  /\ update_customer (console sample_db ["7"; "x"])
     = Returned tt
         (mkworld sample_db ["x"]
            [Asked "Customer ID: "; Printed [Text "Customer not found."]])
  /\ update_customer (console sample_db ["9223372036854775808"; "x"])
     = Raised OverflowError (mkworld sample_db ["x"] [Asked "Customer ID: "]).
Proof.
  split; [|split].
  - exact (f_equal tblCustomer
             (proj2 (proj2
                (proj1 (updates_keep_what_is_left_blank sample_db [] "1" 1
                          "" " 555 " "" "" [] [] (Forall_nil _) eq_refl)
                   eq_refl))
                (Customer.mk 1 "Carol" None None None) eq_refl)).
  - exact (proj2 (proj2 (proj2 (proj2
             (updates_keep_what_is_left_blank sample_db [] "7" 7
                "" "" "" "" ["x"] [] (Forall_nil _) eq_refl)))) eq_refl).
  - exact (proj2 (proj2 (proj2 (proj2
             (updates_keep_what_is_left_blank sample_db []
                "9223372036854775808" (2 ^ 63)
                "" "" "" "" ["x"] [] (Forall_nil _) eq_refl)))) eq_refl).
Defined.

(** ** Listing and searching the master data *)

(** X29. [list_fleet], [list_drivers], [list_suppliers] and
    [list_customers] print every row of their table exactly once and
    change nothing; drivers, suppliers and customers come by ascending
    id. An empty table gives the one line that says so. *)
Theorem listings_show_every_row :
  forall d lines out,
    exists fleets drivers suppliers customers,
      (Permutation fleets (tblFleet d)
       /\ list_fleet (mkworld d lines out)
          = Returned tt
              (mkworld d lines
                 (out ++ rows_listed (map Fleet.cols fleets)
                           "No fleet records.")))
      /\ (Permutation drivers (tblDriver d)
          /\ ascending Driver.DriverID drivers
          /\ list_drivers (mkworld d lines out)
             = Returned tt
                 (mkworld d lines
                    (out ++ rows_listed (map Driver.cols drivers)
                              "No driver records.")))
      /\ (Permutation suppliers (tblSupplier d)
          /\ ascending Supplier.SupplierID suppliers
          /\ list_suppliers (mkworld d lines out)
             = Returned tt
                 (mkworld d lines
                    (out ++ rows_listed (map Supplier.cols suppliers)
                              "No supplier records.")))
      /\ (Permutation customers (tblCustomer d)
          /\ ascending Customer.CustomerID customers
          /\ list_customers (mkworld d lines out)
             = Returned tt
                 (mkworld d lines
                    (out ++ rows_listed (map Customer.cols customers)
                              "No customer records."))).
Proof.
  intros d lines out.
  exists (order_by String.ltb Fleet.FleetID (tblFleet d)),
    (order_by Z.ltb Driver.DriverID (tblDriver d)),
    (order_by Z.ltb Supplier.SupplierID (tblSupplier d)),
    (order_by Z.ltb Customer.CustomerID (tblCustomer d)).
  repeat split;
    try apply order_by_perm; try apply order_by_ascending;
    now apply typed_listing_run.
Qed.

Lemma like_value_plain v s :
  no_wildcard v = true -> no_nul v = true ->
  like_value (Some s) v = contains_ci v (before_nul s).
Proof.
  intros H Hn. unfold like_value, like_opt. now apply like_is_contains_ci.
Qed.

Lemma like_value_nul a b s :
  no_wildcard a = true -> no_nul a = true ->
  like_value (Some s) (a ++ String zero b) = ends_with_ci a (before_nul s).
Proof.
  intros H Hn. unfold like_value, like_opt. now apply like_is_ends_with_ci.
Qed.

Lemma like_value_blank s : like_value (Some s) "" = true.
Proof. apply like_anything. Qed.

(** X30. [search_drivers], [search_suppliers] and [search_customers] print,
    in table order, the rows whose status, company name or name matches
    the text typed, stripped, under LIKE between two percent signs; this
    for a pattern within the 50000 bytes that SQLite accepts. LIKE reads
    the pattern and the column up to their first NUL character. For
    a text without percent sign, underscore and NUL these are the rows
    whose column, up to its first NUL, contains the text, letters of
    either case taken alike; for a text with a NUL, and neither percent
    sign nor underscore before it, they are the rows whose column, up to
    its first NUL, ends with what the text has before the NUL; for a
    blank text they are all rows whose column is not NULL. *)
Theorem master_data_search_matches_like :
  forall d line rest out,
    like_pattern_fits ("%" ++ Py.strip line ++ "%") = true ->
    let v := Py.strip line in
    search_drivers (mkworld d (line :: rest) out)
    = Returned tt
        (mkworld d rest
           (out ++ [Asked "Filter by Status: "]
                ++ rows_listed
                     (map Driver.cols
                        (filter (fun r => like_value (Driver.Status r) v)
                           (tblDriver d)))
                     "No matches."))
    /\ search_suppliers (mkworld d (line :: rest) out)
       = Returned tt
           (mkworld d rest
              (out ++ [Asked "Search company: "]
                   ++ rows_listed
                        (map Supplier.cols
                           (filter
                              (fun r =>
                                 like_value (Some (Supplier.CompanyName r)) v)
                              (tblSupplier d)))
                        "No matches."))
    /\ search_customers (mkworld d (line :: rest) out)
       = Returned tt
           (mkworld d rest
              (out ++ [Asked "Search name: "]
                   ++ rows_listed
                        (map Customer.cols
                           (filter
                              (fun r => like_value (Some (Customer.Name r)) v)
                              (tblCustomer d)))
                        "No matches."))
    /\ (forall s, no_wildcard v = true -> no_nul v = true ->
                  like_value (Some s) v = contains_ci v (before_nul s))
    /\ (forall a b s,
          v = (a ++ String zero b)%string ->
          no_wildcard a = true -> no_nul a = true ->
          like_value (Some s) v = ends_with_ci a (before_nul s))
    /\ (forall s, v = "" -> like_value (Some s) v = true).
Proof.
  intros d line rest out _ v.
  split; [|split; [|split; [|split; [|split]]]].
  - unfold search_drivers. unfold bind at 1. rewrite prompt_line.
    cbn [entered]. fold v.
    rewrite (typed_listing_run (select_drivers_like v) Driver.cols _
               "No matches." d rest _ eq_refl).
    now rewrite <- List.app_assoc.
  - unfold search_suppliers. unfold bind at 1. rewrite prompt_line.
    cbn [entered]. fold v.
    rewrite (typed_listing_run (select_suppliers_like v) Supplier.cols _
               "No matches." d rest _ eq_refl).
    now rewrite <- List.app_assoc.
  - unfold search_customers. unfold bind at 1. rewrite prompt_line.
    cbn [entered]. fold v.
    rewrite (typed_listing_run (select_customers_like v) Customer.cols _
               "No matches." d rest _ eq_refl).
    now rewrite <- List.app_assoc.
  - intros s H Hn. now apply like_value_plain.
  - intros a b s -> H Hn. now apply like_value_nul.
  - intros s ->. apply like_value_blank.
Qed.

(** The text CAR finds Carol; the text made of ROL, a NUL and x finds her
    too, by the end of her name. *)
Lemma master_data_search_matches_like_witness :
  (no_wildcard (Py.strip " CAR ") = true
   /\ no_nul (Py.strip " CAR ") = true
   /\ like_value (Some "Carol") (Py.strip " CAR ")
      = contains_ci (Py.strip " CAR ") (before_nul "Carol")
   /\ contains_ci "CAR" (before_nul "Carol") = true
   /\ search_customers (console sample_db [" CAR "])
      = Returned tt
          (mkworld sample_db []
             [Asked "Search name: ";
              PrintedRow
                (Customer.cols (Customer.mk 1 "Carol" None None None))]))
  /\ like_value (Some "Carol") (Py.strip ("ROL" ++ String zero "x"))
     = ends_with_ci "ROL" (before_nul "Carol")
  /\ ends_with_ci "ROL" (before_nul "Carol") = true
  /\ search_customers (console sample_db [("ROL" ++ String zero "x")%string])
     = Returned tt
         (mkworld sample_db []
            [Asked "Search name: ";
             PrintedRow (Customer.cols (Customer.mk 1 "Carol" None None None))]).
Proof.
  split.
  - destruct (master_data_search_matches_like sample_db " CAR " [] [] eq_refl)
      as (_ & _ & E & Hplain & _).
    split; [reflexivity|]. split; [reflexivity|].
    split; [exact (Hplain "Carol" eq_refl eq_refl)|].
    split; [reflexivity|].
    etransitivity; [exact E|]. reflexivity.
  - destruct (master_data_search_matches_like sample_db
                ("ROL" ++ String zero "x")%string [] [] eq_refl)
      as (_ & _ & E & _ & Hnul & _).
    split; [exact (Hnul "ROL" "x" "Carol" eq_refl eq_refl eq_refl)|].
    split; [reflexivity|].
    etransitivity; [exact E|]. reflexivity.
Defined.
